(** * Geode bridge: a shallow embedding of the orchestration core

    The development follows the Python sources of [geode_bridge]:
    [bridge.py] (the tool-calling loop), [ai_client.py] (the provider
    adapters), [plugins.py] (plugin registration), [obsidian_api.py] (the
    vault client and the built-in tools) and [history.py] (the persisted
    chat history).

    Python values that the code inspects by duck typing are modelled by a
    small object model ([PyVal]); exceptions by an outcome type; network,
    signal and file-system effects by oracles threaded through an explicit
    world, with every observable action recorded in an event trace. *)

From Stdlib Require Import ZArith Lia Ascii String.
From stdpp Require Import base strings list gmap option pretty.

Local Open Scope string_scope.
Local Open Scope list_scope.
Set Warnings "-register-all".

(** ** Python exceptions *)

Module Py.

(** The exception classes that occur in the modelled modules.  All of them
    derive from [Exception]; [KeyboardInterrupt] and [SystemExit], which do
    not, are outside the model. *)
Inductive ExcClass :=
| PlainException
| NameError | TypeError | AttributeError | KeyError | IndexError
| ValueError | JSONDecodeError | UnicodeDecodeError
| ImportError | OSError | RecursionError
| GeodeException
| ObsidianError | ObsidianConnectionError | ObsidianAuthError | ObsidianAPIError
| GeminiError | GeminiAuthError | GeminiAPIError
| VendorError.

Record Exc := mkExc {
  exc_class : ExcClass;
  exc_msg : string;              (* what [str(e)] and [f"{e}"] give *)
  exc_status : option Z          (* [ObsidianAPIError.status_code] *)
}.

Definition exc (c : ExcClass) (msg : string) : Exc := mkExc c msg None.

Definition newline : string := String (Ascii.ascii_of_nat 10) "".

#[global] Instance ExcClass_eq_dec : EqDecision ExcClass.
Proof. solve_decision. Defined.

(** The direct base class, from the [class] statements of [exceptions.py]
    and from the Python built-ins. *)
Definition base_class (c : ExcClass) : option ExcClass :=
  match c with
  | PlainException => None
  | JSONDecodeError | UnicodeDecodeError => Some ValueError
  | RecursionError => Some PlainException
  | ObsidianError | GeminiError => Some GeodeException
  | ObsidianConnectionError | ObsidianAuthError | ObsidianAPIError => Some ObsidianError
  | GeminiAuthError | GeminiAPIError => Some GeminiError
  | _ => Some PlainException
  end.

Fixpoint issubclass_fuel (n : nat) (c d : ExcClass) : bool :=
  if decide (c = d) then true
  else match n with
       | O => false
       | S n' => match base_class c with
                 | Some b => issubclass_fuel n' b d
                 | None => false
                 end
       end.

(** [isinstance(e, d)]; the class hierarchy has depth at most four. *)
Definition isinstance (e : Exc) (d : ExcClass) : bool :=
  issubclass_fuel 4 (exc_class e) d.
#[global] Arguments isinstance : simpl never.

(** ** Outcomes of pure, fallible code *)

Inductive Outcome (A : Type) :=
| Ok (a : A)
| Raise (e : Exc).
Arguments Ok {A} a.
Arguments Raise {A} e.

Definition obind {A B} (o : Outcome A) (k : A -> Outcome B) : Outcome B :=
  match o with
  | Ok a => k a
  | Raise e => Raise e
  end.

Definition is_ok {A} (o : Outcome A) : bool :=
  match o with Ok _ => true | Raise _ => false end.

(** ** Python values inspected by duck typing *)

Inductive PyVal :=
| PNone
| PBool (b : bool)
| PInt (z : Z)
| PStr (s : string)
| PList (l : list PyVal)
| PDict (d : list (string * PyVal))
| PObj (attrs : list (string * PyVal)).

Fixpoint assoc {V} (k : string) (l : list (string * V)) : option V :=
  match l with
  | [] => None
  | (k', v) :: l' => if String.eqb k k' then Some v else assoc k l'
  end.

(** Truth value of an object, as [if x:] and [x and y] test it.  Plain
    objects are true. *)
Definition truthy (v : PyVal) : bool :=
  match v with
  | PNone => false
  | PBool b => b
  | PInt z => negb (Z.eqb z 0)
  | PStr s => negb (String.eqb s "")
  | PList l => match l with [] => false | _ => true end
  | PDict d => match d with [] => false | _ => true end
  | PObj _ => true
  end.

(** [hasattr(o, n)] for the attribute names used by the bridge
    ([candidates], [content], [parts], [function_call], [text], [name],
    [args]): only objects carry them. *)
Definition hasattr (o : PyVal) (n : string) : bool :=
  match o with
  | PObj a => match assoc n a with Some _ => true | None => false end
  | _ => false
  end.

Definition getattr (o : PyVal) (n : string) : Outcome PyVal :=
  match o with
  | PObj a => match assoc n a with
              | Some v => Ok v
              | None => Raise (exc AttributeError ("object has no attribute '" +:+ n +:+ "'"))
              end
  | _ => Raise (exc AttributeError ("object has no attribute '" +:+ n +:+ "'"))
  end.

(** [hasattr(o, n) and o.n]: the attribute when it is there and true. *)
Definition attr_if_truthy (o : PyVal) (n : string) : option PyVal :=
  match o with
  | PObj a => match assoc n a with
              | Some v => if truthy v then Some v else None
              | None => None
              end
  | _ => None
  end.

(** [v[0]] *)
Definition getitem0 (v : PyVal) : Outcome PyVal :=
  match v with
  | PList (x :: _) => Ok x
  | PList [] => Raise (exc IndexError "list index out of range")
  | PStr (String c _) => Ok (PStr (String c ""))
  | PStr "" => Raise (exc IndexError "string index out of range")
  | PDict _ => Raise (exc KeyError "0")
  | _ => Raise (exc TypeError "object is not subscriptable")
  end.

Fixpoint chars (s : string) : list PyVal :=
  match s with
  | "" => []
  | String c s' => PStr (String c "") :: chars s'
  end.

(** The items a [for] loop over [v] visits. *)
Definition iterate (v : PyVal) : Outcome (list PyVal) :=
  match v with
  | PList l => Ok l
  | PStr s => Ok (chars s)
  | PDict d => Ok (map (fun kv => PStr (fst kv)) d)
  | PNone => Raise (exc TypeError "'NoneType' object is not iterable")
  | _ => Raise (exc TypeError "object is not iterable")
  end.

(** [dict(v)] for a mapping. *)
Definition to_dict (v : PyVal) : Outcome (list (string * PyVal)) :=
  match v with
  | PDict d => Ok d
  | _ => Raise (exc TypeError "cannot convert dictionary update sequence")
  end.

End Py.
Export Py.

(** ** A world-passing monad with exceptions and an event trace *)

Module Effects.
Section Monad.
Context {W E : Type}.

Record Res (A : Type) := mkRes {
  out : Outcome A;
  world : W;
  trace : list E
}.
Arguments mkRes {A}.
Arguments out {A}.
Arguments world {A}.
Arguments trace {A}.

Definition M (A : Type) : Type := W -> Res A.

Definition ret {A} (a : A) : M A := fun w => mkRes (Ok a) w [].

Definition raise {A} (e : Exc) : M A := fun w => mkRes (Raise e) w [].

Definition bind {A B} (m : M A) (k : A -> M B) : M B :=
  fun w =>
    match m w with
    | mkRes (Ok a) w1 t1 =>
      match k a w1 with
      | mkRes o w2 t2 => mkRes o w2 (t1 ++ t2)
      end
    | mkRes (Raise e) w1 t1 => mkRes (Raise e) w1 t1
    end.

(** Pure fallible code run inside the monad. *)
Definition lift {A} (o : Outcome A) : M A := fun w => mkRes o w [].

(** One observable action: the oracle decides its outcome, the trace
    records the action together with the outcome. *)
Definition act {A} (oracle : W -> Outcome A * W) (ev : Outcome A -> E) : M A :=
  fun w => let '(o, w') := oracle w in mkRes o w' [ev o].

(** An action that cannot fail (a call of the logger). *)
Definition note (ev : E) : M unit := fun w => mkRes (Ok tt) w [ev].

(** [try: body  except Exception as e: handler e] *)
Definition try_except {A} (body : M A) (handler : Exc -> M A) : M A :=
  fun w =>
    match body w with
    | mkRes (Ok a) w1 t1 => mkRes (Ok a) w1 t1
    | mkRes (Raise e) w1 t1 =>
      match handler e w1 with
      | mkRes o w2 t2 => mkRes o w2 (t1 ++ t2)
      end
    end.

(** [try: body  except C as e: handler e]: only instances of [C] are
    handled. *)
Definition try_except_class {A} (body : M A) (C : ExcClass) (handler : Exc -> M A) : M A :=
  try_except body (fun e => if isinstance e C then handler e else raise e).

(** [try: body  finally: fin]: [fin] always runs; an exception of [fin]
    replaces the outcome of [body]. *)
Definition try_finally {A} (body : M A) (fin : M unit) : M A :=
  fun w =>
    match body w with
    | mkRes o w1 t1 =>
      match fin w1 with
      | mkRes (Ok _) w2 t2 => mkRes o w2 (t1 ++ t2)
      | mkRes (Raise e) w2 t2 => mkRes (Raise e) w2 (t1 ++ t2)
      end
    end.
End Monad.

Arguments Res : clear implicits.
Arguments M : clear implicits.
Arguments mkRes {W E A}.
Arguments out {W E A}.
Arguments world {W E A}.
Arguments trace {W E A}.
End Effects.
Export Effects.

Notation "x <- m ;; k" := (bind m (fun x => k))
  (at level 90, m at level 89, k at level 200, right associativity).
Notation "m ;;; k" := (bind m (fun _ => k))
  (at level 90, k at level 200, right associativity).

(** ** [bridge.py]: the orchestrator *)

Module Bridge.

(** What [types.FunctionResponse(name=..., response=...)] builds. *)
Record FunctionResponse := mkFunctionResponse {
  fr_name : PyVal;
  fr_response : PyVal
}.

(** The argument of [ai_client.send_message]: the user's prompt, or the
    list of function responses of one round. *)
Inductive SendInput :=
| Prompt (prompt : string)
| ToolResults (function_responses : list FunctionResponse).

(** The Qt signals of the [signals] object and their payloads. *)
Inductive Signal :=
| SigMessage (sender text : string)
| SigToolCall (text : string)
| SigError (text : string)
| SigFinished.

Inductive LogLevel := INFO | WARNING | ERROR.

Inductive Event :=
| EvSend (input : SendInput) (result : Outcome PyVal)
| EvEmit (s : Signal) (result : Outcome unit)
| EvTool (name : string) (args : list (string * PyVal)) (result : Outcome PyVal)
| EvLog (level : LogLevel) (msg : string).

(** The names bound in the module namespace of [bridge.py]: its imports,
    [logger] and the class.  The name [types], which
    [_execute_function_call] uses, is not among them. *)
Definition bridge_module_names : list string :=
  [ "logging"; "Config"; "ObsidianAPI"; "ObsidianTools"; "PluginManager";
    "MCPClient"; "create_ai_client"; "GeminiAuthError"; "GeminiAPIError";
    "GeodeException"; "ObsidianAuthError"; "ObsidianConnectionError";
    "logger"; "GeodeBridge" ].

(** A binding of the global name [types]: the constructor it would give
    for [types.FunctionResponse]. *)
Definition TypesModule : Type := PyVal -> PyVal -> Outcome FunctionResponse.

(** The module namespace of [bridge.py] as far as [types] goes: the name is
    bound only if an import puts it there. *)
Definition module_types (names : list string) (binding : TypesModule) : option TypesModule :=
  if bool_decide ("types" ∈ names) then Some binding else None.

Definition max_iterations : nat := 10.

(** [_format_error_message] builds its text from [str(error)] only. *)
Definition _format_error_message (error : Exc) : string :=
  if isinstance error GeminiAuthError || isinstance error ObsidianAuthError then
    "Authentication Error: Please check your API keys in settings."
  else if isinstance error ObsidianConnectionError then
    "Obsidian Connection Error: Is Obsidian running with the Local REST API plugin?"
  else "An unexpected error occurred: " +:+ exc_msg error.

(** [_extract_function_calls] *)
Definition _extract_function_calls (response : PyVal) : Outcome (list PyVal) :=
  match attr_if_truthy response "candidates" with
  | None => Ok []
  | Some candidates =>
    obind (getitem0 candidates) (fun candidate =>
    match attr_if_truthy candidate "content" with
    | None => Ok []
    | Some content =>
      obind (getattr content "parts") (fun parts =>
      obind (iterate parts) (fun parts =>
      Ok (omap (fun part => attr_if_truthy part "function_call") parts)))
    end)
  end.

(** [final_text += part.text] for the parts whose [text] is there and
    true; adding anything but a string to a string is a [TypeError]. *)
Fixpoint concat_text (final_text : string) (parts : list PyVal) : Outcome string :=
  match parts with
  | [] => Ok final_text
  | part :: parts' =>
    match attr_if_truthy part "text" with
    | None => concat_text final_text parts'
    | Some (PStr s) => concat_text (final_text +:+ s) parts'
    | Some _ => Raise (exc TypeError "can only concatenate str to str")
    end
  end.

(** [_extract_final_text] *)
Definition _extract_final_text (response : PyVal) : Outcome string :=
  match attr_if_truthy response "candidates" with
  | None => Ok ""
  | Some candidates =>
    obind (getitem0 candidates) (fun candidate =>
    match attr_if_truthy candidate "content" with
    | None => Ok ""
    | Some content =>
      obind (getattr content "parts") (fun parts =>
      obind (iterate parts) (fun parts => concat_text "" parts))
    end)
  end.

(** [final_text or "(No text response)"] *)
Definition text_or_default (final_text : string) : string :=
  if String.eqb final_text "" then "(No text response)" else final_text.

Fixpoint join (sep : string) (l : list string) : string :=
  match l with
  | [] => ""
  | [x] => x
  | x :: l' => x +:+ sep +:+ join sep l'
  end.

Section Orchestrator.
(** The state of everything outside the bridge: the provider, the UI
    behind the signals, the vault behind the tools. *)
Context {World : Type}.

(** A tool function: its [__name__] and what calling it with keyword
    arguments does. *)
Record Tool := mkTool {
  tool_name : string;
  tool_call : list (string * PyVal) -> World -> Outcome PyVal * World
}.

(** The collaborators of one [GeodeBridge] instance. *)
Record Env := mkEnv {
  (* [self.ai_client.send_message] *)
  ai_client_send_message : SendInput -> World -> Outcome PyVal * World;
  (* [signals.<name>.emit] *)
  signal_emit : Signal -> World -> Outcome unit * World;
  (* [self.tool_function_map] *)
  tool_function_map : gmap string Tool;
  (* Python's [str] on the values formatted into messages *)
  py_str : PyVal -> string
}.

Variable env : Env.
(** The binding of the global name [types], if any. *)
Variable types : option TypesModule.

#[local] Abbreviation M := (M World Event).

Definition send (input : SendInput) : M PyVal :=
  act (ai_client_send_message env input) (EvSend input).

Definition emit (s : Signal) : M unit :=
  act (signal_emit env s) (EvEmit s).

Definition log (level : LogLevel) (msg : string) : M unit :=
  note (EvLog level msg).

(** [f"{k}='{v}'"] *)
Definition format_arg (kv : string * PyVal) : string :=
  fst kv +:+ "='" +:+ py_str env (snd kv) +:+ "'".

(** [self.tool_function_map.get(function_name)]: a name that is not a
    string is not a key of the map; a list or a dictionary cannot be
    hashed at all. *)
Definition lookup_tool (function_name : PyVal) : Outcome (option Tool) :=
  match function_name with
  | PStr s => Ok (tool_function_map env !! s)
  | PList _ | PDict _ => Raise (exc TypeError "unhashable type")
  | _ => Ok None
  end.

(** [isinstance(tool_response, (str, dict, int, float, list, bool,
    type(None)))], else [str(tool_response)]. *)
Definition coerce_response (tool_response : PyVal) : PyVal :=
  match tool_response with
  | PObj _ => PStr (py_str env tool_response)
  | _ => tool_response
  end.

(** [_execute_function_call] *)
Definition _execute_function_call (function_call : PyVal) : M FunctionResponse :=
  function_name <- lift (getattr function_call "name") ;;
  args <- lift (obind (getattr function_call "args") (fun a =>
                  if truthy a then to_dict a else Ok [])) ;;
  let args_str := join ", " (map format_arg args) in
  emit (SigToolCall (py_str env function_name +:+ "(" +:+ args_str +:+ ")")) ;;;
  function_to_call <- lift (lookup_tool function_name) ;;
  match function_to_call with
  | None =>
    raise (exc PlainException
             ("Unknown tool function requested: " +:+ py_str env function_name))
  | Some f =>
    tool_response <- act (tool_call f args) (EvTool (tool_name f) args) ;;
    let tool_response := coerce_response tool_response in
    match types with
    | None => raise (exc NameError "name 'types' is not defined")
    | Some FunctionResponse_ => lift (FunctionResponse_ function_name tool_response)
    end
  end.

(** The inner [for function_call in function_calls] loop.  [None] stands
    for the [return] of the handler, which leaves
    [_process_tool_calls]. *)
Fixpoint execute_all (function_calls : list PyVal)
         (function_responses : list FunctionResponse)
  : M (option (list FunctionResponse)) :=
  match function_calls with
  | [] => ret (Some function_responses)
  | function_call :: rest =>
    r <- try_except
           (function_response <- _execute_function_call function_call ;;
            ret (Some function_response))
           (fun e =>
              log ERROR ("Tool execution failed: " +:+ exc_msg e) ;;;
              emit (SigError ("Tool execution failed: " +:+ exc_msg e)) ;;;
              ret None) ;;
    match r with
    | Some function_response =>
      execute_all rest (function_responses ++ [function_response])
    | None => ret None
    end
  end.

(** [response = self.ai_client.send_message(function_responses)] under
    its handler; [None] stands for the handler's [return]. *)
Definition resubmit (response : PyVal) (function_responses : list FunctionResponse)
  : M (option PyVal) :=
  match function_responses with
  | [] => ret (Some response)
  | _ =>
    try_except
      (response' <- send (ToolResults function_responses) ;; ret (Some response'))
      (fun e =>
         log ERROR ("Error sending function responses: " +:+ exc_msg e) ;;;
         emit (SigError ("Error sending function responses: " +:+ exc_msg e)) ;;;
         ret None)
  end.

(** The body of [for iteration in range(max_iterations)], over the
    iterations that remain. *)
Fixpoint tool_loop (iterations : list nat) (response : PyVal) : M unit :=
  match iterations with
  | [] => ret tt
  | iteration :: rest =>
    function_calls <- lift (_extract_function_calls response) ;;
    match function_calls with
    | [] => ret tt
    | _ =>
      r <- execute_all function_calls [] ;;
      match r with
      | None => ret tt
      | Some function_responses =>
        r' <- resubmit response function_responses ;;
        match r' with
        | None => ret tt
        | Some response' =>
          if Nat.eqb iteration (max_iterations - 1) then
            log WARNING "Max tool-use iterations reached" ;;;
            emit (SigError "Tool-use loop exceeded maximum iterations")
          else tool_loop rest response'
        end
      end
    end
  end.

(** [_process_tool_calls] *)
Definition _process_tool_calls (response : PyVal) : M unit :=
  tool_loop (seq 0 max_iterations) response.

(** The [try] block of [send_message]. *)
Definition send_message_try (prompt : string) : M unit :=
  response <- send (Prompt prompt) ;;
  _process_tool_calls response ;;;
  final_text <- lift (_extract_final_text response) ;;
  emit (SigMessage "Geode" (text_or_default final_text)).

(** Its [except Exception as e] block. *)
Definition send_message_except (e : Exc) : M unit :=
  log ERROR ("Error in send_message: " +:+ exc_msg e) ;;;
  emit (SigError (_format_error_message e)).

(** Its [finally] block. *)
Definition send_message_finally : M unit :=
  try_except
    (emit SigFinished)
    (fun finish_exc =>
       log ERROR ("Error emitting finished signal: " +:+ exc_msg finish_exc)).

(** [send_message] *)
Definition send_message (prompt : string) : M unit :=
  try_finally
    (try_except (send_message_try prompt) send_message_except)
    send_message_finally.
End Orchestrator.

Arguments Tool : clear implicits.
Arguments Env : clear implicits.

(** [bridge.py] as it is written: no import binds [types]. *)
Definition bridge_py_types : option TypesModule :=
  module_types bridge_module_names (fun name response => Ok (mkFunctionResponse name response)).

(** [self.tool_function_map = {func.__name__: func for func in
    self.tool_functions}]: a later function replaces an earlier one of the
    same name. *)
Definition make_tool_function_map {World} (tool_functions : list (Tool World))
  : gmap string (Tool World) :=
  foldl (fun m func => <[tool_name func := func]> m) ∅ tool_functions.

End Bridge.

(** ** [config.py] and [ai_client.py]: the provider adapters *)

Module AIClient.

Record Config := mkConfig {
  gemini_api_key : string;
  claude_api_key : string;
  openai_api_key : string;
  cohere_api_key : string;
  mistral_api_key : string;
  perplexity_api_key : string;
  together_api_key : string;
  ollama_base_url : string;
  ai_provider : string;
  model_name : string
}.

(** [Config.get_current_api_key] *)
Definition get_current_api_key (c : Config) : string :=
  if String.eqb (ai_provider c) "gemini" then gemini_api_key c
  else if String.eqb (ai_provider c) "claude" then claude_api_key c
  else if String.eqb (ai_provider c) "openai" then openai_api_key c
  else if String.eqb (ai_provider c) "cohere" then cohere_api_key c
  else if String.eqb (ai_provider c) "mistral" then mistral_api_key c
  else if String.eqb (ai_provider c) "perplexity" then perplexity_api_key c
  else if String.eqb (ai_provider c) "together" then together_api_key c
  else if String.eqb (ai_provider c) "ollama" then ""
  else "".

(** The adapter classes. *)
Inductive Provider :=
| GeminiClient | ClaudeClient | OpenAIClient | CohereClient
| MistralClient | OllamaClient | PerplexityClient | TogetherClient.

(** [create_ai_client] *)
Definition create_ai_client (c : Config) : Outcome Provider :=
  if String.eqb (ai_provider c) "gemini" then Ok GeminiClient
  else if String.eqb (ai_provider c) "claude" then Ok ClaudeClient
  else if String.eqb (ai_provider c) "openai" then Ok OpenAIClient
  else if String.eqb (ai_provider c) "cohere" then Ok CohereClient
  else if String.eqb (ai_provider c) "mistral" then Ok MistralClient
  else if String.eqb (ai_provider c) "ollama" then Ok OllamaClient
  else if String.eqb (ai_provider c) "perplexity" then Ok PerplexityClient
  else if String.eqb (ai_provider c) "together" then Ok TogetherClient
  else Raise (exc ValueError ("Unsupported AI provider: " +:+ ai_provider c)).

(** The attributes of an adapter object.  [client] and [chat] are set to
    [None] by [AIClient.__init__]; the other attributes do not exist until
    a method assigns them ([None] below). *)
Record Adapter := mkAdapter {
  client : option PyVal;
  chat : option PyVal;
  vendor_module : bool;                  (* [self.genai], [self.anthropic], ... *)
  tool_functions : option (list string);
  messages : option (list PyVal);
  chat_history : option (list PyVal)
}.

(** [AIClient.__init__] *)
Definition new_adapter : Adapter := mkAdapter None None false None None None.

(** What the vendor libraries do: whether the package can be imported, what
    its client constructor answers for a key, and what its calls return. *)
Record Vendor := mkVendor {
  importable : bool;
  make_client : string -> Outcome PyVal;
  chats_create : PyVal -> string -> list string -> Outcome PyVal;
  request : option PyVal -> PyVal -> Outcome PyVal;
  reply_entry : PyVal -> Outcome (option PyVal)
}.

Inductive Log := LogInfo (msg : string) | LogError (msg : string).

Section Adapters.
Variable vendor : Vendor.
Variable config : Config.

#[local] Abbreviation M := (M Adapter Log).

Definition get : M Adapter := fun a => mkRes (Ok a) a [].
Definition put (a : Adapter) : M unit := fun _ => mkRes (Ok tt) a [].
Definition modify (f : Adapter -> Adapter) : M unit := fun a => mkRes (Ok tt) (f a) [].

Definition set_client v a := mkAdapter (Some v) (chat a) (vendor_module a) (tool_functions a) (messages a) (chat_history a).
Definition set_chat v a := mkAdapter (client a) (Some v) (vendor_module a) (tool_functions a) (messages a) (chat_history a).
Definition set_vendor_module a := mkAdapter (client a) (chat a) true (tool_functions a) (messages a) (chat_history a).
Definition set_tool_functions t a := mkAdapter (client a) (chat a) (vendor_module a) (Some t) (messages a) (chat_history a).
Definition set_messages m a := mkAdapter (client a) (chat a) (vendor_module a) (tool_functions a) (Some m) (chat_history a).
Definition set_chat_history h a := mkAdapter (client a) (chat a) (vendor_module a) (tool_functions a) (messages a) (Some h).

(** An [import] statement of the vendor package. *)
Definition import_vendor (package : string) : M unit :=
  if importable vendor then modify set_vendor_module
  else raise (exc ImportError ("No module named '" +:+ package +:+ "'")).

(** [self.client = Vendor(api_key=self.config.get_current_api_key())] *)
Definition construct_client : M unit :=
  c <- lift (make_client vendor (get_current_api_key config)) ;;
  modify (set_client c).

Definition auth_error (msg : string) : Exc := exc GeminiAuthError msg.

(** [self.messages.append(entry)] *)
Definition messages_append (owner : string) (entry : PyVal) : M unit :=
  a <- get ;;
  match messages a with
  | Some m => put (set_messages (m ++ [entry]) a)
  | None => raise (exc AttributeError ("'" +:+ owner +:+ "' object has no attribute 'messages'"))
  end.

Definition user_entry (prompt : PyVal) : PyVal :=
  PDict [("role", PStr "user"); ("content", prompt)].

(** The request of a client-stateless adapter: the whole message list is
    sent through [self.client]; the reply, when it has one, is appended
    to the list. *)
Definition stateless_request (owner : string) : M PyVal :=
  a <- get ;;
  match messages a with
  | None => raise (exc AttributeError ("'" +:+ owner +:+ "' object has no attribute 'messages'"))
  | Some m =>
    response <- lift (request vendor (client a) (PList m)) ;;
    entry <- lift (reply_entry vendor response) ;;
    match entry with
    | Some e => messages_append owner e
    | None => ret tt
    end ;;;
    ret response
  end.

(** *** [GeminiClient] *)

Definition Gemini_create_chat_session (tools : list string) : M unit :=
  try_except
    (a <- get ;;
     (if vendor_module a then ret tt
      else match tools with
           | [] => ret tt
           | _ => raise (exc AttributeError "'GeminiClient' object has no attribute 'types'")
           end) ;;;
     match client a with
     | None => raise (exc AttributeError "'NoneType' object has no attribute 'chats'")
     | Some c =>
       ch <- lift (chats_create vendor c (model_name config) tools) ;;
       modify (set_chat ch) ;;;
       note (LogInfo ("Initialized Gemini model: " +:+ model_name config))
     end)
    (fun e =>
       note (LogError ("Failed to create Gemini chat session: " +:+ exc_msg e)) ;;;
       raise (exc GeminiAPIError
                ("Failed to create Gemini chat session '" +:+ model_name config +:+ "': " +:+ exc_msg e))).

Definition Gemini_initialize (tools : list string) : M unit :=
  try_except
    (import_vendor "google.genai" ;;;
     construct_client ;;;
     Gemini_create_chat_session tools ;;;
     note (LogInfo "Gemini client initialized successfully"))
    (fun e =>
       note (LogError ("Failed to create Gemini client: " +:+ exc_msg e)) ;;;
       raise (auth_error ("Failed to create Gemini client: " +:+ exc_msg e))).

Definition Gemini_send_message (prompt : PyVal) : M PyVal :=
  a <- get ;;
  match chat a with
  | None => raise (exc AttributeError "'NoneType' object has no attribute 'send_message'")
  | Some ch => lift (request vendor (Some ch) prompt)
  end.

(** *** The adapters whose [initialize] has an [except ImportError]
    clause before the general one: Claude, OpenAI, Cohere, Mistral,
    Perplexity, Together. *)

Definition initialize_with (package not_installed label : string)
           (body : M unit) (refine : Exc -> option string) : M unit :=
  try_except
    (import_vendor package ;;; body ;;;
     note (LogInfo (label +:+ " client initialized successfully")))
    (fun e =>
       if isinstance e ImportError then raise (auth_error not_installed)
       else
         note (LogError ("Failed to create " +:+ label +:+ " client: " +:+ exc_msg e)) ;;;
         match refine e with
         | Some msg => raise (auth_error msg)
         | None => raise (auth_error ("Failed to create " +:+ label +:+ " client: " +:+ exc_msg e))
         end).

(** [self.tool_functions = tool_functions or []; self.messages = []],
    the body shared by the [create_chat_session] methods of the
    stateless adapters. *)
Definition reset_session (tools : list string) : M unit :=
  modify (set_tool_functions tools) ;;; modify (set_messages []).

Definition Claude_initialize (tools : list string) : M unit :=
  initialize_with "anthropic"
    "Anthropic package not installed. Install with: pip install anthropic" "Claude"
    (construct_client ;;; modify (set_tool_functions tools))
    (fun _ => None).

Definition Claude_create_chat_session (tools : list string) : M unit :=
  reset_session tools ;;;
  note (LogInfo ("Initialized Claude model: " +:+ model_name config)).

Definition Claude_send_message (prompt : PyVal) : M PyVal :=
  messages_append "ClaudeClient" (user_entry prompt) ;;;
  stateless_request "ClaudeClient".

Definition OpenAI_initialize (tools : list string) : M unit :=
  initialize_with "openai"
    "OpenAI package not installed. Install with: pip install openai" "OpenAI"
    (construct_client ;;; modify (set_tool_functions tools))
    (fun _ => None).

Definition OpenAI_create_chat_session (tools : list string) : M unit :=
  reset_session tools ;;;
  note (LogInfo ("Initialized OpenAI model: " +:+ model_name config)).

Definition OpenAI_send_message (prompt : PyVal) : M PyVal :=
  messages_append "OpenAIClient" (user_entry prompt) ;;;
  stateless_request "OpenAIClient".

(** ["api_key" in str(e).lower()], taken as given: it only selects the
    text of the error. *)
Variable mentions_api_key : string -> bool.

Definition Cohere_initialize (tools : list string) : M unit :=
  initialize_with "cohere"
    ("Cohere package not installed. Run: pip install cohere" +:+ newline +:+
     "Or try a different AI provider like Gemini (no extra packages needed).") "Cohere"
    (construct_client ;;; modify (set_tool_functions tools))
    (fun e => if mentions_api_key (exc_msg e)
              then Some "Invalid Cohere API key. Get one at: https://dashboard.cohere.com/api-keys"
              else None).

Definition Cohere_create_chat_session (tools : list string) : M unit :=
  modify (set_tool_functions tools) ;;; modify (set_chat_history []) ;;;
  note (LogInfo ("Initialized Cohere model: " +:+ model_name config)).

(** Cohere passes [self.chat_history] to the request and extends it
    afterwards. *)
Definition Cohere_send_message (prompt : PyVal) : M PyVal :=
  a <- get ;;
  _ <- match tool_functions a with
       | None => raise (exc AttributeError "'CohereClient' object has no attribute 'tool_functions'")
       | Some _ => ret tt
       end ;;
  match chat_history a with
  | None => raise (exc AttributeError "'CohereClient' object has no attribute 'chat_history'")
  | Some h =>
    response <- lift (request vendor (client a) (PList (h ++ [prompt]))) ;;
    entry <- lift (reply_entry vendor response) ;;
    let h' := (h ++ [PDict [("role", PStr "USER"); ("message", prompt)]])%list in
    modify (set_chat_history (match entry with Some e => h' ++ [e] | None => h' end)) ;;;
    ret response
  end.

Definition Mistral_initialize (tools : list string) : M unit :=
  initialize_with "mistralai"
    "Mistral package not installed. Install with: pip install mistralai" "Mistral"
    (construct_client ;;; reset_session tools)
    (fun _ => None).

Definition Mistral_send_message (prompt : PyVal) : M PyVal :=
  (if importable vendor then ret tt
   else raise (exc ImportError "No module named 'mistralai'")) ;;;
  messages_append "MistralClient" (user_entry prompt) ;;;
  stateless_request "MistralClient".

Definition Perplexity_initialize (tools : list string) : M unit :=
  initialize_with "openai"
    "OpenAI package required for Perplexity. Install with: pip install openai" "Perplexity"
    (construct_client ;;; reset_session tools)
    (fun _ => None).

Definition Perplexity_send_message (prompt : PyVal) : M PyVal :=
  messages_append "PerplexityClient" (user_entry prompt) ;;;
  stateless_request "PerplexityClient".

(** [together.api_key = ...] is a plain assignment: no client object is
    constructed and nothing is checked. *)
Definition Together_initialize (tools : list string) : M unit :=
  initialize_with "together"
    "Together package not installed. Install with: pip install together" "Together"
    (reset_session tools)
    (fun _ => None).

Definition Together_send_message (prompt : PyVal) : M PyVal :=
  messages_append "TogetherClient" (user_entry prompt) ;;;
  stateless_request "TogetherClient".

(** *** [OllamaClient]: a single [except Exception] clause, no key. *)
Definition Ollama_initialize (tools : list string) : M unit :=
  try_except
    (import_vendor "requests" ;;; reset_session tools ;;;
     note (LogInfo "Ollama client initialized successfully"))
    (fun e =>
       note (LogError ("Failed to create Ollama client: " +:+ exc_msg e)) ;;;
       raise (auth_error ("Failed to create Ollama client: " +:+ exc_msg e))).

Definition Ollama_send_message (prompt : PyVal) : M PyVal :=
  messages_append "OllamaClient" (user_entry prompt) ;;;
  stateless_request "OllamaClient".

(** The interface [AIClient], by adapter class. *)
Definition initialize (p : Provider) : list string -> M unit :=
  match p with
  | GeminiClient => Gemini_initialize
  | ClaudeClient => Claude_initialize
  | OpenAIClient => OpenAI_initialize
  | CohereClient => Cohere_initialize
  | MistralClient => Mistral_initialize
  | OllamaClient => Ollama_initialize
  | PerplexityClient => Perplexity_initialize
  | TogetherClient => Together_initialize
  end.

Definition send_message (p : Provider) : PyVal -> M PyVal :=
  match p with
  | GeminiClient => Gemini_send_message
  | ClaudeClient => Claude_send_message
  | OpenAIClient => OpenAI_send_message
  | CohereClient => Cohere_send_message
  | MistralClient => Mistral_send_message
  | OllamaClient => Ollama_send_message
  | PerplexityClient => Perplexity_send_message
  | TogetherClient => Together_send_message
  end.

(** A session that [send_message] could use: a chat handle, or a message
    list (a chat history for Cohere). *)
Definition has_session (a : Adapter) : bool :=
  match chat a, messages a, chat_history a with
  | None, None, None => false
  | _, _, _ => true
  end.
End Adapters.

End AIClient.

(** ** [plugins.py] and the composition of the tool catalog *)

Module Plugins.
Section Registry.
Context {World : Type}.
#[local] Abbreviation Tool := (Bridge.Tool World).

(** A plugin instance, by what its three methods answer. *)
Record Plugin := mkPlugin {
  get_name : Outcome string;
  get_description : Outcome string;
  get_tools : Outcome (list Tool)
}.

(** The attributes [self.plugins] and [self.tools] of a
    [PluginManager]. *)
Record PluginManager := mkPluginManager {
  plugins : gmap string Plugin;
  tools : list Tool
}.

(** [PluginManager.__init__] *)
Definition new_manager : PluginManager := mkPluginManager ∅ [].

Inductive Log :=
| LogInfo (msg : string)
| LogWarning (msg : string)
| LogError (msg : string).

#[local] Abbreviation M := (M PluginManager Log).

Definition get : M PluginManager := fun pm => mkRes (Ok pm) pm [].
Definition put (pm : PluginManager) : M unit := fun _ => mkRes (Ok tt) pm [].

(** [_register_plugin]; [plugin_file] is the file name used in the log
    lines. *)
Definition _register_plugin (plugin_instance : Plugin) (plugin_file : string) : M string :=
  try_except
    (plugin_name <- lift (get_name plugin_instance) ;;
     pm <- get ;;
     match plugins pm !! plugin_name with
     | Some _ =>
       note (LogWarning ("Duplicate plugin name '" +:+ plugin_name +:+
                         "' found. Skipping " +:+ plugin_file +:+ ".")) ;;;
       ret ""
     | None =>
       put (mkPluginManager (<[plugin_name := plugin_instance]> (plugins pm)) (tools pm)) ;;;
       plugin_tools <- lift (get_tools plugin_instance) ;;
       pm' <- get ;;
       put (mkPluginManager (plugins pm') (tools pm' ++ plugin_tools)) ;;;
       note (LogInfo ("Successfully loaded plugin: '" +:+ plugin_name +:+
                      "' from " +:+ plugin_file)) ;;;
       ret plugin_name
     end)
    (fun e =>
       note (LogError ("Failed to register plugin from " +:+ plugin_file +:+
                       ": " +:+ exc_msg e)) ;;;
       ret "").

(** A file of the plugin directory: its name and, when the module could
    be imported and a plugin class instantiated, the instance. *)
Record PluginFile := mkPluginFile {
  file_name : string;
  instance : option Plugin
}.

(** [_should_skip_file] *)
Definition _should_skip_file (plugin_file : PluginFile) : bool :=
  String.prefix "__" (file_name plugin_file).

(** [_load_single_plugin] *)
Definition _load_single_plugin (plugin_file : PluginFile) : M string :=
  match instance plugin_file with
  | None => ret ""
  | Some plugin_instance => _register_plugin plugin_instance (file_name plugin_file)
  end.

(** The loop of [load_plugins] over the files found. *)
Fixpoint load_files (plugin_files : list PluginFile) (loaded_plugins : list string)
  : M (list string) :=
  match plugin_files with
  | [] => ret loaded_plugins
  | plugin_file :: rest =>
    if _should_skip_file plugin_file then load_files rest loaded_plugins
    else
      plugin_name <- _load_single_plugin plugin_file ;;
      if String.eqb plugin_name "" then load_files rest loaded_plugins
      else load_files rest (loaded_plugins ++ [plugin_name])
  end.

Definition load_plugins (plugin_files : list PluginFile) : M (list string) :=
  load_files plugin_files [].

(** [get_all_tools] *)
Definition get_all_tools (pm : PluginManager) : list Tool := tools pm.

(** [GeodeBridge._setup_tool_functions]: the built-in tools, then the
    plugin tools, then the tools of the extension client. *)
Definition _setup_tool_functions (builtin : list Tool) (pm : PluginManager)
           (mcp_tools : list Tool) : list Tool :=
  builtin ++ get_all_tools pm ++ mcp_tools.

(** The tool registered first under a name, and the one registered
    last. *)
Definition first_registered (name : string) (tool_functions : list Tool) : option Tool :=
  head (filter (fun t => Bridge.tool_name t = name) tool_functions).

Definition last_registered (name : string) (tool_functions : list Tool) : option Tool :=
  list.last (filter (fun t => Bridge.tool_name t = name) tool_functions).
End Registry.

Arguments Plugin : clear implicits.
Arguments PluginManager : clear implicits.
Arguments PluginFile : clear implicits.

(** [MCPClient.get_available_tools]: [self.available_tools] is created
    empty and nothing adds to it. *)
Definition mcp_get_available_tools {World} (enabled : bool) : list (Bridge.Tool World) :=
  if enabled then [] else [].

End Plugins.

(** ** [obsidian_api.py]: the vault client and the built-in tools *)

Module Obsidian.

(** What [self.session.request(...)] does: a response arrives, or
    [requests] raises. *)
Inductive RequestResult :=
| Responded (status_code : Z) (text : string)
| RaisedTimeout (msg : string)
| RaisedConnectionError (msg : string)
| RaisedRequestException (msg : string)
| RaisedOther (e : Exc).

Record Response := mkResponse {
  status_code : Z;
  text : string
}.

Inductive LogLevel := INFO | WARNING | ERROR.

Inductive Event :=
| EvRequest (method url : string) (result : RequestResult)
| EvLog (level : LogLevel) (msg : string).

(** Strings in increasing order, as [sorted] leaves them. *)
Fixpoint insert_sorted (x : string) (l : list string) : list string :=
  match l with
  | [] => [x]
  | y :: l' => if String.ltb x y then x :: y :: l' else y :: insert_sorted x l'
  end.

Definition sorted (l : list string) : list string :=
  foldl (fun acc x => insert_sorted x acc) [] l.

Fixpoint as_strings (l : list PyVal) : Outcome (list string) :=
  match l with
  | [] => Ok []
  | PStr s :: l' => obind (as_strings l') (fun r => Ok (s :: r))
  | _ :: _ => Raise (exc TypeError "expected str instance")
  end.

(** [data.get(key, [])] *)
Definition dict_get (data : PyVal) (key : string) : Outcome PyVal :=
  match data with
  | PDict d => Ok (default (PList []) (assoc key d))
  | _ => Raise (exc AttributeError "object has no attribute 'get'")
  end.

Section Vault.
Context {World : Type}.

Record Api := mkApi {
  base_url : string;
  (* [self.session.request(method, url, timeout=..., **kwargs)] *)
  session_request : string -> string -> option string -> World -> RequestResult * World;
  (* [urllib.parse.quote] *)
  quote : string -> string;
  (* [response.json()] *)
  json : string -> Outcome PyVal;
  (* [str] of a value formatted into a message *)
  py_str : PyVal -> string
}.

Variable api : Api.

#[local] Abbreviation M := (M World Event).

Definition log (level : LogLevel) (msg : string) : M unit := note (EvLog level msg).

(** [response.raise_for_status()] raises for the 4xx and 5xx codes. *)
Definition is_http_error (status : Z) : bool :=
  (400 <=? status)%Z && (status <? 600)%Z.

(** [ObsidianAPI._make_request] *)
Definition _make_request (method endpoint : string) (data : option string) : M Response :=
  let url := base_url api +:+ endpoint in
  fun w =>
    let '(r, w') := session_request api method url data w in
    let ev := EvRequest method url r in
    match r with
    | Responded status text =>
      if is_http_error status then
        if (status =? 401)%Z then
          mkRes (Raise (exc ObsidianAuthError
                          "Authentication failed (401). Check your Obsidian API key."))
                w' [ev; EvLog ERROR ("Auth error for " +:+ method +:+ " " +:+ url)]
        else if (status =? 404)%Z then
          mkRes (Raise (mkExc ObsidianAPIError
                          ("Resource not found (404) at '" +:+ endpoint +:+ "'") (Some 404%Z)))
                w' [ev; EvLog ERROR ("404 error for " +:+ method +:+ " " +:+ url)]
        else
          mkRes (Raise (mkExc ObsidianAPIError
                          ("HTTP Error " +:+ pretty status +:+ ": " +:+ text) (Some status)))
                w' [ev; EvLog ERROR ("HTTP error for " +:+ method +:+ " " +:+ url)]
      else mkRes (Ok (mkResponse status text)) w' [ev]
    | RaisedTimeout _ =>
      mkRes (Raise (exc ObsidianConnectionError
                      "Request timed out. Check your network or Obsidian's responsiveness."))
            w' [ev; EvLog ERROR ("Timeout error for " +:+ method +:+ " " +:+ url)]
    | RaisedConnectionError _ =>
      mkRes (Raise (exc ObsidianConnectionError
                      "Connection failed. Is Obsidian running with the Local REST API plugin enabled?"))
            w' [ev; EvLog ERROR ("Connection error for " +:+ method +:+ " " +:+ url)]
    | RaisedRequestException msg =>
      mkRes (Raise (exc ObsidianError ("An unexpected request error occurred: " +:+ msg)))
            w' [ev; EvLog ERROR ("Request error for " +:+ method +:+ " " +:+ url)]
    | RaisedOther e => mkRes (Raise e) w' [ev]
    end.

(** [ObsidianAPI.test_connection] *)
Definition test_connection : M (bool * string) :=
  try_except_class
    (log INFO "Testing Obsidian API connection..." ;;;
     _make_request "GET" "/" None ;;;
     log INFO "Obsidian API connection successful" ;;;
     ret (true, "Obsidian connection successful."))
    ObsidianError
    (fun e => log WARNING ("Obsidian connection test failed: " +:+ exc_msg e) ;;;
              ret (false, exc_msg e)).

Definition unexpected (what : string) : M string :=
  log ERROR ("Unexpected error " +:+ what) ;;;
  ret "ERROR: An unexpected error occurred. Check logs.".

(** [ObsidianTools.list_files] *)
Definition list_files (directory : string) : M string :=
  try_except
    (let safe_directory := quote api directory in
     response <- _make_request "GET" ("/vault/" +:+ safe_directory) None ;;
     data <- lift (json api (text response)) ;;
     subfolders <- lift (obind (dict_get data "subfolders") iterate) ;;
     let folders := map (fun name => py_str api name +:+ "/") subfolders in
     files <- lift (dict_get data "files") ;;
     files <- lift (match files with
                    | PList l => Ok l
                    | _ => Raise (exc TypeError "can only concatenate list to list")
                    end) ;;
     match folders, files with
     | [], [] => ret ("SUCCESS: The directory '" +:+ directory +:+ "' is empty.")
     | _, _ =>
       files <- lift (as_strings files) ;;
       let all_items := sorted (folders ++ files) in
       ret ("SUCCESS:\n" +:+ Bridge.join "\n" all_items)
     end)
    (fun e =>
       if isinstance e ObsidianError then
         log ERROR ("API Error listing files in '" +:+ directory +:+ "': " +:+ exc_msg e) ;;;
         ret ("ERROR: Could not list files in '" +:+ directory +:+ "'. Reason: " +:+ exc_msg e)
       else unexpected ("listing files in '" +:+ directory +:+ "'")).

(** [e.status_code == 404] *)
Definition is_404 (e : Exc) : bool :=
  match exc_status e with
  | Some c => (c =? 404)%Z
  | None => false
  end.

(** [ObsidianTools.read_file] *)
Definition read_file (file_path : string) : M string :=
  try_except
    (let safe_path := quote api file_path in
     response <- _make_request "GET" ("/vault/" +:+ safe_path) None ;;
     ret (text response))
    (fun e =>
       if isinstance e ObsidianAPIError then
         if is_404 e then
           ret ("ERROR: The file '" +:+ file_path +:+ "' was not found in the vault.")
         else
           log ERROR ("API Error reading file '" +:+ file_path +:+ "': " +:+ exc_msg e) ;;;
           ret ("ERROR: Could not read file. Reason: " +:+ exc_msg e)
       else unexpected ("reading file '" +:+ file_path +:+ "'")).

(** [ObsidianTools.create_or_update_file] *)
Definition create_or_update_file (file_path content : string) : M string :=
  try_except
    (let safe_path := quote api file_path in
     _make_request "PUT" ("/vault/" +:+ safe_path) (Some content) ;;;
     log INFO ("File '" +:+ file_path +:+ "' saved successfully") ;;;
     ret ("SUCCESS: The file '" +:+ file_path +:+ "' was saved successfully."))
    (fun e =>
       if isinstance e ObsidianError then
         log ERROR ("API Error writing file '" +:+ file_path +:+ "': " +:+ exc_msg e) ;;;
         ret ("ERROR: Could not write to file. Reason: " +:+ exc_msg e)
       else unexpected ("writing file '" +:+ file_path +:+ "'")).

(** [ObsidianTools.delete_file] *)
Definition delete_file (file_path : string) : M string :=
  try_except
    (let safe_path := quote api file_path in
     _make_request "DELETE" ("/vault/" +:+ safe_path) None ;;;
     log INFO ("File '" +:+ file_path +:+ "' deleted successfully") ;;;
     ret ("SUCCESS: The file '" +:+ file_path +:+ "' was deleted."))
    (fun e =>
       if isinstance e ObsidianAPIError then
         if is_404 e then
           ret ("ERROR: Could not delete the file '" +:+ file_path +:+
                "' because it was not found.")
         else
           log ERROR ("API Error deleting file '" +:+ file_path +:+ "': " +:+ exc_msg e) ;;;
           ret ("API Error: Could not delete file. Reason: " +:+ exc_msg e)
       else unexpected ("deleting file '" +:+ file_path +:+ "'")).
End Vault.

Arguments Api : clear implicits.

(** A tool result that reports a failure the way the tools announce it. *)
Definition is_error_string (s : string) : bool := String.prefix "ERROR:" s.

End Obsidian.

(** ** [history.py]: the persisted chat history *)

Module History.

(** *** Paths, as [pathlib] treats the normalized path string *)

(** The part of [s] after its last [c], when [c] occurs. *)
Fixpoint after_last (c : ascii) (s : string) : option string :=
  match s with
  | "" => None
  | String a s' =>
    match after_last c s' with
    | Some r => Some r
    | None => if Ascii.eqb a c then Some s' else None
    end
  end.

(** [Path.name] *)
Definition path_name (p : string) : string :=
  default p (after_last "/"%char p).

(** [Path.suffix]: from the last dot of the name, unless that dot is the
    first or the last character. *)
Definition path_suffix (p : string) : string :=
  let name := path_name p in
  match after_last "."%char name with
  | None => ""
  | Some ext =>
    if String.eqb ext "" then ""
    else if Nat.ltb (String.length ext + 1) (String.length name)
         then String "."%char ext
         else ""
  end.

(** [Path.with_suffix(suffix)] for a suffix that starts with a dot and
    holds no separator, as both call sites pass. *)
Definition with_suffix (p suffix : string) : Outcome string :=
  if String.eqb (path_name p) "" then
    Raise (exc ValueError ("'" +:+ p +:+ "' has an empty name"))
  else
    Ok (substring 0 (String.length p - String.length (path_suffix p)) p +:+ suffix).

(** *** Sessions *)

Record ChatMessage := mkChatMessage {
  timestamp : PyVal;
  sender : PyVal;
  content : PyVal;
  message_type : PyVal
}.

Record ChatSession := mkChatSession {
  session_id : PyVal;
  title : PyVal;
  created_at : PyVal;
  updated_at : PyVal;
  messages : list ChatMessage
}.

(** Keys of the [sessions] dictionary: the hashable values a session id
    can be.  [True] and [1] are the same key, as are [False] and [0]. *)
Inductive Key := KNone | KInt (z : Z) | KStr (s : string).

#[global] Instance Key_eq_dec : EqDecision Key.
Proof. solve_decision. Defined.

Definition hash_key (v : PyVal) : Outcome Key :=
  match v with
  | PNone => Ok KNone
  | PBool b => Ok (KInt (if b then 1 else 0))
  | PInt z => Ok (KInt z)
  | PStr s => Ok (KStr s)
  | _ => Raise (exc TypeError "unhashable type")
  end.

(** A dictionary in insertion order. *)
Definition Sessions : Type := list (Key * ChatSession).

(** [d[k] = v]: an existing key keeps its place. *)
Fixpoint dict_set (k : Key) (v : ChatSession) (d : Sessions) : Sessions :=
  match d with
  | [] => [(k, v)]
  | (k', v') :: d' => if decide (k = k') then (k, v) :: d' else (k', v') :: dict_set k v d'
  end.

(** [ChatMessage.to_dict] and [ChatSession.to_dict] *)
Definition message_to_dict (m : ChatMessage) : PyVal :=
  PDict [("timestamp", timestamp m); ("sender", sender m);
         ("content", content m); ("message_type", message_type m)].

Definition session_to_dict (s : ChatSession) : PyVal :=
  PDict [("session_id", session_id s); ("title", title s);
         ("created_at", created_at s); ("updated_at", updated_at s);
         ("messages", PList (map message_to_dict (messages s)))].

(** [data[key]] *)
Definition getitem (data : list (string * PyVal)) (key : string) : Outcome PyVal :=
  match assoc key data with
  | Some v => Ok v
  | None => Raise (exc KeyError ("'" +:+ key +:+ "'"))
  end.

(** [ChatMessage.from_dict]: the constructor, called with the items of
    [data] as keyword arguments, wants the three fields without a default
    and accepts no name that is not a field. *)
Definition message_from_dict (data : PyVal) : Outcome ChatMessage :=
  match data with
  | PDict d =>
    if forallb (fun kv => bool_decide (fst kv ∈ ["timestamp"; "sender"; "content"; "message_type"])) d
    then
      match assoc "timestamp" d, assoc "sender" d, assoc "content" d with
      | Some t, Some s, Some c =>
        Ok (mkChatMessage t s c (default (PStr "text") (assoc "message_type" d)))
      | _, _, _ => Raise (exc TypeError "__init__() missing required positional argument")
      end
    else Raise (exc TypeError "__init__() got an unexpected keyword argument")
  | _ => Raise (exc TypeError "argument after ** must be a mapping")
  end.

Fixpoint messages_from_dicts (l : list PyVal) : Outcome (list ChatMessage) :=
  match l with
  | [] => Ok []
  | x :: l' =>
    obind (message_from_dict x) (fun m =>
    obind (messages_from_dicts l') (fun ms => Ok (m :: ms)))
  end.

(** [ChatSession.from_dict] *)
Definition session_from_dict (data : PyVal) : Outcome ChatSession :=
  match data with
  | PDict d =>
    obind (iterate (default (PList []) (assoc "messages" d))) (fun l =>
    obind (messages_from_dicts l) (fun messages =>
    obind (getitem d "session_id") (fun sid =>
    obind (getitem d "title") (fun title =>
    obind (getitem d "created_at") (fun created =>
    obind (getitem d "updated_at") (fun updated =>
    Ok (mkChatSession sid title created updated messages)))))))
  | _ => Raise (exc AttributeError "object has no attribute 'get'")
  end.

(** [a < b] on the values a sort key can be; other pairs cannot be
    ordered. *)
Definition py_lt (a b : PyVal) : Outcome bool :=
  match a, b with
  | PStr x, PStr y => Ok (String.ltb x y)
  | PInt x, PInt y => Ok (x <? y)%Z
  | PInt x, PBool y => Ok (x <? (if y then 1 else 0))%Z
  | PBool x, PInt y => Ok ((if x then 1 else 0) <? y)%Z
  | PBool x, PBool y => Ok (negb x && y)
  | _, _ => Raise (exc TypeError "'<' not supported between instances")
  end.

(** Insertion into a list in decreasing key order, behind the sessions
    whose key is not smaller: the order [sorted(..., reverse=True)] gives,
    equal keys staying in their original order. *)
Fixpoint insert_desc (s : ChatSession) (l : list ChatSession) : Outcome (list ChatSession) :=
  match l with
  | [] => Ok [s]
  | y :: l' =>
    obind (py_lt (updated_at y) (updated_at s)) (fun smaller =>
    if smaller then Ok (s :: y :: l')
    else obind (insert_desc s l') (fun r => Ok (y :: r)))
  end.

Fixpoint sorted_desc_from (acc : list ChatSession) (l : list ChatSession)
  : Outcome (list ChatSession) :=
  match l with
  | [] => Ok acc
  | s :: l' => obind (insert_desc s acc) (fun acc' => sorted_desc_from acc' l')
  end.

(** [sorted(self.sessions.values(), key=lambda s: s.updated_at, reverse=True)] *)
Definition sorted_by_updated_desc (l : list ChatSession) : Outcome (list ChatSession) :=
  sorted_desc_from [] l.

(** [l[:n]] *)
Definition slice_to (n : Z) (l : list ChatSession) : list ChatSession :=
  if (0 <=? n)%Z then take (Z.to_nat n) l
  else take (length l - Z.to_nat (- n)) l.

(** [{s.session_id: s for s in l}] *)
Fixpoint rekey (l : list ChatSession) (d : Sessions) : Outcome Sessions :=
  match l with
  | [] => Ok d
  | s :: l' => obind (hash_key (session_id s)) (fun k => rekey l' (dict_set k s d))
  end.

(** *** The manager, its file system and its faults *)

(** The state a [ChatHistoryManager] works on: its [sessions] and the
    regular files of the disk, by path. *)
Record World := mkWorld {
  sessions : Sessions;
  files : gmap string string
}.

(** What is outside the code: the clock, the JSON library, and which file
    operations fail. *)
Record IO := mkIO {
  (* [int(time.time())] *)
  now : Z;
  (* [with open(path, 'r', encoding='utf-8') as f: json.load(f)] on a
     file of the given content *)
  load_json : string -> string -> Outcome PyVal;
  (* [open(path, 'w', encoding='utf-8')] fails: the text of the [OSError] *)
  open_write_fault : string -> option string;
  (* [json.dump(data, f, indent=2)] and the closing of [f]: the text that
     reaches the file, and the exception, if any, that ends the writing *)
  dump_json : PyVal -> string * option Exc;
  (* [Path.rename] fails: the text of the [OSError] *)
  rename_fault : string -> string -> option string
}.

Inductive LogLevel := INFO | WARNING | ERROR.

Inductive Event :=
| EvLog (level : LogLevel) (msg : string)
| EvOpenWrite (path : string) (result : Outcome unit)
| EvWrite (path : string) (written : string) (result : Outcome unit)
| EvRename (src dst : string) (result : Outcome unit).

Section Manager.
Variable io : IO.
Variable history_file : string.
Variable max_sessions : Z.

#[local] Abbreviation M := (M World Event).

Definition log (level : LogLevel) (msg : string) : M unit := note (EvLog level msg).

Definition get_sessions : M Sessions := fun w => mkRes (Ok (sessions w)) w [].
Definition set_sessions (s : Sessions) : M unit :=
  fun w => mkRes (Ok tt) (mkWorld s (files w)) [].
Definition get_files : M (gmap string string) := fun w => mkRes (Ok (files w)) w [].
Definition set_files (f : gmap string string) : M unit :=
  fun w => mkRes (Ok tt) (mkWorld (sessions w) f) [].

(** [src.rename(dst)]: the file moves, replacing what [dst] held. *)
Definition rename (src dst : string) : M unit :=
  fun w =>
    match rename_fault io src dst with
    | Some msg => mkRes (Raise (exc OSError msg)) w [EvRename src dst (Raise (exc OSError msg))]
    | None =>
      match files w !! src with
      | None =>
        let e := exc OSError ("No such file or directory: '" +:+ src +:+ "'") in
        mkRes (Raise e) w [EvRename src dst (Raise e)]
      | Some c =>
        mkRes (Ok tt) (mkWorld (sessions w) (<[dst := c]> (delete src (files w))))
              [EvRename src dst (Ok tt)]
      end
    end.

(** [open(path, 'w')]: the file is created or emptied. *)
Definition open_write (path : string) : M unit :=
  fun w =>
    match open_write_fault io path with
    | Some msg => mkRes (Raise (exc OSError msg)) w [EvOpenWrite path (Raise (exc OSError msg))]
    | None => mkRes (Ok tt) (mkWorld (sessions w) (<[path := ""]> (files w)))
                    [EvOpenWrite path (Ok tt)]
    end.

(** [json.dump(data, f, indent=2)] into the file just opened. *)
Definition dump (data : PyVal) (path : string) : M unit :=
  fun w =>
    let '(written, err) := dump_json io data in
    let w' := mkWorld (sessions w) (<[path := written]> (files w)) in
    match err with
    | Some e => mkRes (Raise e) w' [EvWrite path written (Raise e)]
    | None => mkRes (Ok tt) w' [EvWrite path written (Ok tt)]
    end.

(** The [for session_data in data.get('sessions', [])] loop. *)
Fixpoint load_sessions (l : list PyVal) : M unit :=
  match l with
  | [] => ret tt
  | session_data :: l' =>
    session <- lift (session_from_dict session_data) ;;
    k <- lift (hash_key (session_id session)) ;;
    d <- get_sessions ;;
    set_sessions (dict_set k session d) ;;;
    load_sessions l'
  end.

(** The [try] block of [load_history]. *)
Definition load_body (content : string) : M unit :=
  data <- lift (load_json io history_file content) ;;
  match data with
  | PDict d =>
    match assoc "sessions" d with
    | Some (PList l) =>
      load_sessions l ;;;
      log INFO ("Loaded chat sessions from " +:+ history_file)
    | _ =>
      log WARNING "Chat history file has invalid format. Starting fresh." ;;;
      set_sessions []
    end
  | PList _ | PStr _ =>
    (* ['sessions' not in data] for a list or a string *)
    log WARNING "Chat history file has invalid format. Starting fresh." ;;;
    set_sessions []
  | _ => raise (exc TypeError "argument is not iterable")
  end.

(** [load_history] *)
Definition load_history : M unit :=
  f <- get_files ;;
  match f !! history_file with
  | None =>
    log INFO "Chat history file not found. A new one will be created on the first save."
  | Some content =>
    if String.eqb content "" then
      log WARNING "Chat history file is empty. Starting fresh."
    else
      try_except (load_body content)
        (fun e =>
           if isinstance e JSONDecodeError then
             log ERROR "Could not parse chat history file. Backing up and starting fresh." ;;;
             corrupted_backup_path <-
               lift (with_suffix history_file (".corrupted." +:+ pretty (now io) +:+ ".json")) ;;
             try_except_class (rename history_file corrupted_backup_path) OSError
               (fun e' => log ERROR ("Could not rename corrupted history file: " +:+ exc_msg e')) ;;;
             set_sessions []
           else
             log ERROR ("An unexpected error occurred while loading chat history: " +:+ exc_msg e) ;;;
             set_sessions [])
  end.

(** The trimming at the head of [save_history]. *)
Definition trim_sessions : M unit :=
  d <- get_sessions ;;
  if (Z.of_nat (length d) >? max_sessions)%Z then
    sorted_sessions <- lift (sorted_by_updated_desc (map snd d)) ;;
    d' <- lift (rekey (slice_to max_sessions sorted_sessions) []) ;;
    set_sessions d'
  else ret tt.

(** The writing: the sessions go to the temporary file, which then takes
    the place of the history file. *)
Definition write_sessions : M unit :=
  d <- get_sessions ;;
  let data := PDict [("sessions", PList (map (fun kv => session_to_dict (snd kv)) d))] in
  temp_file <- lift (with_suffix history_file ".tmp") ;;
  open_write temp_file ;;;
  dump data temp_file ;;;
  rename temp_file history_file.

(** [save_history] *)
Definition save_history : M unit :=
  try_except
    (trim_sessions ;;; write_sessions)
    (fun e => log ERROR ("Failed to save chat history: " +:+ exc_msg e)).
End Manager.

End History.

(** ** Observations on traces of the orchestrator *)

Module Observe.
Import Bridge.

(** A call of [ai_client.send_message] that hands tool results back. *)
Definition is_resubmission (e : Event) : bool :=
  match e with
  | EvSend (ToolResults _) _ => true
  | _ => false
  end.

(** A round that ran to its end: the results were sent and the provider
    answered. *)
Definition is_completed_round (e : Event) : bool :=
  match e with
  | EvSend (ToolResults _) (Ok _) => true
  | _ => false
  end.

Definition is_send (e : Event) : bool :=
  match e with
  | EvSend _ _ => true
  | _ => false
  end.

Definition is_finished (e : Event) : bool :=
  match e with
  | EvEmit SigFinished _ => true
  | _ => false
  end.

Definition is_message (e : Event) : bool :=
  match e with
  | EvEmit (SigMessage _ _) _ => true
  | _ => false
  end.

(** Neither a provider call nor a message event. *)
Definition quiet (e : Event) : Prop := is_send e = false /\ is_message e = false.

Fixpoint count (f : Event -> bool) (tr : list Event) : nat :=
  match tr with
  | [] => 0
  | e :: tr' => (if f e then 1 else 0) + count f tr'
  end.

(** The responses the provider returned, in order. *)
Definition responses (tr : list Event) : list PyVal :=
  omap (fun e => match e with EvSend _ (Ok r) => Some r | _ => None end) tr.

(** The results handed back by each resubmission, in order. *)
Definition resubmitted (tr : list Event) : list (list FunctionResponse) :=
  omap (fun e => match e with EvSend (ToolResults l) _ => Some l | _ => None end) tr.

(** The callables executed, in order. *)
Definition executed (tr : list Event) : list string :=
  omap (fun e => match e with EvTool n _ _ => Some n | _ => None end) tr.

Definition ceiling_text : string := "Tool-use loop exceeded maximum iterations".

(** The error event of the iteration ceiling. *)
Definition is_ceiling_report (e : Event) : bool :=
  match e with
  | EvEmit (SigError text) _ => String.eqb text ceiling_text
  | _ => false
  end.

(** The texts of the message events, in order. *)
Definition shown (tr : list Event) : list string :=
  omap (fun e => match e with EvEmit (SigMessage _ text) _ => Some text | _ => None end) tr.

(** The events of the execution of function calls: the tool-call and
    error signals, the callables, the log lines. *)
Definition in_execution (e : Event) : bool :=
  match e with
  | EvEmit (SigToolCall _) _ | EvEmit (SigError _) _ | EvTool _ _ _ | EvLog _ _ => true
  | _ => false
  end.

(** The events of the tool loop: those of the executions and the
    resubmissions. *)
Definition in_loop (e : Event) : bool :=
  in_execution e || is_resubmission e.

(** A trace that ends with the report of the iteration ceiling. *)
Definition ceiling_tail (tr : list Event) : Prop :=
  exists tr0 r,
    tr = tr0 ++ [EvLog WARNING "Max tool-use iterations reached";
                 EvEmit (SigError ceiling_text) r].

End Observe.

(** ** Concrete inputs *)

Module Examples.
Import Bridge.

(** A function call object, a part that carries it, a text part, and a
    response with one candidate made of the given parts. *)
Definition function_call (name : string) (args : list (string * PyVal)) : PyVal :=
  PObj [("name", PStr name); ("args", PDict args)].

Definition call_part (fc : PyVal) : PyVal :=
  PObj [("text", PNone); ("function_call", fc)].

Definition text_part (t : string) : PyVal :=
  PObj [("text", PStr t); ("function_call", PNone)].

Definition response_with (parts : PyVal) : PyVal :=
  PObj [("candidates", PList [PObj [("content", PObj [("parts", parts)])]])].

Definition str_of (v : PyVal) : string :=
  match v with
  | PNone => "None"
  | PBool true => "True"
  | PBool false => "False"
  | PInt z => pretty z
  | PStr s => s
  | _ => "<object>"
  end.

Definition list_files_tool : Tool unit :=
  mkTool "list_files" (fun _ w => (Ok (PStr "SUCCESS: The directory '.' is empty."), w)).

Definition read_file_tool : Tool unit :=
  mkTool "read_file" (fun _ w => (Ok (PStr "# Notes"), w)).

(** A provider that asks for [list_files] and [read_file] in answer to the
    prompt and answers ["done"] once it gets tool results; signals that
    never fail. *)
Definition two_calls : PyVal :=
  response_with (PList [call_part (function_call "list_files" []);
                        call_part (function_call "read_file" [("file_path", PStr "a.md")])]).

Definition helpful_env : Env unit :=
  mkEnv (fun input w =>
           match input with
           | Prompt _ => (Ok two_calls, w)
           | ToolResults _ => (Ok (response_with (PList [text_part "done"])), w)
           end)
        (fun _ w => (Ok tt, w))
        (make_tool_function_map [list_files_tool; read_file_tool])
        str_of.

(** A provider that asks for a tool in every response. *)
Definition one_call : PyVal :=
  response_with (PList [call_part (function_call "list_files" [])]).

Definition insistent_env : Env unit :=
  mkEnv (fun _ w => (Ok one_call, w))
        (fun _ w => (Ok tt, w))
        (make_tool_function_map [list_files_tool])
        str_of.

(** A binding for [types], as [from google.genai import types] would give
    it to a module that has the import. *)
Definition genai_types : option TypesModule :=
  Some (fun name response => Ok (mkFunctionResponse name response)).

(** A provider that is down, behind a UI whose error signal raises. *)
Definition broken_ui_env : Env unit :=
  mkEnv (fun _ w => (Raise (exc VendorError "503 Service Unavailable"), w))
        (fun s w => match s with
                    | SigError _ => (Raise (exc PlainException "wrapped C/C++ object has been deleted"), w)
                    | _ => (Ok tt, w)
                    end)
        ∅
        str_of.

(** A provider that answers the prompt in plain text. *)
Definition hello : PyVal := response_with (PList [text_part "Hello, "; text_part "world"]).

Definition chatty_env : Env unit :=
  mkEnv (fun _ w => (Ok hello, w)) (fun _ w => (Ok tt, w)) ∅ str_of.

(** A response whose candidate has content without parts, as the vendor
    library represents it: [parts] is [None]. *)
Definition no_parts : PyVal := response_with PNone.

(** A provider that says what it is about to do and asks for
    [list_files], and sums up in plain text once it gets the result. *)
Definition looking : PyVal :=
  response_with (PList [text_part "Let me look."; call_part (function_call "list_files" [])]).

Definition summary : PyVal :=
  response_with (PList [text_part "Your vault is empty."]).

Definition narrating_env : Env unit :=
  mkEnv (fun input w =>
           match input with
           | Prompt _ => (Ok looking, w)
           | ToolResults _ => (Ok summary, w)
           end)
        (fun _ w => (Ok tt, w))
        (make_tool_function_map [list_files_tool])
        str_of.

End Examples.

(** Concrete adapters, catalogs, vaults and disks. *)

Module AIExamples.
Import AIClient.

(** A vendor library that is installed, accepts the key and answers. *)
Definition working_vendor : Vendor :=
  mkVendor true
           (fun key => Ok (PObj [("api_key", PStr key)]))
           (fun c model tools => Ok (PObj [("model", PStr model)]))
           (fun handle payload => Ok (PObj [("content", PList [])]))
           (fun response => Ok None).

(** The same, not installed. *)
Definition missing_library : Vendor :=
  mkVendor false (make_client working_vendor) (chats_create working_vendor)
           (request working_vendor) (reply_entry working_vendor).

Definition config_for (provider key : string) : Config :=
  mkConfig key key key key key key key "http://localhost:11434" provider "some-model".

Definition no_hint (msg : string) : bool := false.

End AIExamples.

(** The adapters that set up their session inside [initialize]. *)
Definition sets_up_session (p : AIClient.Provider) : bool :=
  match p with
  | AIClient.GeminiClient | AIClient.MistralClient | AIClient.OllamaClient
  | AIClient.PerplexityClient | AIClient.TogetherClient => true
  | AIClient.ClaudeClient | AIClient.OpenAIClient | AIClient.CohereClient => false
  end.

Module RegistryExamples.
Import Bridge Plugins.

(** A plugin that offers a tool named like the built-in [read_file]. *)
Definition shadow_read_file : Tool unit :=
  mkTool "read_file" (fun _ w => (Ok (PStr "plugin result"), w)).

Definition shadow_plugin : Plugin unit :=
  mkPlugin (Ok "shadow") (Ok "Offers read_file") (Ok [shadow_read_file]).

(** A second plugin that declares the same plugin name. *)
Definition other_tool : Tool unit :=
  mkTool "word_count" (fun _ w => (Ok (PInt 3), w)).

Definition rival_plugin : Plugin unit :=
  mkPlugin (Ok "shadow") (Ok "Counts words") (Ok [other_tool]).

Definition builtin : list (Tool unit) :=
  [Examples.list_files_tool; Examples.read_file_tool].

(** The manager after [load_plugins] on a directory with both files. *)
Definition loaded : PluginManager unit :=
  world (load_plugins [mkPluginFile "shadow.py" (Some shadow_plugin);
                       mkPluginFile "rival.py" (Some rival_plugin)] new_manager).

Definition catalog : list (Tool unit) :=
  _setup_tool_functions builtin loaded (mcp_get_available_tools true).

(** What a tool answers when called without arguments. *)
Definition answer (t : option (Tool unit)) : option (Outcome PyVal) :=
  (fun t => fst (tool_call t [] tt)) <$> t.

End RegistryExamples.

Module VaultExamples.
Import Obsidian.

(** A vault that answers every request the same way. *)
Definition vault (answer : RequestResult) : Api unit :=
  mkApi "http://127.0.0.1:27124"
        (fun method url data w => (answer, w))
        (fun s => s)
        (fun text => Raise (exc JSONDecodeError "Expecting value"))
        Examples.str_of.

End VaultExamples.

Module HistoryExamples.
Import History.
(** A disk on which nothing fails, a clock, and a JSON library that finds
    the file content malformed. *)
Definition io_corrupt : IO :=
  mkIO 1700000000
       (fun path content => Raise (exc JSONDecodeError "Expecting value: line 1 column 1 (char 0)"))
       (fun path => None)
       (fun data => ("{}", None))
       (fun src dst => None).

Definition corrupt_disk : World :=
  mkWorld [] {[ "chat_history.json" := "{not json" ]}.

(** A disk that runs full while the sessions are written. *)
Definition io_full : IO :=
  mkIO 1700000000
       (fun path content => Ok (PDict [("sessions", PList [])]))
       (fun path => None)
       (fun data => ("{", Some (exc OSError "[Errno 28] No space left on device")))
       (fun src dst => None).

Definition tmp_disk : World :=
  mkWorld [] {[ "history.tmp" := "OLD HISTORY" ]}.

Definition json_disk : World :=
  mkWorld [] {[ "chat_history.json" := "OLD HISTORY" ]}.
End HistoryExamples.

(** ** [obsidian_api.py]: the vault information and the recursive listing *)

Module Vault.
Import Obsidian.

(** [s.endswith(suffix)] *)
Definition endswith (suffix s : string) : bool :=
  Nat.leb (String.length suffix) (String.length s) &&
  String.eqb (substring (String.length s - String.length suffix) (String.length suffix) s)
             suffix.

(** [s.rstrip(c)] for a single character [c]. *)
Fixpoint rstrip (c : ascii) (s : string) : string :=
  match s with
  | "" => ""
  | String a s' =>
    match rstrip c s' with
    | "" => if Ascii.eqb a c then "" else String a ""
    | r => String a r
    end
  end.

(** [s.replace(old, "")] for a non-empty [old]: the occurrences are found
    from the left and do not overlap.  [skip] counts the characters of an
    occurrence that are still to be dropped. *)
Fixpoint remove_all (old : string) (skip : nat) (s : string) : string :=
  match s with
  | "" => ""
  | String a s' =>
    match skip with
    | S k => remove_all old k s'
    | O => if String.prefix old s then remove_all old (String.length old - 1) s'
           else String a (remove_all old 0 s')
    end
  end.

(** [s.split(sep)] for a non-empty [sep]; [piece] is the piece being
    read. *)
Fixpoint split_on (sep : string) (skip : nat) (piece s : string) : list string :=
  match s with
  | "" => [piece]
  | String a s' =>
    match skip with
    | S k => split_on sep k piece s'
    | O => if String.prefix sep s then piece :: split_on sep (String.length sep - 1) "" s'
           else split_on sep 0 (piece +:+ String a "") s'
    end
  end.

(** The HTTP requests of a trace, in order: method and URL. *)
Definition requests (tr : list Event) : list (string * string) :=
  omap (fun e => match e with
                 | EvRequest method url _ => Some (method, url)
                 | EvLog _ _ => None
                 end) tr.

(** A computation that only writes log lines: it leaves the world as it
    is and sends no request. *)
Definition logs_only {World A} (m : M World Event A) : Prop :=
  forall w, world (m w) = w /\ requests (trace (m w)) = [].

(** [data.get(key, "Unknown")] *)
Definition get_or_unknown (data : PyVal) (key : string) : Outcome PyVal :=
  match data with
  | PDict d => Ok (default (PStr "Unknown") (assoc key d))
  | _ => Raise (exc AttributeError "object has no attribute 'get'")
  end.

Section Tools.
Context {World : Type}.
Variable api : Api World.

(** [ObsidianTools.get_vault_info] *)
Definition get_vault_info : M World Event string :=
  try_except
    (response <- _make_request api "GET" "/" None ;;
     data <- lift (json api (text response)) ;;
     name <- lift (get_or_unknown data "name") ;;
     path <- lift (get_or_unknown data "path") ;;
     version <- lift (get_or_unknown data "version") ;;
     let vault_info := [("name", name); ("path", path); ("version", version)] in
     let info_text :=
       Bridge.join "\n" (map (fun kv => fst kv +:+ ": " +:+ py_str api (snd kv)) vault_info) in
     ret ("SUCCESS: Vault Information:\n" +:+ info_text))
    (fun e =>
       if isinstance e ObsidianError then
         log ERROR ("API Error getting vault info: " +:+ exc_msg e) ;;;
         ret ("ERROR: Could not get vault information. Reason: " +:+ exc_msg e)
       else
         log ERROR ("Unexpected error getting vault info: " +:+ exc_msg e) ;;;
         ret "ERROR: An unexpected error occurred. Check logs.").

(** [str.strip], as the interpreter does it. *)
Variable strip : string -> string.

(** The state of one call of [list_all_files]: the world and the list
    [all_paths] that the nested function appends to. *)
#[local] Abbreviation Scan := (M (World * list string) Event).

Definition on_vault {A} (m : M World Event A) : Scan A :=
  fun s =>
    match m (fst s) with
    | mkRes o w t => mkRes o (w, snd s) t
    end.

(** [all_paths.append(full_path)] *)
Definition append_path (full_path : string) : Scan unit :=
  fun s => mkRes (Ok tt) (fst s, snd s ++ [full_path]) [].

(** The [for item in lines] loop of [fetch_directory]. *)
Fixpoint fetch_items (fetch_directory : string -> Scan unit) (path : string)
         (lines : list string) : Scan unit :=
  match lines with
  | [] => ret tt
  | item :: rest =>
    if String.eqb item "" then fetch_items fetch_directory path rest
    else
      let full_path :=
        if String.eqb path "." then item else rstrip "/" path +:+ "/" +:+ item in
      append_path full_path ;;;
      (if endswith "/" item then fetch_directory full_path else ret tt) ;;;
      fetch_items fetch_directory path rest
  end.

(** The nested function [fetch_directory].  [depth] is the number of
    nested calls the interpreter still allows; a call beyond it raises
    [RecursionError]. *)
Fixpoint fetch_directory (depth : nat) (path : string) : Scan unit :=
  match depth with
  | O => raise (exc RecursionError "maximum recursion depth exceeded")
  | S depth' =>
    try_except
      (response_str <- on_vault (list_files api path) ;;
       if String.prefix "ERROR" response_str then
         note (EvLog WARNING ("Could not fully scan vault. Error at '" +:+ path +:+
                              "': " +:+ response_str))
       else
         let lines := split_on "\n" 0 "" (strip (remove_all "SUCCESS:\n" 0 response_str)) in
         fetch_items (fetch_directory depth') path lines)
      (fun e =>
         note (EvLog ERROR ("Failed during recursive file listing at '" +:+ path +:+
                            "': " +:+ exc_msg e)))
  end.

(** [ObsidianTools.list_all_files] *)
Definition list_all_files (depth : nat) : M World Event string :=
  fun w =>
    match fetch_directory depth "." (w, []) with
    | mkRes (Raise e) s t => mkRes (Raise e) (fst s) t
    | mkRes (Ok _) s t =>
      match snd s with
      | [] =>
        mkRes (Ok "ERROR: No files or folders found in the vault, or the vault root could not be read.")
              (fst s) t
      | all_paths =>
        let unique_paths := sorted (remove_dups all_paths) in
        mkRes (Ok ("SUCCESS:\n" +:+ Bridge.join "\n" unique_paths)) (fst s) t
      end
    end.
End Tools.

End Vault.

(** ** [history.py]: the operations on sessions *)

Module Sessions.
Import History.

(** [d.get(k)] *)
Fixpoint lookup (k : Key) (d : Sessions) : option ChatSession :=
  match d with
  | [] => None
  | (k', v) :: d' => if decide (k = k') then Some v else lookup k d'
  end.

(** [del d[k]] *)
Fixpoint dict_del (k : Key) (d : Sessions) : Sessions :=
  match d with
  | [] => []
  | (k', v) :: d' => if decide (k = k') then d' else (k', v) :: dict_del k d'
  end.

(** The readings of the clock that one call makes, in the order of the
    calls of [datetime.now()]. *)
Record Clock := mkClock {
  first_now : string;       (* [datetime.now().isoformat()] *)
  second_now : string;      (* [datetime.now().isoformat()] *)
  title_now : string        (* [datetime.now().strftime('%Y-%m-%d %H:%M')] *)
}.

Section Operations.
Variable io : IO.
Variable history_file : string.
Variable max_sessions : Z.
(** [hashlib.md5(s.encode()).hexdigest()[:12]] *)
Variable md5_hex12 : string -> string.

#[local] Abbreviation M := (M World Event).

(** [ChatHistoryManager.__init__] *)
Definition new_manager : M unit :=
  set_sessions [] ;;; load_history io history_file.

(** [get_session] *)
Definition get_session (id : string) : M (option ChatSession) :=
  d <- get_sessions ;; ret (lookup (KStr id) d).

(** [create_session]; [title] is [None] when the argument is left out. *)
Definition create_session (clock : Clock) (title : option string) : M ChatSession :=
  let id := md5_hex12 (first_now clock) in
  let timestamp := second_now clock in
  let title :=
    match title with
    | Some t => if String.eqb t "" then "Chat - " +:+ title_now clock else t
    | None => "Chat - " +:+ title_now clock
    end in
  let session := mkChatSession (PStr id) (PStr title) (PStr timestamp) (PStr timestamp) [] in
  d <- get_sessions ;;
  set_sessions (dict_set (KStr id) session d) ;;;
  save_history io history_file max_sessions ;;;
  log INFO ("Created new chat session: " +:+ title +:+ " (" +:+ id +:+ ")") ;;;
  ret session.

(** [add_message]: the session object is changed in place, so the
    dictionary holds the changed session under the same key. *)
Definition add_message (clock : Clock) (id sender content message_type : string) : M unit :=
  session <- get_session id ;;
  match session with
  | None => log WARNING ("Attempted to add message to non-existent session: " +:+ id)
  | Some session =>
    let message :=
      mkChatMessage (PStr (first_now clock)) (PStr sender) (PStr content) (PStr message_type) in
    let session' :=
      mkChatSession (session_id session) (title session) (created_at session)
                    (PStr (second_now clock)) (messages session ++ [message]) in
    d <- get_sessions ;;
    set_sessions (dict_set (KStr id) session' d) ;;;
    save_history io history_file max_sessions
  end.

(** [get_recent_sessions] *)
Definition get_recent_sessions (limit : Z) : M (list ChatSession) :=
  d <- get_sessions ;;
  sorted_sessions <- lift (sorted_by_updated_desc (map snd d)) ;;
  ret (slice_to limit sorted_sessions).

(** [delete_session] *)
Definition delete_session (id : string) : M bool :=
  d <- get_sessions ;;
  match lookup (KStr id) d with
  | Some _ =>
    set_sessions (dict_del (KStr id) d) ;;;
    save_history io history_file max_sessions ;;;
    log INFO ("Deleted session: " +:+ id) ;;;
    ret true
  | None =>
    log WARNING ("Attempted to delete non-existent session: " +:+ id) ;;;
    ret false
  end.
End Operations.

(** A dictionary as [load_history] and [create_session] build it: no key
    twice, and every session under the key of its own [session_id]. *)
Definition keyed_by_id (d : Sessions) : Prop :=
  NoDup (map fst d) /\ Forall (fun kv => hash_key (session_id (snd kv)) = Ok (fst kv)) d.

(** A session whose [updated_at] is a string, as [create_session] and
    [add_message] set it. *)
Definition stamped (s : ChatSession) : Prop :=
  exists t, updated_at s = PStr t.

(** [a] is not older than [b]: [a.updated_at < b.updated_at] is false. *)
Definition not_older (a b : ChatSession) : Prop :=
  py_lt (updated_at a) (updated_at b) = Ok false.

(** No session of the list is older than the one after it. *)
Fixpoint descending (l : list ChatSession) : Prop :=
  match l with
  | a :: (b :: _) as l' => not_older a b /\ descending l'
  | _ => True
  end.

End Sessions.

(** ** [plugins.py]: the state of the manager *)

Module Loader.
Import Plugins.
Section Manager.
Context {World : Type}.

(** [reload_plugins]: both containers are cleared, then the files are
    loaded as by [load_plugins]. *)
Definition reload_plugins (plugin_files : list (PluginFile World))
  : M (PluginManager World) Log (list string) :=
  note (LogInfo "Reloading all plugins...") ;;;
  put (mkPluginManager ∅ []) ;;;
  load_plugins plugin_files.

(** [get_plugin_count] *)
Definition get_plugin_count (pm : PluginManager World) : nat := size (plugins pm).

(** [has_plugin] *)
Definition has_plugin (plugin_name : string) (pm : PluginManager World) : bool :=
  bool_decide (is_Some (plugins pm !! plugin_name)).
End Manager.
End Loader.

(** ** [ai_client.py]: sessions and connection tests of the adapters *)

Module Adapters.
Import AIClient.

Inductive TestLog :=
| TestInfo (msg : string)
| TestWarning (msg : string)
| TestError (msg : string).

(** [needle in haystack] for two strings. *)
Fixpoint is_substring (needle haystack : string) : bool :=
  String.prefix needle haystack ||
  match haystack with
  | "" => false
  | String _ rest => is_substring needle rest
  end.

(** ['output' in v]: a key of a dictionary, an element of a list, a part
    of a string; other values do not support the test. *)
Definition contains_output (v : PyVal) : Outcome bool :=
  match v with
  | PDict d => Ok (match assoc "output" d with Some _ => true | None => false end)
  | PList l => Ok (existsb (fun x => match x with
                                     | PStr s => String.eqb s "output"
                                     | _ => false
                                     end) l)
  | PStr s => Ok (is_substring "output" s)
  | _ => Raise (exc TypeError "argument is not iterable")
  end.

(** The adapters that keep the conversation in [self.messages] as a list
    of role and content dictionaries. *)
Definition keeps_messages (p : Provider) : bool :=
  match p with
  | ClaudeClient | OpenAIClient | OllamaClient | PerplexityClient | TogetherClient => true
  | GeminiClient | CohereClient | MistralClient => false
  end.

Section Sessions.
Variable vendor : Vendor.
Variable config : Config.

#[local] Abbreviation M := (M Adapter Log).

(** [create_chat_session] of the Mistral, Ollama, Perplexity and Together
    adapters. *)
Definition Mistral_create_chat_session (tools : list string) : M unit :=
  reset_session tools ;;;
  note (LogInfo ("Initialized Mistral model: " +:+ model_name config)).

Definition Ollama_create_chat_session (tools : list string) : M unit :=
  reset_session tools ;;;
  note (LogInfo ("Initialized Ollama model: " +:+ model_name config)).

Definition Perplexity_create_chat_session (tools : list string) : M unit :=
  reset_session tools ;;;
  note (LogInfo ("Initialized Perplexity model: " +:+ model_name config)).

Definition Together_create_chat_session (tools : list string) : M unit :=
  reset_session tools ;;;
  note (LogInfo ("Initialized Together model: " +:+ model_name config)).

(** The method [create_chat_session], by adapter class. *)
Definition create_chat_session (p : Provider) : list string -> M unit :=
  match p with
  | GeminiClient => Gemini_create_chat_session vendor config
  | ClaudeClient => Claude_create_chat_session config
  | OpenAIClient => OpenAI_create_chat_session config
  | CohereClient => Cohere_create_chat_session config
  | MistralClient => Mistral_create_chat_session
  | OllamaClient => Ollama_create_chat_session
  | PerplexityClient => Perplexity_create_chat_session
  | TogetherClient => Together_create_chat_session
  end.
End Sessions.

Section Tests.
Variable vendor : Vendor.
(** The vendor's answer to the test request, by the handle the request
    goes through ([None] for a module-level call). *)
Variable probe : option PyVal -> Outcome PyVal.
(** [str] of a value formatted into a message. *)
Variable py_str : PyVal -> string.

#[local] Abbreviation T := (Effects.M Adapter TestLog).

(** [self.client.<attribute>...]: [self.client] is [None] until
    [initialize] has set it. *)
Definition through_client (attribute : string) : T PyVal :=
  fun a =>
    match client a with
    | None => mkRes (Raise (exc AttributeError
                              ("'NoneType' object has no attribute '" +:+ attribute +:+ "'")))
                    a []
    | Some c => mkRes (probe (Some c)) a []
    end.

(** [self.<module>...]: the attribute that holds the vendor module exists
    once [initialize] has imported it. *)
Definition through_module (owner attribute : string) : T PyVal :=
  fun a =>
    if vendor_module a then mkRes (probe None) a []
    else mkRes (Raise (exc AttributeError
                         ("'" +:+ owner +:+ "' object has no attribute '" +:+ attribute +:+ "'")))
               a [].

(** [test_response and test_response.<attribute>] *)
Definition answered (test_response : PyVal) (attribute : string) : Outcome bool :=
  if truthy test_response
  then obind (getattr test_response attribute) (fun v => Ok (truthy v))
  else Ok false.

(** The [except Exception] clause shared by the eight methods. *)
Definition test_failed (label : string) (e : Exc) : T (bool * string) :=
  note (TestError (label +:+ " API test failed: " +:+ exc_msg e)) ;;;
  ret (false, label +:+ " Error: " +:+ exc_msg e).

(** The methods that test [test_response.<attribute>]: Claude, OpenAI,
    Cohere, Perplexity. *)
Definition test_through_client (label handle attribute : string) : T (bool * string) :=
  try_except
    (note (TestInfo ("Testing connection to " +:+ label +:+ " API...")) ;;;
     test_response <- through_client handle ;;
     ok <- lift (answered test_response attribute) ;;
     if ok then
       note (TestInfo (label +:+ " API connection successful.")) ;;;
       ret (true, label +:+ " connection successful.")
     else ret (false, label +:+ ": Failed to get a valid response."))
    (test_failed label).

Definition Gemini_test_connection : T (bool * string) :=
  try_except
    (note (TestInfo "Testing connection to Gemini API...") ;;;
     test_response <- through_client "models" ;;
     ok <- lift (answered test_response "text") ;;
     if ok then
       note (TestInfo "Gemini API connection successful.") ;;;
       ret (true, "Gemini connection successful.")
     else
       note (TestWarning "Gemini API test failed: No text in response.") ;;;
       ret (false, "Gemini: Failed to get a valid response."))
    (test_failed "Gemini").

Definition Claude_test_connection : T (bool * string) :=
  test_through_client "Claude" "messages" "content".

Definition OpenAI_test_connection : T (bool * string) :=
  test_through_client "OpenAI" "chat" "choices".

Definition Cohere_test_connection : T (bool * string) :=
  test_through_client "Cohere" "chat" "text".

Definition Perplexity_test_connection : T (bool * string) :=
  test_through_client "Perplexity" "chat" "choices".

(** Mistral imports [ChatMessage] inside the [try] block. *)
Definition Mistral_test_connection : T (bool * string) :=
  try_except
    (note (TestInfo "Testing connection to Mistral API...") ;;;
     (if importable vendor then ret tt
      else raise (exc ImportError "No module named 'mistralai'")) ;;;
     test_response <- through_client "chat" ;;
     ok <- lift (answered test_response "choices") ;;
     if ok then
       note (TestInfo "Mistral API connection successful.") ;;;
       ret (true, "Mistral connection successful.")
     else ret (false, "Mistral: Failed to get a valid response."))
    (test_failed "Mistral").

(** [response.status_code == 200] *)
Definition is_200 (v : PyVal) : bool :=
  match v with
  | PInt z => (z =? 200)%Z
  | _ => false
  end.

Definition Ollama_test_connection : T (bool * string) :=
  try_except
    (note (TestInfo "Testing connection to Ollama API...") ;;;
     response <- through_module "OllamaClient" "requests" ;;
     status_code <- lift (getattr response "status_code") ;;
     if is_200 status_code then
       note (TestInfo "Ollama API connection successful.") ;;;
       ret (true, "Ollama connection successful.")
     else
       ret (false, "Ollama: Failed to connect (status: " +:+ py_str status_code +:+ ")"))
    (test_failed "Ollama").

Definition Together_test_connection : T (bool * string) :=
  try_except
    (note (TestInfo "Testing connection to Together API...") ;;;
     test_response <- through_module "TogetherClient" "together" ;;
     ok <- lift (if truthy test_response then contains_output test_response else Ok false) ;;
     if ok then
       note (TestInfo "Together API connection successful.") ;;;
       ret (true, "Together connection successful.")
     else ret (false, "Together: Failed to get a valid response."))
    (test_failed "Together").

(** The method [test_connection], by adapter class. *)
Definition test_connection (p : Provider) : T (bool * string) :=
  match p with
  | GeminiClient => Gemini_test_connection
  | ClaudeClient => Claude_test_connection
  | OpenAIClient => OpenAI_test_connection
  | CohereClient => Cohere_test_connection
  | MistralClient => Mistral_test_connection
  | OllamaClient => Ollama_test_connection
  | PerplexityClient => Perplexity_test_connection
  | TogetherClient => Together_test_connection
  end.

(** The name that starts the messages of an adapter. *)
Definition label (p : Provider) : string :=
  match p with
  | GeminiClient => "Gemini"
  | ClaudeClient => "Claude"
  | OpenAIClient => "OpenAI"
  | CohereClient => "Cohere"
  | MistralClient => "Mistral"
  | OllamaClient => "Ollama"
  | PerplexityClient => "Perplexity"
  | TogetherClient => "Together"
  end.
End Tests.

End Adapters.

(** ** [mcp_client.py]: the optional extension client *)

Module MCP.

(** [MCPServerConfig]; the fields hold what the configuration file gives. *)
Record MCPServerConfig := mkServerConfig {
  name : PyVal;
  command : PyVal;
  args : PyVal;
  env : PyVal;
  server_enabled : PyVal            (* the field [enabled] *)
}.

(** The constructor of [MCPServerConfig], called with the items of
    [server_data] as keyword arguments, and [__post_init__]: [name] and
    [command] are required, no other keyword than the five fields is
    accepted, and [None] for [args] or [env] becomes the empty list or
    dictionary. *)
Definition server_from_dict (server_data : PyVal) : Outcome MCPServerConfig :=
  match server_data with
  | PDict d =>
    if forallb (fun kv => bool_decide (fst kv ∈ ["name"; "command"; "args"; "env"; "enabled"])) d
    then
      match assoc "name" d, assoc "command" d with
      | Some n, Some c =>
        Ok (mkServerConfig n c
              (match default PNone (assoc "args" d) with PNone => PList [] | v => v end)
              (match default PNone (assoc "env" d) with PNone => PDict [] | v => v end)
              (default (PBool true) (assoc "enabled" d)))
      | _, _ => Raise (exc TypeError "__init__() missing required positional argument")
      end
    else Raise (exc TypeError "__init__() got an unexpected keyword argument")
  | _ => Raise (exc TypeError "argument after ** must be a mapping")
  end.

(** A dictionary in insertion order, keyed by hashable values. *)
Fixpoint dict_set {V} (k : History.Key) (v : V) (d : list (History.Key * V))
  : list (History.Key * V) :=
  match d with
  | [] => [(k, v)]
  | (k', v') :: d' => if decide (k = k') then (k, v) :: d' else (k', v') :: dict_set k v d'
  end.

Inductive Log :=
| LogInfo (msg : string)
| LogWarning (msg : string)
| LogError (msg : string)
(* the log lines that name a server *)
| LogAdded (server : PyVal)
| LogSkipped (server : History.Key)
| LogAttempt (server : History.Key)
| LogNotConnected (server : History.Key)
| LogDisconnected (server : History.Key).

Section Client.
Context {World : Type}.
#[local] Abbreviation Tool := (Bridge.Tool World).

(** The attributes of an [MCPClient]. *)
Record MCPClient := mkMCPClient {
  enabled : bool;
  servers : list (History.Key * MCPServerConfig);
  connected_servers : list (History.Key * PyVal);
  available_tools : list Tool
}.

#[local] Abbreviation M := (M MCPClient Log).

Definition get : M MCPClient := fun c => mkRes (Ok c) c [].
Definition put (c : MCPClient) : M unit := fun _ => mkRes (Ok tt) c [].

(** [MCPClient.__init__] *)
Definition new_client (enabled : bool) : MCPClient * list Log :=
  (mkMCPClient enabled [] [] [],
   [LogInfo (if enabled then "MCP client initialized (optional extension)"
             else "MCP integration is disabled")]).

(** [add_server_config] *)
Definition add_server_config (config : MCPServerConfig) : M bool :=
  c <- get ;;
  if negb (enabled c) then
    note (LogWarning "MCP is disabled, cannot add server config") ;;; ret false
  else
    k <- lift (History.hash_key (name config)) ;;
    put (mkMCPClient (enabled c) (dict_set k config (servers c)) (connected_servers c)
                     (available_tools c)) ;;;
    note (LogAdded (name config)) ;;;
    ret true.

(** The [for server_data in data.get('servers', [])] loop. *)
Fixpoint add_servers (l : list PyVal) : M unit :=
  match l with
  | [] => ret tt
  | server_data :: l' =>
    config <- lift (server_from_dict server_data) ;;
    add_server_config config ;;;
    add_servers l'
  end.

(** The configuration file: [None] when it does not exist, else what
    [open] and [json.load] give. *)
Variable read_json : string -> option (Outcome PyVal).

(** [load_server_configs] *)
Definition load_server_configs (config_path : string) : M bool :=
  c <- get ;;
  if negb (enabled c) then ret false
  else
    match read_json config_path with
    | None =>
      note (LogInfo "No MCP server config file found. MCP servers are optional.") ;;;
      ret true
    | Some loaded =>
      try_except
        (data <- lift loaded ;;
         l <- lift (obind (Obsidian.dict_get data "servers") iterate) ;;
         add_servers l ;;;
         c' <- get ;;
         note (LogInfo ("Loaded " +:+ pretty (length (servers c')) +:+
                        " MCP server configurations")) ;;;
         ret true)
        (fun e =>
           note (LogError ("Failed to load MCP server configs: " +:+ exc_msg e)) ;;;
           ret false)
    end.

(** The loop of [connect_to_servers]: the connection is a placeholder
    that never connects. *)
Fixpoint connect_each (l : list (History.Key * MCPServerConfig))
         (connection_results : list (History.Key * bool)) : M (list (History.Key * bool)) :=
  match l with
  | [] => ret connection_results
  | (server, config) :: l' =>
    if negb (truthy (server_enabled config)) then
      note (LogSkipped server) ;;;
      connect_each l' (dict_set server false connection_results)
    else
      note (LogAttempt server) ;;;
      let connected := false in
      let connection_results := dict_set server connected connection_results in
      (if connected then ret tt else note (LogNotConnected server)) ;;;
      connect_each l' connection_results
  end.

(** [connect_to_servers] *)
Definition connect_to_servers : M (list (History.Key * bool)) :=
  c <- get ;;
  if negb (enabled c) then ret [] else connect_each (servers c) [].

(** [get_available_tools] *)
Definition get_available_tools (c : MCPClient) : list Tool :=
  if negb (enabled c) then [] else available_tools c.

(** [disconnect_all] *)
Definition disconnect_all : M bool :=
  c <- get ;;
  if negb (enabled c) then ret true
  else
    foldr (fun kv rest => note (LogDisconnected (fst kv)) ;;; rest) (ret tt)
          (connected_servers c) ;;;
    put (mkMCPClient (enabled c) (servers c) [] []) ;;;
    note (LogInfo "Disconnected from all MCP servers") ;;;
    ret true.


Definition get_server_count (c : MCPClient) : nat :=
  if enabled c then length (servers c) else 0.

Definition get_connected_count (c : MCPClient) : nat :=
  if enabled c then length (connected_servers c) else 0.

(** What no call changes: whether the client is enabled, its connections
    and its tools; and a disabled client keeps its servers. *)
Definition unchanged_but_servers (c c' : MCPClient) : Prop :=
  enabled c' = enabled c /\
  connected_servers c' = connected_servers c /\
  available_tools c' = available_tools c /\
  (enabled c = false -> c' = c).

(** The calls that other code can make on a client. *)
Inductive Call :=
| AddServerConfig (config : MCPServerConfig)
| LoadServerConfigs (config_path : string)
| ConnectToServers
| DisconnectAll.

(** The client after a call, whether the call returned or raised. *)
Definition after (call : Call) (c : MCPClient) : MCPClient :=
  match call with
  | AddServerConfig config => world (add_server_config config c)
  | LoadServerConfigs config_path => world (load_server_configs config_path c)
  | ConnectToServers => world (connect_to_servers c)
  | DisconnectAll => world (disconnect_all c)
  end.

(** The client after a sequence of calls on a new client. *)
Definition after_calls (enabled : bool) (calls : list Call) : MCPClient :=
  foldl (fun c call => after call c) (fst (new_client enabled)) calls.
End Client.

Arguments MCPClient : clear implicits.

End MCP.

(** ** [config.py]: validation and environment overrides *)

Module Settings.
Import AIClient.

(** The [Config] dataclass, with the fields that [validate] and the
    clients read.  The fields of the provider are those of
    [AIClient.Config]; every field holds a value of its declared type. *)
Record Configuration := mkConfiguration {
  provider : Config;
  obsidian_api_key : string;
  obsidian_port : string;
  obsidian_host : string;
  request_timeout : Z;
  plugin_directory : string;
  chat_history_file : string
}.

Definition valid_providers : list string :=
  ["gemini"; "claude"; "openai"; "cohere"; "mistral"; "ollama"; "perplexity"; "together"].

(** The keys that an environment variable can override, each with its
    variable, in the order of the dictionary [env_overrides]. *)
Definition env_overrides : list (string * string) :=
  [("gemini_api_key", "GEMINI_API_KEY");
   ("claude_api_key", "CLAUDE_API_KEY");
   ("openai_api_key", "OPENAI_API_KEY");
   ("cohere_api_key", "COHERE_API_KEY");
   ("mistral_api_key", "MISTRAL_API_KEY");
   ("perplexity_api_key", "PERPLEXITY_API_KEY");
   ("together_api_key", "TOGETHER_API_KEY");
   ("obsidian_api_key", "OBSIDIAN_API_KEY");
   ("ollama_base_url", "OLLAMA_BASE_URL");
   ("ai_provider", "AI_PROVIDER");
   ("model_name", "AI_MODEL");
   ("obsidian_host", "OBSIDIAN_HOST");
   ("obsidian_port", "OBSIDIAN_PORT")].

(** [_apply_env_overrides]: the data and the keys logged as overridden.
    [getenv] is [os.getenv]. *)
Definition _apply_env_overrides (getenv : string -> option string)
           (config_data : gmap string PyVal) : gmap string PyVal * list string :=
  foldl (fun acc kv =>
           match getenv (snd kv) with
           | Some value =>
             if String.eqb value "" then acc
             else (<[fst kv := PStr value]> (fst acc),
                   snd acc ++ ["Overriding config with environment variable for: " +:+ fst kv])
           | None => acc
           end)
        (config_data, []) env_overrides.

Section Validation.
(** [str.strip] and [int] on a string ([None] for a [ValueError]), as the
    interpreter does them. *)
Variable strip : string -> string.
Variable py_int : string -> option Z.

(** [_is_valid_string] *)
Definition _is_valid_string (value : string) : bool :=
  negb (String.eqb (strip value) "").

(** The first part of [validate]: the message of the check of the
    provider and its key, if the check fails. *)
Definition provider_error (c : Config) : option string :=
  if String.eqb (ai_provider c) "gemini" then
    if negb (_is_valid_string (gemini_api_key c))
    then Some "Gemini API key cannot be empty when using Gemini provider." else None
  else if String.eqb (ai_provider c) "claude" then
    if negb (_is_valid_string (claude_api_key c))
    then Some "Claude API key cannot be empty when using Claude provider." else None
  else if String.eqb (ai_provider c) "openai" then
    if negb (_is_valid_string (openai_api_key c))
    then Some "OpenAI API key cannot be empty when using OpenAI provider." else None
  else if String.eqb (ai_provider c) "cohere" then
    if negb (_is_valid_string (cohere_api_key c))
    then Some "Cohere API key cannot be empty when using Cohere provider." else None
  else if String.eqb (ai_provider c) "mistral" then
    if negb (_is_valid_string (mistral_api_key c))
    then Some "Mistral API key cannot be empty when using Mistral provider." else None
  else if String.eqb (ai_provider c) "perplexity" then
    if negb (_is_valid_string (perplexity_api_key c))
    then Some "Perplexity API key cannot be empty when using Perplexity provider." else None
  else if String.eqb (ai_provider c) "together" then
    if negb (_is_valid_string (together_api_key c))
    then Some "Together API key cannot be empty when using Together provider." else None
  else if String.eqb (ai_provider c) "ollama" then
    if negb (_is_valid_string (ollama_base_url c))
    then Some "Ollama base URL cannot be empty when using Ollama provider." else None
  else
    Some ("Invalid AI provider: " +:+ ai_provider c +:+ ". Must be one of: " +:+
          Bridge.join ", " valid_providers).

(** [validate] *)
Definition validate (c : Configuration) : bool * string :=
  match provider_error (provider c) with
  | Some message => (false, message)
  | None =>
    if negb (_is_valid_string (obsidian_api_key c)) then
      (false, "Obsidian API key cannot be empty.")
    else if negb (_is_valid_string (model_name (provider c))) then
      (false, "Model name cannot be empty.")
    else if negb (_is_valid_string (obsidian_host c)) then
      (false, "Obsidian host cannot be empty.")
    else
      match py_int (obsidian_port c) with
      | None => (false, "Obsidian port must be a valid number.")
      | Some port =>
        if negb ((1 <=? port)%Z && (port <=? 65535)%Z) then
          (false, "Obsidian port must be a number between 1 and 65535.")
        else if (request_timeout c <=? 0)%Z then
          (false, "Request timeout must be a positive number.")
        else if negb (_is_valid_string (chat_history_file c)) then
          (false, "Chat history file path cannot be empty.")
        else if negb (_is_valid_string (plugin_directory c)) then
          (false, "Plugin directory cannot be empty.")
        else (true, "Configuration is valid.")
      end
  end.
End Validation.

(** [get_obsidian_url] *)
Definition get_obsidian_url (c : Configuration) : string :=
  "http://" +:+ obsidian_host c +:+ ":" +:+ obsidian_port c.

End Settings.

(** ** [bridge.py]: setting up the provider and testing the connections *)

Module Startup.
Import AIClient.

Section Setup.
Variable vendor : Vendor.
Variable config : Config.
Variable mentions_api_key : string -> bool.

(** [GeodeBridge._setup_ai_client]; [create_ai_client] makes a new
    adapter object. *)
Definition _setup_ai_client (tool_functions : list string) : M Adapter Log Provider :=
  try_except
    (ai_client <- lift (create_ai_client config) ;;
     put new_adapter ;;;
     initialize vendor config mentions_api_key ai_client tool_functions ;;;
     note (LogInfo ("Initialized " +:+ ai_provider config +:+ " client with model: " +:+
                    model_name config)) ;;;
     ret ai_client)
    (fun e =>
       note (LogError ("Failed to initialize AI client: " +:+ exc_msg e)) ;;;
       raise (exc GeminiAuthError ("Failed to initialize " +:+ ai_provider config +:+
                                   " client: " +:+ exc_msg e))).
End Setup.

Section Connections.
Context {World : Type}.
Variable api : Obsidian.Api World.
Variable vendor : Vendor.
Variable config : Config.
Variable probe : option PyVal -> Outcome PyVal.
Variable py_str : PyVal -> string.
(** [str.title], as the interpreter does it. *)
Variable title : string -> string.

(** The bridge works on the vault and on its adapter; its trace holds the
    events of both. *)
#[local] Abbreviation B := (M (World * Adapter) (Obsidian.Event + Adapters.TestLog)).

Definition on_obsidian {A} (m : M World Obsidian.Event A) : B A :=
  fun s =>
    match m (fst s) with
    | mkRes o w t => mkRes o (w, snd s) (map inl t)
    end.

Definition on_ai_client {A} (m : M Adapter Adapters.TestLog A) : B A :=
  fun s =>
    match m (snd s) with
    | mkRes o a t => mkRes o (fst s, a) (map inr t)
    end.

(** [GeodeBridge.test_connection], for a bridge whose adapter is of
    class [p]. *)
Definition test_connection (p : Provider) : B (bool * string) :=
  obsidian <- on_obsidian (Obsidian.test_connection api) ;;
  if negb (fst obsidian) then
    ret (false, "Obsidian Connection Failed: " +:+ snd obsidian)
  else
    ai <- on_ai_client (Adapters.test_connection vendor probe py_str p) ;;
    if negb (fst ai) then
      ret (false, "AI Provider Connection Failed: " +:+ snd ai)
    else
      ret (true, "All connections successful (Obsidian + " +:+ title (ai_provider config) +:+
                 ").").
End Connections.

Section Extension.
Context {World : Type}.
Variable read_json : string -> option (Outcome PyVal).

#[local] Abbreviation C := (M (MCP.MCPClient World) MCP.Log).


End Extension.

End Startup.

(** ** Conditions on the collaborators of the orchestrator *)

Module Conditions.
Import Bridge.

(** A user interface whose signals never raise. *)
Definition signals_work {World} (env : Env World) : Prop :=
  forall s (w : World), fst (signal_emit env s w) = Ok tt.

End Conditions.

(** Concrete vaults, histories, providers and plugins for the properties
    of the other functions. *)

Module ListingExamples.
Import Obsidian.

(** [str.strip] on ASCII text: spaces, tabs and line ends go from both
    ends. *)
Definition is_space (c : ascii) : bool :=
  match c with
  | " "%char | "009"%char | "010"%char | "011"%char | "012"%char | "013"%char => true
  | _ => false
  end.

Fixpoint lstrip (s : string) : string :=
  match s with
  | String c s' => if is_space c then lstrip s' else s
  | EmptyString => EmptyString
  end.

Fixpoint reverse (acc s : string) : string :=
  match s with
  | String c s' => reverse (String c acc) s'
  | EmptyString => acc
  end.

Definition strip (s : string) : string :=
  reverse "" (lstrip (reverse "" (lstrip s))).

(** A vault whose every directory is empty: the plugin answers with a
    JSON object that has an empty list of files. *)
Definition empty_vault : Api unit :=
  mkApi "http://127.0.0.1:27124"
        (fun method url data w => (Responded 200 "{files: []}", w))
        (fun s => s)
        (fun text => Ok (PDict [("files", PList [])]))
        Examples.str_of.

End ListingExamples.

Module SessionExamples.
Import History.

Definition first_session : ChatSession :=
  mkChatSession (PStr "a1b2c3d4e5f6") (PStr "Groceries")
                (PStr "2024-05-01T10:00:00") (PStr "2024-05-01T10:05:00")
                [mkChatMessage (PStr "2024-05-01T10:05:00") (PStr "You") (PStr "milk?")
                               (PStr "text")].

Definition second_session : ChatSession :=
  mkChatSession (PStr "0f9e8d7c6b5a") (PStr "Travel")
                (PStr "2024-05-02T09:00:00") (PStr "2024-05-02T09:00:00") [].

Definition one_chat : Sessions := [(KStr "a1b2c3d4e5f6", first_session)].

Definition two_chats : Sessions :=
  [(KStr "a1b2c3d4e5f6", first_session); (KStr "0f9e8d7c6b5a", second_session)].

(** The text that the JSON library writes for the one chat, and a library
    and disk without faults that read it back. *)
Definition one_chat_text : string := "{sessions: [a1b2c3d4e5f6]}".

Definition io_sound : IO :=
  mkIO 1700000000
       (fun path content =>
          if String.eqb content one_chat_text
          then Ok (PDict [("sessions", PList (map (fun kv => session_to_dict (snd kv)) one_chat))])
          else Raise (exc JSONDecodeError "Expecting value: line 1 column 1 (char 0)"))
       (fun path => None)
       (fun data => (one_chat_text, None))
       (fun src dst => None).

Definition one_chat_world : World := mkWorld one_chat ∅.
Definition two_chats_world : World := mkWorld two_chats ∅.

End SessionExamples.

Module RoundExamples.
Import Bridge.

(** A provider that asks for [list_files] where the dispatch map of the
    bridge is empty. *)
Definition no_tools_env : Env unit :=
  mkEnv (fun _ w => (Ok Examples.one_call, w))
        (fun _ w => (Ok tt, w))
        ∅
        Examples.str_of.

End RoundExamples.

Module LoaderExamples.
Import Bridge Plugins.

(** A plugin whose [get_tools] raises. *)
Definition faulty_plugin : Plugin unit :=
  mkPlugin (Ok "faulty") (Ok "Fails when asked for its tools")
           (Raise (exc PlainException "database is locked")).

End LoaderExamples.

Module AdapterExamples.
Import AIClient.

(** An OpenAI adapter in the middle of a conversation. *)
Definition talking : Adapter :=
  mkAdapter (Some (PObj [("api_key", PStr "sk-test")])) None true (Some [])
            (Some [user_entry (PStr "hello")]) None.

(** A vendor whose service is down. *)
Definition unavailable : Vendor :=
  mkVendor true
           (fun key => Ok (PObj [("api_key", PStr key)]))
           (fun c model tools => Ok (PObj [("model", PStr model)]))
           (fun handle payload => Raise (exc VendorError "503 Service Unavailable"))
           (fun response => Ok None).

End AdapterExamples.

(** * Properties *)

Import Bridge Observe.

(** ** What a computation can put on its trace *)

Section Emits.
Context {W E : Type}.
Implicit Types P : E -> Prop.

(** Every event of every run of [m] satisfies [P]. *)
Definition emits {A} P (m : M W E A) : Prop :=
  forall w, Forall P (trace (m w)).

Lemma emits_ret {A} P (a : A) : emits P (ret a).
Proof. intros w. constructor. Qed.

Lemma emits_raise {A} P e : emits P (@raise W E A e).
Proof. intros w. constructor. Qed.

Lemma emits_lift {A} P (o : Outcome A) : emits P (lift o).
Proof. intros w. constructor. Qed.

Lemma emits_note P ev : P ev -> emits P (note ev).
Proof. intros H w. simpl. repeat constructor. exact H. Qed.

Lemma emits_act {A} P (oracle : W -> Outcome A * W) ev :
  (forall o, P (ev o)) -> emits P (act oracle ev).
Proof.
  intros H w. unfold act. destruct (oracle w) as [o w']. simpl.
  repeat constructor. apply H.
Qed.

Lemma emits_bind {A B} P (m : M W E A) (k : A -> M W E B) :
  emits P m -> (forall a, emits P (k a)) -> emits P (bind m k).
Proof.
  intros Hm Hk w. unfold bind. specialize (Hm w).
  destruct (m w) as [[a|e] w1 t1]; cbn in *; [|exact Hm].
  specialize (Hk a w1). destruct (k a w1) as [o w2 t2]; cbn in *.
  apply Forall_app. split; assumption.
Qed.

Lemma emits_try_except {A} P (body : M W E A) handler :
  emits P body -> (forall e, emits P (handler e)) -> emits P (try_except body handler).
Proof.
  intros Hm Hk w. unfold try_except. specialize (Hm w).
  destruct (body w) as [[a|e] w1 t1]; cbn in *; [exact Hm|].
  specialize (Hk e w1). destruct (handler e w1) as [o w2 t2]; cbn in *.
  apply Forall_app. split; assumption.
Qed.

Lemma emits_try_finally {A} P (body : M W E A) fin :
  emits P body -> emits P fin -> emits P (try_finally body fin).
Proof.
  intros Hm Hk w. unfold try_finally. specialize (Hm w).
  destruct (body w) as [o w1 t1]; cbn in *.
  specialize (Hk w1). destruct (fin w1) as [[[]|e] w2 t2]; cbn in *;
    apply Forall_app; split; assumption.
Qed.

End Emits.

(** Destructs the matches of a goal about [emits] and applies the rules
    above. *)
Ltac emits_auto :=
  repeat first
    [ progress intros
    | apply emits_ret | apply emits_raise | apply emits_lift
    | apply emits_bind | apply emits_try_except | apply emits_try_finally
    | apply emits_note; reflexivity
    | apply emits_act; intros; reflexivity
    | match goal with
      | |- emits _ (match ?x with _ => _ end) => destruct x
      | |- emits _ (if ?x then _ else _) => destruct x
      end ].

(** ** The orchestrator: what each part of the loop can do *)

Section TraceEquations.
Context {W E : Type}.

Lemma trace_bind {A B} (m : M W E A) (k : A -> M W E B) w :
  trace (bind m k w) =
  trace (m w) ++ match out (m w) with
                 | Ok a => trace (k a (world (m w)))
                 | Raise _ => []
                 end.
Proof.
  unfold bind. destruct (m w) as [[a|e] w1 t1]; cbn; [|now rewrite app_nil_r].
  destruct (k a w1); reflexivity.
Qed.

Lemma out_bind {A B} (m : M W E A) (k : A -> M W E B) w :
  out (bind m k w) = match out (m w) with
                     | Ok a => out (k a (world (m w)))
                     | Raise e => Raise e
                     end.
Proof.
  unfold bind. destruct (m w) as [[a|e] w1 t1]; cbn; [|reflexivity].
  destruct (k a w1); reflexivity.
Qed.

Lemma trace_try_except {A} (body : M W E A) handler w :
  trace (try_except body handler w) =
  trace (body w) ++ match out (body w) with
                    | Ok _ => []
                    | Raise e => trace (handler e (world (body w)))
                    end.
Proof.
  unfold try_except. destruct (body w) as [[a|e] w1 t1]; cbn; [now rewrite app_nil_r|].
  destruct (handler e w1); reflexivity.
Qed.

Lemma out_try_except {A} (body : M W E A) handler w :
  out (try_except body handler w) =
  match out (body w) with
  | Ok a => Ok a
  | Raise e => out (handler e (world (body w)))
  end.
Proof.
  unfold try_except. destruct (body w) as [[a|e] w1 t1]; cbn; [reflexivity|].
  destruct (handler e w1); reflexivity.
Qed.

Lemma trace_try_finally {A} (body : M W E A) fin w :
  trace (try_finally body fin w) = trace (body w) ++ trace (fin (world (body w))).
Proof.
  unfold try_finally. destruct (body w) as [o w1 t1]; cbn.
  destruct (fin w1) as [[[]|e] w2 t2]; reflexivity.
Qed.

Lemma out_try_finally {A} (body : M W E A) fin w :
  out (try_finally body fin w) =
  match out (fin (world (body w))) with
  | Ok _ => out (body w)
  | Raise e => Raise e
  end.
Proof.
  unfold try_finally. destruct (body w) as [o w1 t1]; cbn.
  destruct (fin w1) as [[[]|e] w2 t2]; reflexivity.
Qed.
End TraceEquations.

Lemma count_app f (a b : list Event) : count f (a ++ b) = count f a + count f b.
Proof. induction a as [|x a IH]; cbn; [reflexivity | rewrite IH; lia]. Qed.

Lemma count_none f (P : Event -> Prop) (tr : list Event) :
  (forall e, P e -> f e = false) -> Forall P tr -> count f tr = 0.
Proof.
  intros H HF. induction HF as [|x l Hx _ IH]; [reflexivity|].
  cbn. rewrite (H x Hx), IH. reflexivity.
Qed.

(** The helper [attr_if_truthy] is the source's [hasattr(o, n) and o.n]. *)
Lemma attr_if_truthy_spec o n :
  attr_if_truthy o n =
  if hasattr o n then
    match getattr o n with
    | Ok v => if truthy v then Some v else None
    | Raise _ => None
    end
  else None.
Proof.
  destruct o; try reflexivity. cbn. destruct (assoc n attrs); reflexivity.
Qed.

Lemma bridge_py_has_no_types : bridge_py_types = None.
Proof. reflexivity. Qed.

Section OrchestratorFacts.
Context {World : Type}.
Variable env : Env World.
Variable types : option TypesModule.

Lemma execute_emits function_call :
  emits (fun e => in_execution e = true) (_execute_function_call env types function_call).
Proof. unfold _execute_function_call, emit. emits_auto. Qed.

Lemma execute_all_emits function_calls acc :
  emits (fun e => in_execution e = true) (execute_all env types function_calls acc).
Proof.
  revert acc. induction function_calls as [|fc rest IH]; intros acc; cbn [execute_all].
  - apply emits_ret.
  - apply emits_bind.
    + apply emits_try_except.
      * apply emits_bind; [apply execute_emits | intros; apply emits_ret].
      * unfold log, emit. emits_auto.
    + intros [fr|]; [apply IH | apply emits_ret].
Qed.

Lemma resubmit_emits response function_responses :
  emits (fun e => in_loop e = true) (resubmit env response function_responses).
Proof. unfold resubmit, send, log, emit. emits_auto. Qed.

Lemma in_execution_in_loop e : in_execution e = true -> in_loop e = true.
Proof. unfold in_loop. intros ->. reflexivity. Qed.

Lemma tool_loop_emits iterations response :
  emits (fun e => in_loop e = true) (tool_loop env types iterations response).
Proof.
  revert response. induction iterations as [|i rest IH]; intros response; cbn [tool_loop].
  - apply emits_ret.
  - apply emits_bind; [apply emits_lift|]. intros [|fc fcs]; [apply emits_ret|].
    apply emits_bind.
    + intros w. eapply Forall_impl; [apply execute_all_emits|].
      intros e; apply in_execution_in_loop.
    + intros [frs|]; [|apply emits_ret].
      apply emits_bind; [apply resubmit_emits|].
      intros [response'|]; [|apply emits_ret].
      destruct (Nat.eqb i (max_iterations - 1)); [|apply IH].
      unfold log, emit. emits_auto.
Qed.

(** The four ways a resubmission can go. *)
Lemma resubmit_cases response frs w :
  let r := resubmit env response frs w in
  (out r = Ok (Some response) /\ trace r = [] /\ frs = []) \/
  (exists response', out r = Ok (Some response') /\
                     trace r = [EvSend (ToolResults frs) (Ok response')]) \/
  (out r = Ok None /\ count is_resubmission (trace r) = 1 /\
   count is_completed_round (trace r) = 0) \/
  (exists e, out r = Raise e /\ count is_resubmission (trace r) = 1 /\
             count is_completed_round (trace r) = 0).
Proof.
  destruct frs as [|fr frs]; cbn.
  { left. auto. }
  right. unfold try_except, bind, send, act, log, note, emit, act; cbn.
  destruct (ai_client_send_message env (ToolResults (fr :: frs)) w) as [[r|e] w1]; cbn.
  { left. eauto. }
  right. destruct (signal_emit env _ w1) as [[[]|e'] w2]; cbn.
  - left. auto.
  - right. exists e'. auto.
Qed.

Lemma ceiling_branch w :
  exists r, trace ((log WARNING "Max tool-use iterations reached" ;;;
                    emit env (SigError "Tool-use loop exceeded maximum iterations")) w)
            = [EvLog WARNING "Max tool-use iterations reached";
               EvEmit (SigError ceiling_text) r].
Proof.
  unfold bind, log, note, emit, act. cbn.
  destruct (signal_emit env _ w) as [o w2]. cbn. eauto.
Qed.

(** With [n] iterations left the loop resubmits at most [n] times, and
    when all [n] rounds run to their end the last thing it does is to
    report the ceiling. *)
Lemma tool_loop_rounds n : forall k response w,
  k + n = max_iterations ->
  let tr := trace (tool_loop env types (seq k n) response w) in
  count is_resubmission tr <= n /\
  count is_completed_round tr <= n /\
  (n <> 0 -> count is_completed_round tr = n -> ceiling_tail tr).
Proof.
  induction n as [|n IH]; intros k response w Hk; cbv zeta.
  { cbn. repeat split; try lia. }
  cbn [seq tool_loop]. rewrite trace_bind. cbn [lift trace out world app].
  destruct (_extract_function_calls response) as [[|fc fcs]|e].
  1,3: cbn; repeat split; try lia; discriminate.
  rewrite trace_bind.
  pose proof (execute_all_emits (fc :: fcs) [] w) as Hx.
  set (rx := execute_all env types (fc :: fcs) [] w) in *.
  assert (Hr : count is_resubmission (trace rx) = 0).
  { eapply count_none; [|exact Hx]. intros [] He; try reflexivity; discriminate. }
  assert (Hc : count is_completed_round (trace rx) = 0).
  { eapply count_none; [|exact Hx]. intros [] He; try reflexivity; discriminate. }
  rewrite !count_app, Hr, Hc.
  destruct (out rx) as [[frs|]|e].
  2,3: cbn; repeat split; try lia; discriminate.
  rewrite trace_bind.
  destruct (resubmit_cases response frs (world rx)) as
    [(Ho & Ht & _)|[(r' & Ho & Ht)|[(Ho & H1 & H2)|(e & Ho & H1 & H2)]]];
    rewrite Ho, !count_app.
  - (* nothing to resubmit *)
    rewrite Ht. change (count is_resubmission []) with 0.
    change (count is_completed_round []) with 0.
    destruct (Nat.eqb_spec k (max_iterations - 1)) as [E9|N9].
    + destruct (ceiling_branch (world (resubmit env response frs (world rx)))) as [o Hcb].
      rewrite Hcb. cbn. repeat split; try lia.
    + unfold max_iterations in *.
      destruct (IH (S k) response (world (resubmit env response frs (world rx))))
        as (B1 & B2 & B3); [lia|].
      repeat split; try lia.
  - (* the results were sent and answered *)
    rewrite Ht. change (count is_resubmission [_]) with 1.
    change (count is_completed_round [_]) with 1.
    destruct (Nat.eqb_spec k (max_iterations - 1)) as [E9|N9].
    + destruct (ceiling_branch (world (resubmit env response frs (world rx)))) as [o Hcb].
      rewrite Hcb. cbn. repeat split; try lia. intros _ _.
      exists (trace rx ++ [EvSend (ToolResults frs) (Ok r')]), o.
      now rewrite <- app_assoc.
    + unfold max_iterations in *.
      destruct (IH (S k) r' (world (resubmit env response frs (world rx))))
        as (B1 & B2 & B3); [lia|].
      repeat split; try lia. intros _ H.
      destruct B3 as (tr0 & r & Htr); [lia|lia|].
      rewrite Htr.
      exists (trace rx ++ [EvSend (ToolResults frs) (Ok r')] ++ tr0), r.
      now rewrite <- !app_assoc.
  - rewrite H1, H2. cbn. repeat split; try lia.
  - rewrite H1, H2. cbn. repeat split; try lia.
Qed.
End OrchestratorFacts.

Section SendMessageFacts.
Context {World : Type}.
Variable env : Env World.
Variable types : option TypesModule.

(** The [finally] block emits [finished] once, logs when that fails, and
    never raises. *)
Lemma finally_runs w :
  exists o,
    trace (send_message_finally env w) =
      EvEmit SigFinished o ::
      match o with
      | Ok _ => []
      | Raise e => [EvLog ERROR ("Error emitting finished signal: " +:+ exc_msg e)]
      end /\
    out (send_message_finally env w) = Ok tt.
Proof.
  unfold send_message_finally, try_except, emit, act, log, note.
  destruct (signal_emit env SigFinished w) as [[[]|e] w1]; cbn;
    [exists (Ok tt) | exists (Raise e)]; split; reflexivity.
Qed.

(** The handler logs and emits the error signal; it raises only what
    that emission raises. *)
Lemma except_runs e0 w :
  exists o,
    trace (send_message_except env e0 w) =
      [EvLog ERROR ("Error in send_message: " +:+ exc_msg e0);
       EvEmit (SigError (_format_error_message e0)) o] /\
    out (send_message_except env e0 w) = o.
Proof.
  unfold send_message_except, bind, emit, act, log, note. cbn.
  destruct (signal_emit env _ w) as [[[]|e] w1]; cbn;
    [exists (Ok tt) | exists (Raise e)]; split; reflexivity.
Qed.

Lemma process_emits response :
  emits (fun e => in_loop e = true) (_process_tool_calls env types response).
Proof. apply tool_loop_emits. Qed.

Lemma in_loop_not_finished e : in_loop e = true -> is_finished e = false.
Proof. destruct e as [| [] | |]; cbn; intros H; try reflexivity; discriminate. Qed.

Lemma try_emits prompt :
  emits (fun e => is_finished e = false) (send_message_try env types prompt).
Proof.
  unfold send_message_try, send, emit.
  apply emits_bind; [apply emits_act; reflexivity|]. intros response.
  apply emits_bind.
  { intros w. eapply Forall_impl; [apply process_emits|].
    intros e; apply in_loop_not_finished. }
  intros _. apply emits_bind; [apply emits_lift|]. intros final_text.
  apply emits_act; reflexivity.
Qed.

(** The only provider call outside the loop is the one for the prompt,
    so a prompt is followed by as many resubmissions as the loop
    makes. *)
Lemma send_message_resubmissions prompt w :
  let r0 := send env (Prompt prompt) w in
  count is_resubmission (trace (send_message env types prompt w)) =
  match out r0 with
  | Ok response =>
    count is_resubmission (trace (_process_tool_calls env types response (world r0)))
  | Raise _ => 0
  end.
Proof.
  cbv zeta. unfold send_message.
  rewrite trace_try_finally, trace_try_except, !count_app.
  destruct (finally_runs (world (try_except (send_message_try env types prompt)
                                            (send_message_except env) w)))
    as (o & -> & _).
  assert (Hfin : forall o : Outcome unit,
             count is_resubmission
               (EvEmit SigFinished o ::
                match o with
                | Ok _ => []
                | Raise e => [EvLog ERROR ("Error emitting finished signal: " +:+ exc_msg e)]
                end) = 0) by (intros [|]; reflexivity).
  rewrite Hfin.
  assert (Hex : forall e0 w',
             count is_resubmission (trace (send_message_except env e0 w')) = 0).
  { intros e0 w'. destruct (except_runs e0 w') as (o' & -> & _). reflexivity. }
  assert (Hexc : match out (send_message_try env types prompt w) with
                 | Ok _ => 0
                 | Raise e =>
                   count is_resubmission
                     (trace (send_message_except env e
                               (world (send_message_try env types prompt w))))
                 end = 0).
  { destruct (out (send_message_try env types prompt w)); [reflexivity | apply Hex]. }
  transitivity (count is_resubmission (trace (send_message_try env types prompt w))).
  { destruct (out (send_message_try env types prompt w));
      [cbn; lia | rewrite Hex; lia]. }
  clear Hfin Hexc.
  unfold send_message_try. rewrite trace_bind, count_app.
  assert (H0 : count is_resubmission (trace (send env (Prompt prompt) w)) = 0).
  { unfold send, act. destruct (ai_client_send_message env (Prompt prompt) w). reflexivity. }
  rewrite H0. destruct (out (send env (Prompt prompt) w)) as [response|e]; [|reflexivity].
  rewrite trace_bind, count_app.
  destruct (out (_process_tool_calls env types response _)); [|cbn; lia].
  rewrite trace_bind. cbn [lift trace out world app].
  destruct (_extract_final_text response); [|cbn; lia].
  unfold emit, act. destruct (signal_emit env _ _). cbn. lia.
Qed.

Lemma send_trace input w :
  trace (send env input w) = [EvSend input (out (send env input w))].
Proof. unfold send, act. destruct (ai_client_send_message env input w). reflexivity. Qed.

Lemma emit_trace s w :
  trace (emit env s w) = [EvEmit s (out (emit env s w))].
Proof. unfold emit, act. destruct (signal_emit env s w). reflexivity. Qed.

(** The trace of the [try] block, path by path. *)
Lemma try_trace prompt w :
  let r0 := send env (Prompt prompt) w in
  trace (send_message_try env types prompt w) =
  EvSend (Prompt prompt) (out r0) ::
  match out r0 with
  | Raise _ => []
  | Ok response =>
    let r1 := _process_tool_calls env types response (world r0) in
    trace r1 ++
    match out r1, _extract_final_text response with
    | Ok _, Ok final_text =>
      [EvEmit (SigMessage "Geode" (text_or_default final_text))
              (out (emit env (SigMessage "Geode" (text_or_default final_text)) (world r1)))]
    | _, _ => []
    end
  end.
Proof.
  cbv zeta. unfold send_message_try. rewrite trace_bind, send_trace. cbn [app].
  f_equal. destruct (out (send env (Prompt prompt) w)) as [response|e]; [|reflexivity].
  rewrite trace_bind. f_equal.
  destruct (out (_process_tool_calls env types response _)); [|reflexivity].
  rewrite trace_bind. cbn [lift trace out world app].
  destruct (_extract_final_text response); [|reflexivity].
  apply emit_trace.
Qed.
End SendMessageFacts.

(** ** [bridge.py] as written: [types] is unbound *)

Section UnboundTypes.
Context {World : Type}.
Variable env : Env World.

(** Every execution of a function call ends in an exception: what does
    not fail earlier fails on the name [types]. *)
Lemma execute_raises fc w :
  exists e, out (_execute_function_call env None fc w) = Raise e.
Proof.
  unfold _execute_function_call.
  rewrite out_bind. cbn [lift out world].
  destruct (getattr fc "name") as [function_name|e]; [|eauto].
  rewrite out_bind. cbn [lift out world].
  destruct (obind _ _) as [args|e]; [|eauto].
  rewrite out_bind.
  destruct (out (emit env _ w)); [|eauto].
  rewrite out_bind. cbn [lift out world].
  destruct (lookup_tool env function_name) as [[f|]|e]; [| cbn; eauto | eauto].
  rewrite out_bind.
  destruct (out (act _ _ _)); cbn; eauto.
Qed.

Lemma execute_all_aborts fc fcs acc w :
  out (execute_all env None (fc :: fcs) acc w) = Ok None \/
  exists e, out (execute_all env None (fc :: fcs) acc w) = Raise e.
Proof.
  cbn [execute_all]. rewrite out_bind, out_try_except, out_bind.
  destruct (execute_raises fc w) as [e ->].
  unfold log, emit, note, act, bind. cbn.
  destruct (signal_emit env _ _) as [[[]|e'] w1]; cbn; eauto.
Qed.

(** So the loop never gets to resubmit anything. *)
Lemma unbound_loop_emits iterations response :
  emits (fun e => in_execution e = true) (tool_loop env None iterations response).
Proof.
  destruct iterations as [|i rest]; cbn [tool_loop]; [apply emits_ret|].
  apply emits_bind; [apply emits_lift|]. intros [|fc fcs]; [apply emits_ret|].
  intros w. rewrite trace_bind.
  apply Forall_app. split; [apply execute_all_emits|].
  destruct (execute_all_aborts fc fcs [] w) as [->|[e ->]]; constructor.
Qed.

Lemma quiet_execution tr :
  Forall (fun e => in_execution e = true) tr -> Forall quiet tr.
Proof.
  intros H. eapply Forall_impl; [exact H|].
  intros [| [] | |]; cbn; intros H'; try discriminate; split; reflexivity.
Qed.

(** The shape of every trace of [send_message]: the call for the prompt,
    the events of the loop, at most one message event, and the events of
    the handler and of the [finally] block. *)
Lemma unbound_send_message_trace prompt w :
  exists o0 middle msg rest,
    out (send env (Prompt prompt) w) = o0 /\
    trace (send_message env None prompt w)
      = EvSend (Prompt prompt) o0 :: middle ++ msg ++ rest /\
    Forall quiet middle /\ Forall quiet rest /\
    (msg = [] \/
     exists response final_text o,
       o0 = Ok response /\ _extract_final_text response = Ok final_text /\
       msg = [EvEmit (SigMessage "Geode" (text_or_default final_text)) o]).
Proof.
  unfold send_message. rewrite trace_try_finally, trace_try_except.
  destruct (finally_runs env (world (try_except (send_message_try env None prompt)
                                            (send_message_except env) w)))
    as (ofin & Hfin & _). rewrite Hfin. clear Hfin.
  set (fin := EvEmit SigFinished ofin :: _).
  assert (Qfin : Forall quiet fin).
  { subst fin. destruct ofin; repeat constructor. }
  set (exc_part := match out (send_message_try env None prompt w) with
                   | Ok _ => []
                   | Raise e => trace (send_message_except env e _)
                   end).
  assert (Qex : Forall quiet exc_part).
  { subst exc_part. destruct (out (send_message_try env None prompt w)); [constructor|].
    destruct (except_runs env e (world (send_message_try env None prompt w)))
      as (o' & -> & _). repeat constructor. }
  clearbody exc_part fin.
  pose proof (try_trace env None prompt w) as Ht. cbv zeta in Ht. rewrite Ht. clear Ht.
  exists (out (send env (Prompt prompt) w)).
  destruct (out (send env (Prompt prompt) w)) as [response|e0].
  2:{ exists [], [], (exc_part ++ fin).
      split; [reflexivity|]. split; [reflexivity|].
      split; [constructor|]. split; [apply Forall_app; auto|]. left; reflexivity. }
  set (r1 := _process_tool_calls env None response _).
  assert (Q1 : Forall quiet (trace r1)).
  { apply quiet_execution. apply unbound_loop_emits. }
  exists (trace r1).
  destruct (out r1) as [[]|e1].
  2:{ exists [], (exc_part ++ fin).
      split; [reflexivity|].
      split; [cbn [app]; rewrite ?app_nil_r, <- ?app_assoc; reflexivity|].
      split; [exact Q1|]. split; [apply Forall_app; auto|]. left; reflexivity. }
  destruct (_extract_final_text response) as [final_text|e2] eqn:Etext.
  2:{ exists [], (exc_part ++ fin).
      split; [reflexivity|].
      split; [cbn [app]; rewrite ?app_nil_r, <- ?app_assoc; reflexivity|].
      split; [exact Q1|]. split; [apply Forall_app; auto|]. left; reflexivity. }
  set (o := out (emit env (SigMessage "Geode" (text_or_default final_text)) (world r1))).
  exists [EvEmit (SigMessage "Geode" (text_or_default final_text)) o], (exc_part ++ fin).
  split; [reflexivity|].
  split; [rewrite <- ?app_assoc; cbn [app]; rewrite <- ?app_assoc; reflexivity|].
  split; [exact Q1|]. split; [apply Forall_app; auto|].
  right. exists response, final_text, o. auto.
Qed.
End UnboundTypes.

(** The loop as it is meant: whatever the module namespace binds [types]
    to, a prompt is followed by at most ten execute-and-resubmit rounds,
    and when the tenth round has run to its end the last thing the tool
    loop does is to emit the error event "Tool-use loop exceeded maximum
    iterations". *)
Lemma iteration_ceiling_for_every_binding {World} (env : Env World) (types : option TypesModule)
        (prompt : string) (response : PyVal) (w : World) :
  count is_resubmission (trace (send_message env types prompt w)) <= 10 /\
  count is_resubmission (trace (_process_tool_calls env types response w)) <= 10 /\
  (count is_completed_round (trace (_process_tool_calls env types response w)) = 10 ->
   ceiling_tail (trace (_process_tool_calls env types response w))).
Proof.
  assert (H : forall response w,
             count is_resubmission (trace (_process_tool_calls env types response w)) <= 10 /\
             (count is_completed_round (trace (_process_tool_calls env types response w)) = 10 ->
              ceiling_tail (trace (_process_tool_calls env types response w)))).
  { intros r' w'. unfold _process_tool_calls.
    destruct (tool_loop_rounds env types max_iterations 0 r' w' eq_refl) as (B1 & _ & B3).
    split; [exact B1 | intros Hc; apply B3; [discriminate | exact Hc]]. }
  split; [|apply H].
  rewrite send_message_resubmissions.
  destruct (out (send env (Prompt prompt) w)); [apply H | lia].
Qed.

(** Were [types] bound as in the vendor library, a provider that asks for
    a tool in every response would get ten rounds and the report of the
    ceiling. *)
Lemma bound_types_ten_rounds_meet_ceiling :
  count is_completed_round
    (trace (_process_tool_calls Examples.insistent_env Examples.genai_types
                                Examples.one_call tt)) = 10 /\
  ceiling_tail (trace (_process_tool_calls Examples.insistent_env Examples.genai_types
                                           Examples.one_call tt)).
Proof.
  assert (H : count is_completed_round
                (trace (_process_tool_calls Examples.insistent_env Examples.genai_types
                                            Examples.one_call tt)) = 10)
    by (vm_compute; reflexivity).
  split; [exact H|].
  apply (iteration_ceiling_for_every_binding Examples.insistent_env Examples.genai_types ""
           Examples.one_call tt).
  exact H.
Qed.

Section CeilingFacts.
Context {World : Type}.
Variable env : Env World.

Lemma unbound_execute_all_reports_no_ceiling function_calls acc :
  emits (fun e => is_ceiling_report e = false) (execute_all env None function_calls acc).
Proof.
  revert acc. induction function_calls as [|fc rest IH]; intros acc; cbn [execute_all].
  - apply emits_ret.
  - apply emits_bind.
    + apply emits_try_except.
      * apply emits_bind; [|intros; apply emits_ret].
        unfold _execute_function_call, emit. emits_auto.
      * unfold log, emit. emits_auto.
    + intros [fr|]; [apply IH | apply emits_ret].
Qed.

Lemma unbound_loop_reports_no_ceiling iterations response :
  emits (fun e => is_ceiling_report e = false) (tool_loop env None iterations response).
Proof.
  destruct iterations as [|i rest]; cbn [tool_loop]; [apply emits_ret|].
  apply emits_bind; [apply emits_lift|]. intros [|fc fcs]; [apply emits_ret|].
  intros w. rewrite trace_bind.
  apply Forall_app. split; [apply unbound_execute_all_reports_no_ceiling|].
  destruct (execute_all_aborts env fc fcs [] w) as [->|[e ->]]; constructor.
Qed.

Lemma format_error_message_is_no_ceiling e :
  String.eqb (_format_error_message e) ceiling_text = false.
Proof.
  unfold _format_error_message.
  destruct (_ || _); [reflexivity|]. destruct (isinstance _ _); reflexivity.
Qed.

Lemma unbound_send_message_reports_no_ceiling prompt :
  emits (fun e => is_ceiling_report e = false) (send_message env None prompt).
Proof.
  unfold send_message. apply emits_try_finally; [apply emits_try_except|].
  - unfold send_message_try, send, emit.
    apply emits_bind; [apply emits_act; reflexivity|]. intros response.
    apply emits_bind; [apply unbound_loop_reports_no_ceiling|]. intros _.
    apply emits_bind; [apply emits_lift|]. intros final_text.
    apply emits_act; reflexivity.
  - intros e. unfold send_message_except, log, emit.
    apply emits_bind; [apply emits_note; reflexivity|]. intros _.
    apply emits_act. intros o. apply format_error_message_is_no_ceiling.
  - unfold send_message_finally, log, emit. emits_auto.
Qed.

(** In [bridge.py] as written no round runs to its end, whatever the
    provider, the tools and the user interface do: nothing is resubmitted,
    and the error event of the ceiling is never emitted. *)
Lemma unbound_types_never_reach_ceiling prompt w :
  let r := send_message env bridge_py_types prompt w in
  count is_resubmission (trace r) = 0 /\
  count is_completed_round (trace r) = 0 /\
  count is_ceiling_report (trace r) = 0.
Proof.
  cbv zeta. rewrite bridge_py_has_no_types.
  assert (Hre : count is_resubmission (trace (send_message env None prompt w)) = 0).
  { rewrite send_message_resubmissions.
    destruct (out (send env (Prompt prompt) w)) as [response|e]; [|reflexivity].
    eapply count_none; [|apply (unbound_loop_emits env)].
    intros [] He; try reflexivity; discriminate. }
  split; [exact Hre|]. split.
  - assert (H : forall tr, count is_resubmission tr = 0 -> count is_completed_round tr = 0).
    { induction tr as [|e tr IH]; [reflexivity|]. cbn [count].
      destruct e as [[] []| | |]; cbn; intros H; try discriminate; apply IH; exact H. }
    apply H, Hre.
  - eapply count_none; [|apply unbound_send_message_reports_no_ceiling].
    intros e He. exact He.
Qed.
End CeilingFacts.

(** C2: the model asks for [list_files] in every response, and the
    callable is registered and returns.  The claim has the orchestrator
    run its rounds up to the ceiling of ten and then emit the error event
    "Tool-use loop exceeded maximum iterations".  The code executes
    [list_files] once, fails on the unbound name [types] when it packages
    the result, and reports "Tool execution failed": no round runs to its
    end, nothing is resubmitted, and the error event of the ceiling is not
    emitted. *)
Theorem C2_missing_import_keeps_loop_from_ceiling :
  let r := send_message Examples.insistent_env bridge_py_types "list my files" tt in
  trace r =
    [EvSend (Prompt "list my files") (Ok Examples.one_call);
     EvEmit (SigToolCall "list_files()") (Ok tt);
     EvTool "list_files" [] (Ok (PStr "SUCCESS: The directory '.' is empty."));
     EvLog ERROR "Tool execution failed: name 'types' is not defined";
     EvEmit (SigError "Tool execution failed: name 'types' is not defined") (Ok tt);
     EvEmit (SigMessage "Geode" "(No text response)") (Ok tt);
     EvEmit SigFinished (Ok tt)] /\
  count is_completed_round (trace r) = 0 /\
  count is_ceiling_report (trace r) = 0.
Proof. vm_compute. repeat split. Qed.

Section QuietTraces.
Lemma quiet_no_send tr : Forall quiet tr -> count is_send tr = 0.
Proof. apply count_none. intros e [H _]. exact H. Qed.

Lemma quiet_no_response tr : Forall quiet tr -> responses tr = [].
Proof.
  induction 1 as [|e tr [Hs _] _ IH]; [reflexivity|].
  unfold responses in *. cbn. rewrite IH.
  destruct e; try reflexivity. discriminate.
Qed.

Lemma quiet_no_message tr sender text o :
  Forall quiet tr -> ~ In (EvEmit (SigMessage sender text) o) tr.
Proof.
  intros H Hin. rewrite Forall_forall in H.
  apply list_elem_of_In in Hin. destruct (H _ Hin) as [_ Hm]. discriminate.
Qed.
End QuietTraces.

(** A response without function calls ends the loop at once. *)
Lemma loop_no_calls {World} (env : Env World) types iterations response w :
  _extract_function_calls response = Ok [] ->
  tool_loop env types iterations response w = mkRes (Ok tt) w [].
Proof.
  intros H. destruct iterations as [|i rest]; [reflexivity|].
  cbn [tool_loop]. unfold bind at 1, lift at 1. cbn [out world trace].
  rewrite H. reflexivity.
Qed.

(** C1 (the part the code keeps): in [bridge.py] as written no results are
    ever resubmitted, because every execution of a function call raises;
    the failure is reported by an error event. *)
Lemma unbound_types_never_resubmits {World} (env : Env World) prompt w :
  resubmitted (trace (send_message env bridge_py_types prompt w)) = [].
Proof.
  destruct (unbound_send_message_trace env prompt w)
    as (o0 & middle & msg & rest & _ & Ht & Qm & Qr & Hmsg).
  rewrite bridge_py_has_no_types, Ht.
  assert (Hq : forall tr, Forall quiet tr -> resubmitted tr = []).
  { induction 1 as [|e tr [Hs _] _ IH]; [reflexivity|].
    unfold resubmitted in *. cbn. rewrite IH. destruct e; try reflexivity. discriminate. }
  unfold resubmitted. cbn [omap list_omap]. rewrite !omap_app.
  fold (resubmitted middle). fold (resubmitted rest). rewrite (Hq _ Qm), (Hq _ Qr).
  destruct Hmsg as [->|(response & t & o & _ & _ & ->)]; reflexivity.
Qed.

(** C1: the model asks for [list_files] and [read_file]; both callables
    are registered and [list_files] returns its result.  The claim has
    both executed, in order, and their two results resubmitted in one
    call.  The code executes [list_files], fails on the unbound name
    [types] when it packages the result, reports "Tool execution failed",
    never executes [read_file] and resubmits nothing. *)
Theorem C1_missing_import_aborts_every_round :
  let r := send_message Examples.helpful_env bridge_py_types "list my files" tt in
  executed (trace r) = ["list_files"] /\
  resubmitted (trace r) = [] /\
  In (EvEmit (SigError "Tool execution failed: name 'types' is not defined") (Ok tt))
     (trace r).
Proof. vm_compute. repeat split. tauto. Qed.

(** C1 with the import in place: were [types] bound as in the vendor
    library, the same run would execute both callables in order and hand
    back both results in one call. *)
Lemma bound_types_resubmits_all :
  let r := send_message Examples.helpful_env Examples.genai_types "list my files" tt in
  executed (trace r) = ["list_files"; "read_file"] /\
  map length (resubmitted (trace r)) = [2].
Proof. vm_compute. split; reflexivity. Qed.

(** In [bridge.py] as written the provider is called exactly once for a
    prompt, so the response to the prompt is the only one, and every
    message event carries the concatenated text of that response
    ("(No text response)" when the text is empty); when that response holds
    no function call and its text can be extracted, the message event is
    what follows the provider call. *)
Lemma unbound_types_one_response {World} (env : Env World) (prompt : string) (w : World) :
  let r := send_message env bridge_py_types prompt w in
  count is_send (trace r) = 1 /\
  (forall sender text o,
     In (EvEmit (SigMessage sender text) o) (trace r) ->
     exists response final_text,
       list.last (responses (trace r)) = Some response /\
       _extract_final_text response = Ok final_text /\
       sender = "Geode" /\ text = text_or_default final_text) /\
  (forall response final_text,
     out (send env (Prompt prompt) w) = Ok response ->
     _extract_function_calls response = Ok [] ->
     _extract_final_text response = Ok final_text ->
     exists o tail,
       trace r = EvSend (Prompt prompt) (Ok response)
                 :: EvEmit (SigMessage "Geode" (text_or_default final_text)) o :: tail).
Proof.
  cbv zeta. rewrite bridge_py_has_no_types. split; [|split].
  - destruct (unbound_send_message_trace env prompt w)
      as (o0 & middle & msg & rest & _ & Ht & Qm & Qr & Hmsg).
    rewrite Ht. cbn [count is_send]. rewrite !count_app.
    rewrite (quiet_no_send _ Qm), (quiet_no_send _ Qr).
    destruct Hmsg as [->|(response & t & o & _ & _ & ->)]; reflexivity.
  - intros sender text o Hin.
    destruct (unbound_send_message_trace env prompt w)
      as (o0 & middle & msg & rest & _ & Ht & Qm & Qr & Hmsg).
    rewrite Ht in Hin |- *.
    destruct Hin as [Hin|Hin]; [discriminate|].
    apply in_app_or in Hin. destruct Hin as [Hin|Hin].
    { exfalso. exact (quiet_no_message _ _ _ _ Qm Hin). }
    apply in_app_or in Hin. destruct Hin as [Hin|Hin].
    2:{ exfalso. exact (quiet_no_message _ _ _ _ Qr Hin). }
    destruct Hmsg as [->|(response & t & o' & -> & Htext & ->)]; [destruct Hin|].
    destruct Hin as [Hin|[]]. inversion Hin; subst.
    exists response, t. split; [|auto].
    unfold responses. cbn [omap list_omap]. rewrite !omap_app.
    fold (responses middle). fold (responses rest).
    rewrite (quiet_no_response _ Qm), (quiet_no_response _ Qr). reflexivity.
  - intros response final_text Hsend Hcalls Htext.
    unfold send_message. rewrite trace_try_finally, trace_try_except.
    pose proof (try_trace env None prompt w) as Ht. cbv zeta in Ht.
    rewrite Hsend in Ht. unfold _process_tool_calls in Ht.
    rewrite (loop_no_calls env None _ response _ Hcalls) in Ht.
    cbn [out world trace app] in Ht. rewrite Htext in Ht.
    rewrite Ht. cbn [app]. eauto.
Qed.

(** A provider that answers in plain text: the message event carries the
    text of its two parts. *)
Lemma plain_answer_is_shown :
  exists o tail,
    trace (send_message Examples.chatty_env bridge_py_types "hi" tt)
    = EvSend (Prompt "hi") (Ok Examples.hello)
      :: EvEmit (SigMessage "Geode" "Hello, world") o :: tail.
Proof.
  apply (proj2 (proj2 (unbound_types_one_response Examples.chatty_env "hi" tt))
               Examples.hello "Hello, world"); reflexivity.
Qed.

(** The defect that the unbound name hides: [_process_tool_calls] does
    not hand the new response back to [send_message].  With [types] bound,
    the provider's final answer "done" is lost and the message event
    carries the text of the first response, which has none. *)
Lemma bound_types_reports_first_response :
  let r := send_message Examples.helpful_env Examples.genai_types "list my files" tt in
  omap (fun e => match e with EvEmit (SigMessage _ t) _ => Some t | _ => None end) (trace r)
    = ["(No text response)"] /\
  (fun o => match o with Some resp => _extract_final_text resp | None => Ok "" end)
    (list.last (responses (trace r))) = Ok "done".
Proof. vm_compute. split; reflexivity. Qed.

Section MessageFacts.
Context {World : Type}.
Variable env : Env World.
Variable types : option TypesModule.

Lemma in_loop_not_message e : in_loop e = true -> is_message e = false.
Proof. destruct e as [| [] | |]; cbn; intros H; try reflexivity; discriminate. Qed.

Lemma shown_quiet tr : Forall (fun e => is_message e = false) tr -> shown tr = [].
Proof.
  induction 1 as [|e tr He _ IH]; [reflexivity|].
  unfold shown in *. cbn [omap list_omap]. rewrite IH.
  destruct e as [| [] | |]; try reflexivity; discriminate.
Qed.

Lemma shown_app tr1 tr2 : shown (tr1 ++ tr2) = shown tr1 ++ shown tr2.
Proof. unfold shown. apply omap_app. Qed.

(** Whatever the module namespace binds [types] to, and however many
    responses the loop goes through: what [send_message] shows, if
    anything, is the text of the response to the prompt. *)
Lemma message_is_text_of_first_response prompt w :
  let r := send_message env types prompt w in
  shown (trace r) = [] \/
  exists response final_text,
    out (send env (Prompt prompt) w) = Ok response /\
    _extract_final_text response = Ok final_text /\
    shown (trace r) = [text_or_default final_text].
Proof.
  cbv zeta. unfold send_message. rewrite trace_try_finally, trace_try_except, !shown_app.
  destruct (finally_runs env (world (try_except (send_message_try env types prompt)
                                            (send_message_except env) w)))
    as (ofin & -> & _).
  assert (Hfin : shown (EvEmit SigFinished ofin ::
                        match ofin with
                        | Ok _ => []
                        | Raise e => [EvLog ERROR ("Error emitting finished signal: " +:+ exc_msg e)]
                        end) = []) by (destruct ofin; reflexivity).
  rewrite Hfin, app_nil_r.
  assert (Hexc : shown (match out (send_message_try env types prompt w) with
                        | Ok _ => []
                        | Raise e => trace (send_message_except env e
                                              (world (send_message_try env types prompt w)))
                        end) = []).
  { destruct (out (send_message_try env types prompt w)); [reflexivity|].
    destruct (except_runs env e (world (send_message_try env types prompt w)))
      as (o' & -> & _). reflexivity. }
  rewrite Hexc, app_nil_r.
  pose proof (try_trace env types prompt w) as Ht. cbv zeta in Ht. rewrite Ht. clear Ht.
  change (shown (EvSend (Prompt prompt) (out (send env (Prompt prompt) w)) :: ?l))
    with (shown l).
  destruct (out (send env (Prompt prompt) w)) as [response|e0]; [|left; reflexivity].
  rewrite shown_app.
  rewrite (shown_quiet (trace (_process_tool_calls env types response _))).
  2:{ eapply Forall_impl; [apply process_emits|]. intros e; apply in_loop_not_message. }
  cbn [app].
  destruct (out (_process_tool_calls env types response _)); [|left; reflexivity].
  destruct (_extract_final_text response) as [final_text|e2] eqn:Etext; [|left; reflexivity].
  right. exists response, final_text.
  split; [reflexivity|]. split; [exact Etext | reflexivity].
Qed.
End MessageFacts.

(** C3: the model answers the prompt with "Let me look." and a call of
    [list_files], and the tool result with "Your vault is empty." and no
    function call.  The claim has the message event carry the text of that
    last response.  In the code the message event carries "Let me look.",
    the text of the response to the prompt: as written, the unbound name
    [types] ends the round before anything is resubmitted, so the last
    response is never asked for; and with [types] bound the loop gets the
    last response and leaves on it, but [send_message] still reads the text
    from the response to the prompt, which [_process_tool_calls] replaces
    in its own local variable only. *)
Theorem C3_message_carries_text_of_first_response :
  let written := send_message Examples.narrating_env bridge_py_types "list my files" tt in
  let bound := send_message Examples.narrating_env Examples.genai_types "list my files" tt in
  _extract_final_text Examples.looking = Ok "Let me look." /\
  _extract_function_calls Examples.summary = Ok [] /\
  _extract_final_text Examples.summary = Ok "Your vault is empty." /\
  responses (trace written) = [Examples.looking] /\
  shown (trace written) = ["Let me look."] /\
  responses (trace bound) = [Examples.looking; Examples.summary] /\
  shown (trace bound) = ["Let me look."].
Proof. vm_compute. repeat split. Qed.

(** C4: the first candidate of the response has content whose [parts] is
    [None].  The claim has the extraction return a list; the code guards
    [candidates] and [content] but iterates over [parts] unguarded and
    raises [TypeError]. *)
Theorem C4_content_without_parts_raises :
  _extract_function_calls Examples.no_parts
    = Raise (exc TypeError "'NoneType' object is not iterable") /\
  _extract_function_calls
    (PObj [("candidates", PList [PObj [("content", PObj [("role", PStr "model")])]])])
    = Raise (exc AttributeError "object has no attribute 'parts'").
Proof. split; reflexivity. Qed.

(** C4 (the part the code keeps): a response without candidates, with an
    empty candidate list, with a candidate without content, or with an
    empty list of parts yields the empty list. *)
Lemma extraction_tolerates_missing_candidates_and_content :
  _extract_function_calls (PObj []) = Ok [] /\
  _extract_function_calls (PDict [("message", PStr "hi")]) = Ok [] /\
  _extract_function_calls (PObj [("candidates", PNone)]) = Ok [] /\
  _extract_function_calls (PObj [("candidates", PList [])]) = Ok [] /\
  _extract_function_calls (PObj [("candidates", PList [PObj []])]) = Ok [] /\
  _extract_function_calls (PObj [("candidates", PList [PObj [("content", PNone)]])]) = Ok [] /\
  _extract_function_calls (Examples.response_with (PList [])) = Ok [].
Proof. repeat split; reflexivity. Qed.

(** C8 as amended: on every path of [send_message] the [finished] signal
    is emitted exactly once, after every other signal; an exception of that
    emission is caught and logged.  [send_message] returns normally unless
    the emission of the error signal in its own handler raises: then, and
    only then, that exception reaches the caller, after [finished] has been
    emitted. *)
Theorem C8_finished_exactly_once {World} (env : Env World) (types : option TypesModule)
        (prompt : string) (w : World) :
  let r := send_message env types prompt w in
  exists body o,
    trace r = body ++ EvEmit SigFinished o ::
                      match o with
                      | Ok _ => []
                      | Raise e => [EvLog ERROR ("Error emitting finished signal: " +:+ exc_msg e)]
                      end /\
    count is_finished body = 0 /\
    (out r = Ok tt \/
     exists e0 e tr0,
       out r = Raise e /\
       body = tr0 ++ [EvEmit (SigError (_format_error_message e0)) (Raise e)]).
Proof.
  cbv zeta. unfold send_message. rewrite trace_try_finally, out_try_finally.
  set (b := try_except (send_message_try env types prompt) (send_message_except env) w).
  destruct (finally_runs env (world b)) as (o & Hfin & Hout). rewrite Hfin, Hout.
  exists (trace b), o. split; [reflexivity|]. split.
  - eapply count_none; [|apply (emits_try_except (fun e => is_finished e = false))].
    + intros e H. exact H.
    + apply try_emits.
    + intros e. unfold send_message_except, log, emit. emits_auto.
  - subst b. rewrite out_try_except, trace_try_except.
    destruct (out (send_message_try env types prompt w)) as [[]|e0]; [left; reflexivity|].
    destruct (except_runs env e0 (world (send_message_try env types prompt w)))
      as (o' & Ht & Ho).
    rewrite Ht, Ho. destruct o' as [[]|e]; [left; reflexivity|].
    right. exists e0, e.
    exists (trace (send_message_try env types prompt w)
            ++ [EvLog ERROR ("Error in send_message: " +:+ exc_msg e0)]).
    split; [reflexivity|]. rewrite <- app_assoc. reflexivity.
Qed.

(** C8 as stated fails: the provider is down and the error signal raises
    when emitted; the exception reaches the caller of [send_message]. *)
Lemma C8_error_emission_escapes :
  out (send_message Examples.broken_ui_env bridge_py_types "list my files" tt)
  = Raise (exc PlainException "wrapped C/C++ object has been deleted").
Proof. reflexivity. Qed.

(** ** The provider adapters *)

Section AdapterFacts.
Import AIClient.
Variable vendor : Vendor.
Variable config : Config.
Variable mentions_api_key : string -> bool.

Ltac run_adapter :=
  unfold initialize, send_message, Gemini_initialize, Gemini_create_chat_session,
    Claude_initialize, OpenAI_initialize, Cohere_initialize, Mistral_initialize,
    Perplexity_initialize, Together_initialize, Ollama_initialize, initialize_with,
    reset_session, construct_client, import_vendor, auth_error, modify, get, put,
    try_except, bind, lift, note, raise, ret;
  cbn.

(** Whatever makes [initialize] fail, the caller sees a
    [GeminiAuthError]. *)
Lemma initialize_failure_is_auth_error p tools a e :
  out (initialize vendor config mentions_api_key p tools a) = Raise e ->
  exc_class e = GeminiAuthError.
Proof.
  destruct p; run_adapter;
    destruct (importable vendor); cbn;
    try (destruct (make_client vendor (get_current_api_key config)) as [c|e1]; cbn);
    try (destruct tools; cbn);
    try (destruct (chats_create vendor _ _ _); cbn);
    try (destruct (isinstance _ ImportError); cbn);
    try (destruct (mentions_api_key _); cbn);
    intros H; inversion H; reflexivity.
Qed.

(** A library that cannot be imported makes [initialize] fail. *)
Lemma initialize_without_library p tools a :
  importable vendor = false ->
  exists e, out (initialize vendor config mentions_api_key p tools a) = Raise e.
Proof.
  intros H. destruct p; run_adapter; rewrite H; cbn; eauto.
Qed.

(** A key that the vendor's client constructor rejects makes [initialize]
    fail for the adapters that construct a client. *)
Lemma initialize_with_rejected_key p tools a e :
  p <> TogetherClient -> p <> OllamaClient ->
  make_client vendor (get_current_api_key config) = Raise e ->
  exists e', out (initialize vendor config mentions_api_key p tools a) = Raise e'.
Proof.
  intros HT HO H. destruct p; try congruence; run_adapter;
    destruct (importable vendor); cbn; rewrite ?H; cbn;
    try (destruct (isinstance _ ImportError); cbn);
    try (destruct (mentions_api_key _); cbn); eauto.
Qed.

(** After a failed [initialize] of a fresh adapter there is neither a
    chat handle nor a message list. *)
Lemma failed_initialize_leaves_no_session p tools e :
  out (initialize vendor config mentions_api_key p tools new_adapter) = Raise e ->
  has_session (world (initialize vendor config mentions_api_key p tools new_adapter)) = false.
Proof.
  destruct p; run_adapter;
    destruct (importable vendor); cbn;
    try (destruct (make_client vendor (get_current_api_key config)) as [c|e1]; cbn);
    try (destruct tools; cbn);
    try (destruct (chats_create vendor _ _ _); cbn);
    try (destruct (isinstance _ ImportError); cbn);
    try (destruct (mentions_api_key _); cbn);
    intros H; try discriminate; reflexivity.
Qed.

(** A successful [initialize] leaves a session exactly for those. *)
Lemma initialized_session p tools :
  out (initialize vendor config mentions_api_key p tools new_adapter) = Ok tt ->
  has_session (world (initialize vendor config mentions_api_key p tools new_adapter))
  = sets_up_session p.
Proof.
  destruct p; run_adapter;
    destruct (importable vendor); cbn;
    try (destruct (make_client vendor (get_current_api_key config)) as [c|e1]; cbn);
    try (destruct tools; cbn);
    try (destruct (chats_create vendor _ _ _); cbn);
    try (destruct (isinstance _ ImportError); cbn);
    try (destruct (mentions_api_key _); cbn);
    intros H; try discriminate; reflexivity.
Qed.

Ltac run_send :=
  unfold send_message, Gemini_send_message, Mistral_send_message, Ollama_send_message,
    Perplexity_send_message, Together_send_message, stateless_request, messages_append,
    get, put, bind, lift, raise, ret;
  cbn.

(** With a vendor that answers, the first [send_message] of an adapter
    that set up its session in [initialize] succeeds. *)
Lemma initialized_adapter_serves p tools prompt :
  sets_up_session p = true ->
  out (initialize vendor config mentions_api_key p tools new_adapter) = Ok tt ->
  (forall handle payload, is_ok (request vendor handle payload) = true) ->
  (forall response, is_ok (reply_entry vendor response) = true) ->
  is_ok (out (send_message vendor p prompt
                (world (initialize vendor config mentions_api_key p tools new_adapter)))) = true.
Proof.
  intros Hp Hinit Hreq Hreply. revert Hinit.
  destruct p; try discriminate; run_adapter;
    destruct (importable vendor) eqn:Himp; cbn;
    try (destruct (make_client vendor (get_current_api_key config)) as [c|e1]; cbn);
    try (destruct tools; cbn);
    try (destruct (chats_create vendor _ _ _); cbn);
    try (destruct (isinstance _ ImportError); cbn);
    intros Hinit; try discriminate; run_send; rewrite ?Himp; cbn;
    repeat match goal with
           | |- context [request vendor ?h ?x] =>
             let E := fresh in
             pose proof (Hreq h x) as E;
             destruct (request vendor h x); [clear E|discriminate E]; cbn
           | |- context [reply_entry vendor ?r] =>
             let E := fresh in
             pose proof (Hreply r) as E;
             destruct (reply_entry vendor r) as [[?|]|]; [clear E|clear E|discriminate E]; cbn
           end; reflexivity.
Qed.

(** [GeminiClient.initialize] ends with [create_chat_session]: when it
    returns, the chat handle is there. *)
Lemma gemini_initialize_creates_chat tools :
  out (initialize vendor config mentions_api_key GeminiClient tools new_adapter) = Ok tt ->
  is_Some (chat (world (initialize vendor config mentions_api_key GeminiClient tools
                                   new_adapter))).
Proof.
  run_adapter. destruct (importable vendor); cbn;
    try (destruct (make_client vendor (get_current_api_key config)) as [c|e1]; cbn);
    try (destruct tools; cbn);
    try (destruct (chats_create vendor _ _ _); cbn);
    intros H; try discriminate; eexists; reflexivity.
Qed.
End AdapterFacts.

(** C5 as amended: for every provider adapter, [initialize] fails with an
    auth-classified error ([GeminiAuthError]) whatever goes wrong inside
    it: it does so when the vendor's library cannot be imported and, for
    the adapters that construct a client (all but Together and Ollama),
    when the vendor's client constructor rejects the credential.  When
    [GeminiClient.initialize] returns it has created the chat session, and
    the Mistral, Ollama, Perplexity and Together adapters set up their
    message list inside [initialize]: these five serve [send_message]
    without a further step whenever the vendor answers.  After a failed
    [initialize] of a fresh adapter there is no chat handle and no message
    list. *)
Theorem C5_initialize_contract (vendor : AIClient.Vendor) (config : AIClient.Config)
        (mentions_api_key : string -> bool) :
  let init p tools a := AIClient.initialize vendor config mentions_api_key p tools a in
  (forall p tools a e, out (init p tools a) = Raise e -> exc_class e = GeminiAuthError) /\
  (AIClient.importable vendor = false ->
   forall p tools a, exists e, out (init p tools a) = Raise e) /\
  (forall p tools a e,
     p <> AIClient.TogetherClient -> p <> AIClient.OllamaClient ->
     AIClient.make_client vendor (AIClient.get_current_api_key config) = Raise e ->
     exists e', out (init p tools a) = Raise e') /\
  (forall tools,
     out (init AIClient.GeminiClient tools AIClient.new_adapter) = Ok tt ->
     is_Some (AIClient.chat (world (init AIClient.GeminiClient tools AIClient.new_adapter)))) /\
  (forall p tools prompt,
     sets_up_session p = true ->
     out (init p tools AIClient.new_adapter) = Ok tt ->
     (forall handle payload, is_ok (AIClient.request vendor handle payload) = true) ->
     (forall response, is_ok (AIClient.reply_entry vendor response) = true) ->
     is_ok (out (AIClient.send_message vendor p prompt
                   (world (init p tools AIClient.new_adapter)))) = true) /\
  (forall p tools e,
     out (init p tools AIClient.new_adapter) = Raise e ->
     AIClient.has_session (world (init p tools AIClient.new_adapter)) = false).
Proof.
  cbv zeta. repeat split.
  - apply initialize_failure_is_auth_error.
  - intros H p tools a. apply initialize_without_library. exact H.
  - intros p tools a e. apply initialize_with_rejected_key.
  - apply gemini_initialize_creates_chat.
  - intros p tools prompt. apply initialized_adapter_serves.
  - apply failed_initialize_leaves_no_session.
Qed.

(** A Gemini adapter with a working vendor serves its first message; an
    adapter whose library is missing fails with [GeminiAuthError]. *)
Lemma C5_initialize_contract_witness :
  is_ok (out (AIClient.send_message AIExamples.working_vendor AIClient.GeminiClient
                (PStr "hello")
                (world (AIClient.initialize AIExamples.working_vendor
                          (AIExamples.config_for "gemini" "valid-key") AIExamples.no_hint
                          AIClient.GeminiClient ["read_file"] AIClient.new_adapter)))) = true /\
  (exists e, out (AIClient.initialize AIExamples.missing_library
                    (AIExamples.config_for "claude" "valid-key") AIExamples.no_hint
                    AIClient.ClaudeClient [] AIClient.new_adapter) = Raise e).
Proof.
  split.
  - apply (proj1 (proj2 (proj2 (proj2 (proj2
             (C5_initialize_contract AIExamples.working_vendor
                (AIExamples.config_for "gemini" "valid-key") AIExamples.no_hint))))));
      reflexivity.
  - apply (proj1 (proj2 (C5_initialize_contract AIExamples.missing_library
                           (AIExamples.config_for "claude" "valid-key") AIExamples.no_hint))).
    reflexivity.
Defined.

(** C5 as stated fails: the Together adapter constructs no client, so a
    missing key passes [initialize]. *)
Lemma C5_together_accepts_missing_key :
  AIClient.get_current_api_key (AIExamples.config_for "together" "") = "" /\
  out (AIClient.initialize AIExamples.working_vendor
         (AIExamples.config_for "together" "") AIExamples.no_hint
         AIClient.TogetherClient [] AIClient.new_adapter) = Ok tt.
Proof. split; reflexivity. Qed.

(** C5, what the amended claim leaves out: [ClaudeClient.initialize],
    [OpenAIClient.initialize] and [CohereClient.initialize] return without
    creating the message list (the chat history, for Cohere) that
    [create_chat_session] creates, and the first [send_message] raises
    [AttributeError], where [GeminiClient.initialize] does call
    [create_chat_session]. *)
Lemma initialized_claude_cannot_send :
  let init name p := AIClient.initialize AIExamples.working_vendor
                       (AIExamples.config_for name "valid-key") AIExamples.no_hint
                       p ["read_file"] AIClient.new_adapter in
  let first_send name p := AIClient.send_message AIExamples.working_vendor
                             p (PStr "hello") (world (init name p)) in
  AIClient.create_ai_client (AIExamples.config_for "claude" "valid-key")
    = Ok AIClient.ClaudeClient /\
  out (init "claude" AIClient.ClaudeClient) = Ok tt /\
  AIClient.messages (world (init "claude" AIClient.ClaudeClient)) = None /\
  out (first_send "claude" AIClient.ClaudeClient)
    = Raise (exc AttributeError "'ClaudeClient' object has no attribute 'messages'") /\
  out (first_send "openai" AIClient.OpenAIClient)
    = Raise (exc AttributeError "'OpenAIClient' object has no attribute 'messages'") /\
  out (first_send "cohere" AIClient.CohereClient)
    = Raise (exc AttributeError "'CohereClient' object has no attribute 'chat_history'") /\
  is_ok (out (first_send "gemini" AIClient.GeminiClient)) = true.
Proof. repeat split; reflexivity. Qed.

(** ** The tool catalog *)

Section RegistryFacts.
Import Plugins.
Context {World : Type}.

Lemma filter_name_snoc (l : list (Tool World)) x name :
  filter (fun t => tool_name t = name) (l ++ [x]) =
  filter (fun t => tool_name t = name) l ++
  (if decide (tool_name x = name) then [x] else []).
Proof.
  rewrite filter_app. reflexivity.
Qed.

Lemma filter_name_none (l : list (Tool World)) name :
  name ∉ map tool_name l -> filter (fun t => tool_name t = name) l = [].
Proof.
  induction l as [|x l IH]; intros Hn; [reflexivity|].
  cbn [map] in Hn. apply not_elem_of_cons in Hn. destruct Hn as [Hx Hl].
  rewrite filter_cons. destruct (decide (tool_name x = name)) as [Heq|_].
  - congruence.
  - apply IH. exact Hl.
Qed.

(** The dispatch map holds, for every name, the callable registered last
    under it. *)
Lemma dispatch_map_last_wins (tool_functions : list (Tool World)) name :
  make_tool_function_map tool_functions !! name = last_registered name tool_functions.
Proof.
  unfold make_tool_function_map, last_registered.
  induction tool_functions as [|x l IH] using rev_ind.
  - cbn. apply lookup_empty.
  - rewrite foldl_app. cbn [foldl]. rewrite filter_name_snoc.
    destruct (decide (tool_name x = name)) as [<-|Hne].
    + rewrite lookup_insert_eq, last_snoc. reflexivity.
    + rewrite lookup_insert_ne by exact Hne. rewrite app_nil_r. exact IH.
Qed.

(** Under distinct names the first and the last registrant coincide. *)
Lemma distinct_names_first_is_last (tool_functions : list (Tool World)) name :
  NoDup (map tool_name tool_functions) ->
  last_registered name tool_functions = first_registered name tool_functions.
Proof.
  unfold last_registered, first_registered.
  induction tool_functions as [|x l IH]; intros Hnd; [reflexivity|].
  cbn [map] in Hnd. apply NoDup_cons in Hnd. destruct Hnd as [Hx Hnd].
  rewrite filter_cons. destruct (decide (tool_name x = name)) as [<-|Hne].
  - rewrite (filter_name_none l (tool_name x) Hx). reflexivity.
  - apply IH. exact Hnd.
Qed.
End RegistryFacts.

(** C6 as amended: plugin names are unique: the first plugin registered
    under a name wins, a later plugin that declares the same name is
    rejected and logged, and none of its tools is added.  Tool names are
    not checked: the dispatch map maps every registered name to the
    callable registered last under it, which is the first-registered one
    whenever the tool names of the catalog are distinct. *)
Theorem C6_plugin_names_unique_dispatch_last_wins {World : Type} :
  (forall (pm : Plugins.PluginManager World) plugin file name,
     Plugins.get_name plugin = Ok name ->
     is_Some (Plugins.plugins pm !! name) ->
     let r := Plugins._register_plugin plugin file pm in
     out r = Ok "" /\ world r = pm /\
     trace r = [Plugins.LogWarning ("Duplicate plugin name '" +:+ name +:+
                                    "' found. Skipping " +:+ file +:+ ".")]) /\
  (forall (pm : Plugins.PluginManager World) plugin file name plugin_tools,
     Plugins.get_name plugin = Ok name ->
     Plugins.plugins pm !! name = None ->
     Plugins.get_tools plugin = Ok plugin_tools ->
     let r := Plugins._register_plugin plugin file pm in
     out r = Ok name /\
     Plugins.plugins (world r) = <[name := plugin]> (Plugins.plugins pm) /\
     Plugins.tools (world r) = Plugins.tools pm ++ plugin_tools) /\
  (forall (tool_functions : list (Tool World)) name,
     make_tool_function_map tool_functions !! name
     = Plugins.last_registered name tool_functions) /\
  (forall (tool_functions : list (Tool World)) name,
     NoDup (map tool_name tool_functions) ->
     make_tool_function_map tool_functions !! name
     = Plugins.first_registered name tool_functions).
Proof.
  split; [|split; [|split]].
  - intros pm plugin file name Hname [p Hp]. cbv zeta.
    unfold Plugins._register_plugin, try_except, bind, lift, Plugins.get, note, ret.
    rewrite Hname. cbn. rewrite Hp. cbn. auto.
  - intros pm plugin file name plugin_tools Hname Hfresh Htools. cbv zeta.
    unfold Plugins._register_plugin, try_except, bind, lift, Plugins.get, Plugins.put,
      note, ret.
    rewrite Hname. cbn. rewrite Hfresh. cbn. rewrite Htools. cbn. auto.
  - apply dispatch_map_last_wins.
  - intros tool_functions name Hnd.
    rewrite dispatch_map_last_wins. apply distinct_names_first_is_last. exact Hnd.
Qed.

(** The second plugin named "shadow" is turned away, and the catalog of
    the built-in tools alone dispatches to the first registrant. *)
Lemma C6_plugin_names_unique_dispatch_last_wins_witness :
  (let r := Plugins._register_plugin RegistryExamples.rival_plugin "rival.py"
                                     RegistryExamples.loaded in
   out r = Ok "" /\ world r = RegistryExamples.loaded /\
   trace r = [Plugins.LogWarning "Duplicate plugin name 'shadow' found. Skipping rival.py."]) /\
  make_tool_function_map RegistryExamples.builtin !! "read_file"
  = Plugins.first_registered "read_file" RegistryExamples.builtin.
Proof.
  split.
  - apply (proj1 (@C6_plugin_names_unique_dispatch_last_wins unit)
                 RegistryExamples.loaded RegistryExamples.rival_plugin "rival.py" "shadow").
    + reflexivity.
    + exists RegistryExamples.shadow_plugin. reflexivity.
  - apply (proj2 (proj2 (proj2 (@C6_plugin_names_unique_dispatch_last_wins unit)))).
    apply (bool_decide_unpack _). reflexivity.
Defined.

(** C6 as stated fails: a plugin offers a tool named [read_file].  Both
    tools stay in the catalog, and the dispatch map answers with the
    plugin's tool, not with the built-in one that was registered first. *)
Lemma C6_later_tool_replaces_builtin :
  map tool_name RegistryExamples.catalog = ["list_files"; "read_file"; "read_file"] /\
  RegistryExamples.answer (Plugins.first_registered "read_file" RegistryExamples.catalog)
    = Some (Ok (PStr "# Notes")) /\
  RegistryExamples.answer (make_tool_function_map RegistryExamples.catalog !! "read_file")
    = Some (Ok (PStr "plugin result")) /\
  make_tool_function_map RegistryExamples.catalog !! "read_file"
    <> Plugins.first_registered "read_file" RegistryExamples.catalog.
Proof.
  repeat split; try reflexivity.
  intros H. apply (f_equal RegistryExamples.answer) in H. vm_compute in H. discriminate.
Qed.

(** ** The built-in vault tools *)

Section VaultFacts.
Import Obsidian.
Context {World : Type}.
Variable api : Api World.

(** A handler that always returns makes the whole [try] statement
    return. *)
Lemma try_except_total {E A} (body : M World E A) handler w :
  (forall e w', exists a, out (handler e w') = Ok a) ->
  exists a, out (try_except body handler w) = Ok a.
Proof.
  intros H. rewrite out_try_except.
  destruct (out (body w)) as [a|e]; [eauto | apply H].
Qed.

(** The four tools built on single requests never raise. *)
Lemma vault_tools_never_raise (w : World) path content :
  (exists s, out (list_files api path w) = Ok s) /\
  (exists s, out (read_file api path w) = Ok s) /\
  (exists s, out (create_or_update_file api path content w) = Ok s) /\
  (exists s, out (delete_file api path w) = Ok s).
Proof.
  repeat split; apply try_except_total; intros e w';
    repeat match goal with
           | |- context [if ?b then _ else _] => destruct b
           end; eexists; reflexivity.
Qed.

(** What [list_files], [read_file] and [create_or_update_file] return when
    the request fails starts with "ERROR:", whatever the error class. *)
Lemma failed_request_is_reported (w : World) path content e :
  (out (_make_request api "GET" ("/vault/" +:+ quote api path) None w) = Raise e ->
   exists s, out (list_files api path w) = Ok s /\ is_error_string s = true) /\
  (out (_make_request api "GET" ("/vault/" +:+ quote api path) None w) = Raise e ->
   exists s, out (read_file api path w) = Ok s /\ is_error_string s = true) /\
  (out (_make_request api "PUT" ("/vault/" +:+ quote api path) (Some content) w) = Raise e ->
   exists s, out (create_or_update_file api path content w) = Ok s /\ is_error_string s = true).
Proof.
  repeat split; intros H;
    unfold list_files, read_file, create_or_update_file;
    rewrite out_try_except, out_bind, H;
    repeat match goal with
           | |- context [if ?b then _ else _] => destruct b
           end; eexists; split; reflexivity.
Qed.

(** [delete_file] reports a missing file and every failure that is not an
    API error the same way. *)
Lemma failed_delete_is_reported (w : World) path e :
  out (_make_request api "DELETE" ("/vault/" +:+ quote api path) None w) = Raise e ->
  (isinstance e ObsidianAPIError = true -> is_404 e = true ->
   out (delete_file api path w)
   = Ok ("ERROR: Could not delete the file '" +:+ path +:+ "' because it was not found.")) /\
  (isinstance e ObsidianAPIError = false ->
   out (delete_file api path w) = Ok "ERROR: An unexpected error occurred. Check logs.").
Proof.
  intros H. split; [intros Hi H4 | intros Hi];
    unfold delete_file; rewrite out_try_except, out_bind, H, Hi, ?H4; reflexivity.
Qed.

(** A 404 answer to [DELETE] is an API error with status code 404. *)
Lemma not_found_is_api_error method endpoint data w w' text :
  session_request api method (base_url api +:+ endpoint) data w = (Responded 404 text, w') ->
  exists e, out (_make_request api method endpoint data w) = Raise e /\
            isinstance e ObsidianAPIError = true /\ is_404 e = true.
Proof.
  intros H. unfold _make_request. rewrite H. cbn. eexists. repeat split.
Qed.
End VaultFacts.

(** C7: [delete_file] on a path for which the vault answers HTTP 500.  The
    claim has every failure reported by a string that begins "ERROR:";
    [delete_file] returns a string that begins "API Error:" for every API
    error other than 404, where [read_file] next to it returns "ERROR:
    Could not read file...". *)
Theorem C7_delete_file_reports_api_error_without_prefix :
  let vault := VaultExamples.vault (Obsidian.Responded 500 "Internal Server Error") in
  let answer := "API Error: Could not delete file. Reason: HTTP Error 500: Internal Server Error" in
  out (Obsidian.delete_file vault "notes/a.md" tt) = Ok answer /\
  Obsidian.is_error_string answer = false /\
  out (Obsidian.read_file vault "notes/a.md" tt)
  = Ok "ERROR: Could not read file. Reason: HTTP Error 500: Internal Server Error".
Proof. repeat split; reflexivity. Qed.

(** C7, the scenario: deleting a path for which the vault answers 404
    yields the string that says the file was not found. *)
Lemma delete_missing_file_says_not_found :
  out (Obsidian.delete_file (VaultExamples.vault (Obsidian.Responded 404 "Not Found"))
                            "notes/gone.md" tt)
  = Ok "ERROR: Could not delete the file 'notes/gone.md' because it was not found.".
Proof. reflexivity. Qed.

Import History.

(** ** The persisted history *)

(** *** Paths *)
















Section HistoryFacts.
Import History.
Variable io : IO.
Variable history_file : string.

End HistoryFacts.


(** The same run, computed: the content moves to
    [chat_history.corrupted.1700000000.json]. *)
Lemma corrupted_history_example :
  let r := load_history HistoryExamples.io_corrupt "chat_history.json"
                        HistoryExamples.corrupt_disk in
  files (world r) !! "chat_history.corrupted.1700000000.json" = Some "{not json" /\
  files (world r) !! "chat_history.json" = None.
Proof. vm_compute. split; reflexivity. Qed.

Section SaveFacts.
Import History.
Variable io : IO.
Variable history_file : string.
Variable max_sessions : Z.

(** C10, the part the code keeps: [save_history] never raises. *)
Lemma save_history_never_raises w :
  out (save_history io history_file max_sessions w) = Ok tt.
Proof.
  unfold save_history. rewrite out_try_except.
  destruct (out _) as [[]|e]; reflexivity.
Qed.

(** C10, the part the code keeps: when the temporary file is a file other
    than the history file, the history file either keeps its content or
    holds all that was written, after a rename that succeeded. *)
Lemma save_history_atomic w :
  with_suffix history_file ".tmp" <> Ok history_file ->
  let r := save_history io history_file max_sessions w in
  files (world r) !! history_file = files w !! history_file \/
  exists temp_file written,
    In (EvRename temp_file history_file (Ok tt)) (trace r) /\
    In (EvWrite temp_file written (Ok tt)) (trace r) /\
    files (world r) !! history_file = Some written.
Proof.
  intros Hdiff. cbv zeta.
  unfold save_history, try_except, bind, trim_sessions, write_sessions, get_sessions,
    set_sessions, lift, open_write, dump, rename, log, note, ret.
  cbn.
  destruct (Z.of_nat (length (sessions w)) >? max_sessions)%Z; cbn;
    try (destruct (sorted_by_updated_desc _) as [srt|e1]; cbn; [|left; reflexivity]);
    try (destruct (rekey _ _) as [d'|e2]; cbn; [|left; reflexivity]);
    (destruct (with_suffix history_file ".tmp") as [temp|e3] eqn:Ht; cbn; [|left; reflexivity]);
    (assert (Hne : temp <> history_file) by (intros ->; apply Hdiff; reflexivity));
    (destruct (open_write_fault io temp) as [m1|]; cbn; [left; reflexivity|]);
    (destruct (dump_json io _) as [written [e4|]]; cbn;
       [left; rewrite !lookup_insert_ne by exact Hne; reflexivity|]);
    (destruct (rename_fault io temp history_file) as [m2|]; cbn;
       [left; rewrite !lookup_insert_ne by exact Hne; reflexivity|]);
    rewrite lookup_insert_eq; cbn;
    right; exists temp, written; rewrite lookup_insert_eq; auto 10.
Qed.
End SaveFacts.

(** C10: the history file is named [history.tmp] and the disk runs full
    while the sessions are written.  [with_suffix(".tmp")] names the
    history file itself, so opening the "temporary" file empties the
    history file and the failed write leaves it with what had been written;
    the claim has the previously persisted file unchanged.  With the name
    [chat_history.json] the same failure leaves the file as it was. *)
Theorem C10_history_named_tmp_is_overwritten :
  let r := save_history HistoryExamples.io_full "history.tmp" 50 HistoryExamples.tmp_disk in
  with_suffix "history.tmp" ".tmp" = Ok "history.tmp" /\
  out r = Ok tt /\
  files HistoryExamples.tmp_disk !! "history.tmp" = Some "OLD HISTORY" /\
  files (world r) !! "history.tmp" = Some "{" /\
  files (world (save_history HistoryExamples.io_full "chat_history.json" 50
                             HistoryExamples.json_disk)) !! "chat_history.json"
  = Some "OLD HISTORY".
Proof. vm_compute. repeat split; reflexivity. Qed.

(** * Further properties of the code *)

(** ** The vault client *)

Section RequestFacts.
Import Obsidian.
Context {World : Type}.
Variable api : Api World.

(** What [_make_request] leaves on the trace: the request, then at most
    log lines. *)
Lemma make_request_trace method endpoint data (w : World) :
  Vault.requests (trace (_make_request api method endpoint data w))
  = [(method, base_url api +:+ endpoint)].
Proof.
  unfold _make_request.
  destruct (session_request api method (base_url api +:+ endpoint) data w) as [[status t| | | |e] w'].
  - destruct (is_http_error status); [|reflexivity].
    destruct (status =? 401)%Z; [reflexivity|].
    destruct (status =? 404)%Z; reflexivity.
  - reflexivity.
  - reflexivity.
  - reflexivity.
  - reflexivity.
Qed.

Lemma requests_app a b : Vault.requests (a ++ b) = Vault.requests a ++ Vault.requests b.
Proof. unfold Vault.requests. apply omap_app. Qed.

Lemma make_request_world method endpoint data (w : World) :
  world (_make_request api method endpoint data w)
  = snd (session_request api method (base_url api +:+ endpoint) data w).
Proof.
  unfold _make_request.
  destruct (session_request api method (base_url api +:+ endpoint) data w) as [[status t| | | |e] w'].
  - destruct (is_http_error status); [|reflexivity].
    destruct (status =? 401)%Z; [reflexivity|].
    destruct (status =? 404)%Z; reflexivity.
  - reflexivity.
  - reflexivity.
  - reflexivity.
  - reflexivity.
Qed.

Ltac request_cases :=
  cbn [out] in *;
  repeat match goal with
         | H : Ok _ = Ok _ |- _ => inversion H; subst; clear H
         | H : Raise _ = Raise _ |- _ => inversion H; subst; clear H
         | H : Responded _ _ = Responded _ _ |- _ => inversion H; subst; clear H
         end;
  first [ discriminate | contradiction | congruence
        | split; [assumption | reflexivity]
        | left; reflexivity | right; reflexivity
        | eexists; split; reflexivity
        | do 2 eexists; split; [reflexivity|]; split; [reflexivity|];
          split; [assumption | first [assumption | discriminate]] ].

(** X1: [_make_request] sends exactly one request.  A response it returns
    never has a 4xx or 5xx status.  An exception it raises is an
    [ObsidianError], unless the session raised something that is not a
    [requests] exception, which passes unchanged; an [ObsidianAPIError]
    carries the HTTP status of the response, which is an error status other
    than 401, and a 401 response is an [ObsidianAuthError]. *)
Theorem X1_make_request_classifies_failures method endpoint data (w : World) :
  let r := _make_request api method endpoint data w in
  let answer := fst (session_request api method (base_url api +:+ endpoint) data w) in
  Vault.requests (trace r) = [(method, base_url api +:+ endpoint)] /\
  (forall response, out r = Ok response ->
     is_http_error (status_code response) = false /\
     answer = Responded (status_code response) (text response)) /\
  (forall e, out r = Raise e ->
     isinstance e ObsidianError = true \/ answer = RaisedOther e) /\
  (forall e, out r = Raise e -> exc_class e = ObsidianAPIError ->
     answer <> RaisedOther e ->
     exists status body,
       answer = Responded status body /\ exc_status e = Some status /\
       is_http_error status = true /\ status <> 401%Z) /\
  (forall body, answer = Responded 401 body ->
     exists e, out r = Raise e /\ exc_class e = ObsidianAuthError).
Proof.
  cbv zeta. split; [apply make_request_trace|].
  unfold _make_request.
  destruct (session_request api method (base_url api +:+ endpoint) data w)
    as [[status t| | | |e0] w']; cbn [fst];
    [destruct (is_http_error status) eqn:Herr;
     [destruct (Z.eqb_spec status 401) as [->|Hne];
      [|destruct (Z.eqb_spec status 404) as [->|Hne4]]|]| | | |];
    (split; [|split; [|split]]);
    intros; request_cases.
Qed.
(** X2: [ObsidianAPI.test_connection] sends one [GET] to the root of the
    API.  It answers [(True, ...)] when the request succeeds and
    [(False, str(e))] when the request fails with an [ObsidianError] [e];
    it does not return a tuple but raises when the session raises something
    that is not a [requests] exception and not an [ObsidianError], and in no
    other case. *)
Theorem X2_test_connection_reports_obsidian_errors (w : World) :
  let r := test_connection api w in
  let rq := _make_request api "GET" "/" None w in
  Vault.requests (trace r) = [("GET", base_url api +:+ "/")] /\
  (forall response, out rq = Ok response ->
     out r = Ok (true, "Obsidian connection successful.")) /\
  (forall e, out rq = Raise e -> isinstance e ObsidianError = true ->
     out r = Ok (false, exc_msg e)) /\
  (forall e, out r = Raise e ->
     isinstance e ObsidianError = false /\
     fst (session_request api "GET" (base_url api +:+ "/") None w) = RaisedOther e).
Proof.
  cbv zeta.
  unfold test_connection, try_except_class, try_except, bind, log, note, ret, raise,
    _make_request.
  destruct (session_request api "GET" (base_url api +:+ "/") None w)
    as [[status t| | | |e0] w']; cbn [fst];
    [destruct (is_http_error status) eqn:Herr;
     [destruct (Z.eqb_spec status 401) as [->|Hne];
      [|destruct (Z.eqb_spec status 404) as [->|Hne4]]|]| | | |];
    cbn; try (destruct (isinstance e0 ObsidianError) eqn:Hi; cbn);
    (split; [reflexivity|]); (split; [|split]); intros;
    repeat match goal with
           | H : Ok _ = Ok _ |- _ => inversion H; subst; clear H
           | H : Raise _ = Raise _ |- _ => inversion H; subst; clear H
           end;
    first [ discriminate | congruence | reflexivity | split; [assumption | reflexivity] ].
Qed.
#[local] Abbreviation logs_only := (@Vault.logs_only World).

Lemma logs_only_ret {A} (a : A) : logs_only (ret a).
Proof. intros w. split; reflexivity. Qed.

Lemma logs_only_raise {A} e : logs_only (@raise World Event A e).
Proof. intros w. split; reflexivity. Qed.

Lemma logs_only_lift {A} (o : Outcome A) : logs_only (lift o).
Proof. intros w. split; reflexivity. Qed.

Lemma logs_only_log level msg : logs_only (log level msg).
Proof. intros w. split; reflexivity. Qed.

Lemma logs_only_bind {A B} (m : M World Event A) (k : A -> M World Event B) :
  logs_only m -> (forall a, logs_only (k a)) -> logs_only (bind m k).
Proof.
  intros Hm Hk w. unfold bind. destruct (Hm w) as [Hw Ht].
  destruct (m w) as [[a|e] w1 t1]; cbn [out world trace is_ok] in *; [|auto].
  destruct (Hk a w1) as [Hw' Ht']. destruct (k a w1) as [o w2 t2]; cbn [out world trace is_ok] in *.
  split; [congruence|]. rewrite requests_app, Ht, Ht'. reflexivity.
Qed.

Ltac logs_only_auto :=
  repeat first
    [ progress intros
    | apply logs_only_ret | apply logs_only_raise | apply logs_only_lift
    | apply logs_only_log | apply logs_only_bind
    | match goal with
      | |- logs_only (match ?x with _ => _ end) => destruct x
      | |- logs_only (if ?x then _ else _) => destruct x
      | |- logs_only (unexpected _) => unfold unexpected
      end ].

(** A tool made of one request, a continuation and a handler that only
    write log lines. *)
Lemma one_request_tool {A} method endpoint data
      (k : Response -> M World Event A) handler (w : World) :
  (forall r, logs_only (k r)) -> (forall e, logs_only (handler e)) ->
  (forall e w', is_ok (out (handler e w')) = true) ->
  let r := try_except (bind (_make_request api method endpoint data) k) handler w in
  Vault.requests (trace r) = [(method, base_url api +:+ endpoint)] /\
  world r = snd (session_request api method (base_url api +:+ endpoint) data w) /\
  is_ok (out r) = true.
Proof.
  intros Hk Hh Hok. cbv zeta.
  rewrite trace_try_except, out_try_except, out_bind, trace_bind, !requests_app,
    make_request_trace.
  pose proof (make_request_world method endpoint data w) as Hw.
  unfold try_except, bind.
  destruct (_make_request api method endpoint data w) as [[resp|e] w1 t1]; cbn [out world trace is_ok] in *.
  - destruct (Hk resp w1) as [Hw1 Ht1].
    destruct (k resp w1) as [[a|e] w2 t2]; cbn [out world trace is_ok] in *.
    + rewrite Ht1. subst. auto.
    + destruct (Hh e w2) as [Hw2 Ht2]. specialize (Hok e w2).
      destruct (handler e w2) as [o w3 t3]; cbn [out world trace is_ok] in *.
      rewrite Ht1, Ht2. subst. auto.
  - destruct (Hh e w1) as [Hw2 Ht2]. specialize (Hok e w1).
    destruct (handler e w1) as [o w3 t3]; cbn [out world trace is_ok] in *.
    rewrite Ht2. subst. auto.
Qed.

Lemma list_files_requests path (w : World) :
  Vault.requests (trace (list_files api path w))
  = [("GET", base_url api +:+ "/vault/" +:+ quote api path)].
Proof.
  apply (one_request_tool _ _ _ _ _ w); [logs_only_auto | logs_only_auto |].
  intros e w'. destruct (isinstance e ObsidianError); reflexivity.
Qed.

(** X3: each of the tools [list_files], [read_file],
    [create_or_update_file], [delete_file] and [get_vault_info] sends
    exactly one request, with the method and the quoted path of its
    operation, does nothing else to the world, and returns a string
    whatever the request does. *)
Theorem X3_vault_tools_send_one_request (w : World) (path content : string) :
  let sent (r : Res World Event string) method endpoint data :=
    Vault.requests (trace r) = [(method, base_url api +:+ endpoint)] /\
    world r = snd (session_request api method (base_url api +:+ endpoint) data w) /\
    is_ok (out r) = true in
  sent (list_files api path w) "GET" ("/vault/" +:+ quote api path) None /\
  sent (read_file api path w) "GET" ("/vault/" +:+ quote api path) None /\
  sent (create_or_update_file api path content w) "PUT" ("/vault/" +:+ quote api path)
       (Some content) /\
  sent (delete_file api path w) "DELETE" ("/vault/" +:+ quote api path) None /\
  sent (Vault.get_vault_info api w) "GET" "/" None.
Proof.
  cbv zeta.
  repeat split;
    try (apply (one_request_tool _ _ _ _ _ w); [logs_only_auto | logs_only_auto |];
         intros e w';
         repeat match goal with
                | |- context [if ?b then _ else _] => destruct b
                end; reflexivity).
Qed.
(** X4: [get_vault_info] answers with a string that starts with
    "SUCCESS: Vault Information:" or with "ERROR:".  When the request fails
    the string is an error string, with the reason if the failure is an
    [ObsidianError]; when the response is a JSON object the string lists
    [name], [path] and [version] in this order, "Unknown" standing for a
    key the object does not have. *)
Theorem X4_get_vault_info_reports (w : World) :
  let r := Vault.get_vault_info api w in
  let rq := _make_request api "GET" "/" None w in
  (exists s, out r = Ok s /\
     (is_error_string s = true \/ String.prefix "SUCCESS: Vault Information:\n" s = true)) /\
  (forall e, out rq = Raise e ->
     out r = Ok (if isinstance e ObsidianError
                 then "ERROR: Could not get vault information. Reason: " +:+ exc_msg e
                 else "ERROR: An unexpected error occurred. Check logs.")) /\
  (forall response d,
     out rq = Ok response -> json api (text response) = Ok (PDict d) ->
     let field key := py_str api (default (PStr "Unknown") (assoc key d)) in
     out r = Ok ("SUCCESS: Vault Information:\nname: " +:+ field "name" +:+
                 "\npath: " +:+ field "path" +:+ "\nversion: " +:+ field "version")).
Proof.
  cbv zeta. unfold Vault.get_vault_info.
  rewrite out_try_except, out_bind.
  destruct (out (_make_request api "GET" "/" None w)) as [response|e].
  - rewrite out_bind. cbn [lift out world].
    destruct (json api (text response)) as [data|e1] eqn:Hj.
    + rewrite out_bind. cbn [lift out world].
      destruct data as [| | | | |d|]; cbn [Vault.get_or_unknown];
        try (split; [|split; [discriminate|]];
             [ destruct (isinstance _ ObsidianError);
               eexists; (split; [reflexivity|]); left; reflexivity
             | intros response' d0 Hr Hd; inversion Hr; subst;
               rewrite Hj in Hd; discriminate ]).
      split; [|split; [discriminate|]].
      * eexists. split; [reflexivity|]. right. reflexivity.
      * intros response' d' Hr Hd. inversion Hr; subst.
        rewrite Hj in Hd. inversion Hd; subst. reflexivity.
    + split; [|split; [discriminate|]].
      * destruct (isinstance e1 ObsidianError);
          eexists; (split; [reflexivity|]); left; reflexivity.
      * intros response' d0 Hr Hd. inversion Hr; subst.
        rewrite Hj in Hd. discriminate.
  - split; [|split; [|discriminate]].
    + destruct (isinstance e ObsidianError);
        eexists; (split; [reflexivity|]); left; reflexivity.
    + intros e' He. inversion He; subst.
      destruct (isinstance e' ObsidianError); reflexivity.
Qed.
End RequestFacts.

(** ** The recursive listing *)

Section ListingFacts.
Import Obsidian.
Context {World : Type}.
Variable api : Api World.
Variable strip : string -> string.

Lemma on_vault_run {A} (m : M World Event A) (s : World * list string) :
  Vault.on_vault m s = mkRes (out (m (fst s))) (world (m (fst s)), snd s) (trace (m (fst s))).
Proof. unfold Vault.on_vault. destruct (m (fst s)); reflexivity. Qed.

(** [fetch_directory] returns whenever the interpreter allows the call. *)
Lemma fetch_directory_returns depth path s :
  out (Vault.fetch_directory api strip (S depth) path s) = Ok tt.
Proof.
  cbn [Vault.fetch_directory]. rewrite out_try_except.
  destruct (out _) as [[]|e]; reflexivity.
Qed.

(** X5: [list_all_files] on a vault whose root directory is empty.
    [list_files] answers "SUCCESS: The directory '.' is empty.", which does
    not start with "ERROR"; [list_all_files] reads that sentence as the
    name of an entry and returns it as the only path of a successful
    listing, where its own text for a vault without entries is an error
    string. *)
Theorem X5_empty_vault_is_listed_as_an_entry (depth : nat) (w : World) :
  out (list_files api "." w) = Ok "SUCCESS: The directory '.' is empty." ->
  strip "SUCCESS: The directory '.' is empty." = "SUCCESS: The directory '.' is empty." ->
  out (Vault.list_all_files api strip (S depth) w)
  = Ok "SUCCESS:\nSUCCESS: The directory '.' is empty.".
Proof.
  intros Hlist Hstrip.
  unfold Vault.list_all_files. cbn [Vault.fetch_directory].
  unfold try_except, bind. rewrite on_vault_run. cbn [fst snd out world trace].
  rewrite Hlist.
  change (String.prefix "ERROR" "SUCCESS: The directory '.' is empty.") with false.
  cbv iota.
  change (Vault.remove_all "SUCCESS:\n" 0 "SUCCESS: The directory '.' is empty.")
    with "SUCCESS: The directory '.' is empty.".
  rewrite Hstrip.
  change (Vault.split_on "\n" 0 "" "SUCCESS: The directory '.' is empty.")
    with ["SUCCESS: The directory '.' is empty."].
  reflexivity.
Qed.

(** X6: [list_all_files] returns a string whenever the interpreter allows
    the first call of its nested function; when [list_files] cannot read
    the root directory the string is the error text, and nothing but the
    one request of [list_files] is sent. *)
Theorem X6_unreadable_root_is_an_error (depth : nat) (w : World) :
  let r := Vault.list_all_files api strip (S depth) w in
  is_ok (out r) = true /\
  (forall s, out (list_files api "." w) = Ok s -> String.prefix "ERROR" s = true ->
     out r = Ok "ERROR: No files or folders found in the vault, or the vault root could not be read." /\
     Vault.requests (trace r) = [("GET", base_url api +:+ "/vault/" +:+ quote api ".")]).
Proof.
  cbv zeta. split.
  - unfold Vault.list_all_files.
    pose proof (fetch_directory_returns depth "." (w, [])) as H.
    destruct (Vault.fetch_directory api strip (S depth) "." (w, [])) as [[[]|e] s t];
      cbn [out] in H; [|discriminate].
    destruct (snd s); reflexivity.
  - intros s Hlist Herr.
    unfold Vault.list_all_files. cbn [Vault.fetch_directory].
    unfold try_except, bind. rewrite on_vault_run. cbn [fst snd out world trace].
    rewrite Hlist, Herr. cbn [note out world trace snd fst].
    split; [reflexivity|].
    rewrite requests_app, list_files_requests. reflexivity.
Qed.
End ListingFacts.

(** ** The world after a computation *)

Section WorldEquations.
Context {W E : Type}.

Lemma world_bind {A B} (m : M W E A) (k : A -> M W E B) w :
  world (bind m k w) = match out (m w) with
                       | Ok a => world (k a (world (m w)))
                       | Raise _ => world (m w)
                       end.
Proof.
  unfold bind. destruct (m w) as [[a|e] w1 t1]; cbn; [|reflexivity].
  destruct (k a w1); reflexivity.
Qed.

Lemma world_try_except {A} (body : M W E A) handler w :
  world (try_except body handler w) =
  match out (body w) with
  | Ok _ => world (body w)
  | Raise e => world (handler e (world (body w)))
  end.
Proof.
  unfold try_except. destruct (body w) as [[a|e] w1 t1]; cbn; [reflexivity|].
  destruct (handler e w1); reflexivity.
Qed.
End WorldEquations.

(** ** The chat history *)

Section DataclassFacts.
Import History.

Lemma message_round_trip (m : ChatMessage) :
  message_from_dict (message_to_dict m) = Ok m.
Proof. destruct m. reflexivity. Qed.

Lemma messages_round_trip (l : list ChatMessage) :
  messages_from_dicts (map message_to_dict l) = Ok l.
Proof.
  induction l as [|m l IH]; [reflexivity|].
  cbn [map messages_from_dicts]. rewrite message_round_trip. cbn [obind].
  rewrite IH. reflexivity.
Qed.

Lemma session_dict_round_trip (s : ChatSession) :
  session_from_dict (session_to_dict s) = Ok s.
Proof.
  destruct s as [sid ttl created updated msgs].
  unfold session_to_dict, session_from_dict. cbn.
  rewrite messages_round_trip. reflexivity.
Qed.

(** X7: what [to_dict] writes, [from_dict] reads back: for every message
    and every session, whatever values their fields hold. *)
Theorem X7_to_dict_from_dict_round_trip (m : ChatMessage) (s : ChatSession) :
  message_from_dict (message_to_dict m) = Ok m /\
  session_from_dict (session_to_dict s) = Ok s.
Proof. split; [apply message_round_trip | apply session_dict_round_trip]. Qed.
End DataclassFacts.

Section LoadFacts.
Import History.
Variable io : IO.
Variable history_file : string.



End LoadFacts.

Section PersistenceFacts.
Import History.
Variable io : IO.
Variable history_file : string.
Variable max_sessions : Z.

Lemma dict_set_fresh k s (d : Sessions) :
  k ∉ map fst d -> dict_set k s d = d ++ [(k, s)].
Proof.
  induction d as [|[k' s'] d IH]; intros Hk; [reflexivity|].
  cbn [map fst] in Hk. apply not_elem_of_cons in Hk. destruct Hk as [Hne Hk].
  cbn [dict_set]. destruct (decide (k = k')); [contradiction|].
  cbn [app]. f_equal. apply IH. exact Hk.
Qed.

(** The sessions written by [to_dict], read one after the other into a
    dictionary that has none of their keys, are added to it in order. *)
Lemma load_sessions_round_trip (d acc : Sessions) f :
  NoDup (map fst (acc ++ d)) ->
  Forall (fun kv => hash_key (session_id (snd kv)) = Ok (fst kv)) d ->
  let r := load_sessions (map (fun kv => session_to_dict (snd kv)) d) (mkWorld acc f) in
  out r = Ok tt /\ world r = mkWorld (acc ++ d) f.
Proof.
  revert acc. induction d as [|[k s] d IH]; intros acc Hnd Hkeys; cbv zeta.
  { cbn. rewrite app_nil_r. auto. }
  apply Forall_cons in Hkeys. destruct Hkeys as [Hk Hkeys]. cbn [fst snd] in Hk.
  cbn [map load_sessions snd].
  rewrite out_bind, world_bind. cbn [lift out world].
  rewrite session_dict_round_trip.
  rewrite out_bind, world_bind. cbn [lift out world]. rewrite Hk.
  rewrite out_bind, world_bind. unfold get_sessions at 1 2 3. cbn [out world sessions].
  rewrite out_bind, world_bind. unfold set_sessions at 1 2 3. cbn [out world sessions files].
  assert (Hfresh : k ∉ map fst acc).
  { rewrite map_app in Hnd. apply NoDup_app in Hnd. destruct Hnd as (_ & Hdis & _).
    intros Hin. apply (Hdis k Hin). cbn. left. }
  rewrite (dict_set_fresh k s acc Hfresh).
  specialize (IH (acc ++ [(k, s)])). cbv zeta in IH.
  rewrite <- app_assoc in IH. cbn [app] in IH.
  apply IH; [exact Hnd | exact Hkeys].
Qed.

(** Without sessions to drop and without faults, [save_history] moves the
    dump to the history file and leaves the dictionary as it is. *)
Lemma save_history_writes (w : World) (temp written : string) :
  (Z.of_nat (length (sessions w)) <= max_sessions)%Z ->
  with_suffix history_file ".tmp" = Ok temp ->
  open_write_fault io temp = None ->
  dump_json io (PDict [("sessions",
                        PList (map (fun kv => session_to_dict (snd kv)) (sessions w)))])
  = (written, None) ->
  rename_fault io temp history_file = None ->
  world (save_history io history_file max_sessions w)
  = mkWorld (sessions w)
            (<[history_file := written]>
               (delete temp (<[temp := written]> (<[temp := ""]> (files w))))).
Proof.
  intros Hlen Htemp Hopen Hdump Hrename.
  unfold save_history, trim_sessions, write_sessions, get_sessions,
    set_sessions, lift, open_write, dump, rename, log, note, ret, try_except, bind.
  cbn [out world trace sessions files].
  destruct (Z.gtb_spec (Z.of_nat (length (sessions w))) max_sessions) as [Hgt|_]; [lia|].
  cbn [out world trace sessions files]. rewrite Htemp. cbn [out world trace sessions files].
  rewrite Hopen. cbn [out world trace sessions files].
  rewrite Hdump. cbn [out world trace sessions files].
  rewrite Hrename. cbn [out world trace sessions files].
  rewrite lookup_insert_eq. reflexivity.
Qed.

(** X9: a history saved without faults loads back.  When no session has
    to be dropped, the disk takes the temporary file and the rename, the
    JSON library reads back what it wrote, and the sessions are filed under
    their own ids, then [save_history] leaves the dump in the history file
    and no temporary file, and a manager created on that disk holds the
    same sessions in the same order. *)
Theorem X9_saved_history_loads_back (w : World) (temp written : string) :
  let data :=
    PDict [("sessions", PList (map (fun kv => session_to_dict (snd kv)) (sessions w)))] in
  Sessions.keyed_by_id (sessions w) ->
  (Z.of_nat (length (sessions w)) <= max_sessions)%Z ->
  with_suffix history_file ".tmp" = Ok temp ->
  temp <> history_file ->
  open_write_fault io temp = None ->
  dump_json io data = (written, None) ->
  rename_fault io temp history_file = None ->
  written <> "" ->
  load_json io history_file written = Ok data ->
  let saved := world (save_history io history_file max_sessions w) in
  files saved !! history_file = Some written /\
  files saved !! temp = None /\
  sessions (world (Sessions.new_manager io history_file saved)) = sessions w.
Proof.
  cbv zeta. intros [Hnd Hkeys] Hlen Htemp Hdiff Hopen Hdump Hrename Hne Hload.
  rewrite (save_history_writes w temp written Hlen Htemp Hopen Hdump Hrename).
  cbn [files sessions].
  split; [apply lookup_insert_eq|].
  split; [rewrite lookup_insert_ne by (intros H; apply Hdiff; symmetry; exact H);
          apply lookup_delete_eq|].
  unfold Sessions.new_manager. rewrite world_bind.
  unfold set_sessions at 1 2. cbn [out world sessions files].
  unfold load_history. rewrite world_bind. unfold get_files. cbn [out world files].
  rewrite lookup_insert_eq.
  destruct (String.eqb_spec written "") as [|_]; [contradiction|].
  rewrite world_try_except.
  unfold load_body at 1 2. rewrite out_bind, !world_bind. cbn [lift out world].
  rewrite Hload. cbn [assoc String.eqb Ascii.eqb Bool.eqb].
  change (assoc "sessions" [("sessions", ?x)]) with (Some x).
  cbv iota beta.
  rewrite out_bind, world_bind.
  destruct (load_sessions_round_trip (sessions w) [] 
              (<[history_file := written]>
                 (delete temp (<[temp := written]> (<[temp := ""]> (files w)))))
              Hnd Hkeys) as [Ho Hw].
  rewrite Ho, Hw. reflexivity.
Qed.
End PersistenceFacts.

(** ** Sorting and trimming the sessions *)

Section SortingFacts.
Import History.

Lemma insert_desc_elem s l r x :
  insert_desc s l = Ok r -> (x ∈ r <-> x = s \/ x ∈ l).
Proof.
  revert r. induction l as [|y l IH]; intros r H; cbn [insert_desc] in H.
  - inversion H; subst. rewrite list_elem_of_singleton, elem_of_nil. tauto.
  - destruct (py_lt (updated_at y) (updated_at s)) as [[|]|e]; cbn [obind] in H;
      [inversion H; subst; rewrite !elem_of_cons; tauto| |discriminate].
    destruct (insert_desc s l) as [r'|e]; cbn [obind] in H; [|discriminate].
    inversion H; subst. rewrite !elem_of_cons, (IH r' eq_refl). tauto.
Qed.

Lemma insert_desc_length s l r : insert_desc s l = Ok r -> length r = S (length l).
Proof.
  revert r. induction l as [|y l IH]; intros r H; cbn [insert_desc] in H.
  - inversion H; subst. reflexivity.
  - destruct (py_lt (updated_at y) (updated_at s)) as [[|]|e]; cbn [obind] in H;
      [inversion H; subst; reflexivity| |discriminate].
    destruct (insert_desc s l) as [r'|e]; cbn [obind] in H; [|discriminate].
    inversion H; subst. cbn [length]. rewrite (IH r' eq_refl). reflexivity.
Qed.

Lemma sorted_desc_from_elem acc l r x :
  sorted_desc_from acc l = Ok r -> (x ∈ r <-> x ∈ acc \/ x ∈ l).
Proof.
  revert acc r. induction l as [|s l IH]; intros acc r H; cbn [sorted_desc_from] in H.
  - inversion H; subst. rewrite elem_of_nil. tauto.
  - destruct (insert_desc s acc) as [acc'|e] eqn:Hi; cbn [obind] in H; [|discriminate].
    rewrite (IH _ _ H), (insert_desc_elem _ _ _ x Hi), elem_of_cons. tauto.
Qed.

Lemma sorted_desc_from_length acc l r :
  sorted_desc_from acc l = Ok r -> length r = length acc + length l.
Proof.
  revert acc r. induction l as [|s l IH]; intros acc r H; cbn [sorted_desc_from] in H.
  - inversion H; subst. cbn. lia.
  - destruct (insert_desc s acc) as [acc'|e] eqn:Hi; cbn [obind] in H; [|discriminate].
    rewrite (IH _ _ H), (insert_desc_length _ _ _ Hi). cbn [length]. lia.
Qed.

(** [<] on the values that can be compared is asymmetric. *)
Lemma py_lt_asym a b : py_lt a b = Ok true -> py_lt b a = Ok false.
Proof.
  destruct a as [|x|x|x| | |], b as [|y|y|y| | |]; cbn; intros H; try discriminate;
    inversion H as [H1]; f_equal.
  - destruct x, y; try discriminate; reflexivity.
  - destruct x; lia.
  - destruct y; lia.
  - lia.
  - unfold String.ltb in *. rewrite String.compare_antisym.
    destruct (String.compare x y); try discriminate. reflexivity.
Qed.

Lemma descending_cons a l :
  Sessions.descending (a :: l) <->
  match l with [] => True | b :: _ => Sessions.not_older a b end /\ Sessions.descending l.
Proof. destruct l; cbn; tauto. Qed.

Lemma insert_desc_descending s l r :
  insert_desc s l = Ok r -> Sessions.descending l ->
  Sessions.descending r /\
  (forall a, match l with [] => True | b :: _ => Sessions.not_older a b end ->
             Sessions.not_older a s ->
             match r with [] => True | b :: _ => Sessions.not_older a b end).
Proof.
  revert r. induction l as [|y l IH]; intros r H Hd; cbn [insert_desc] in H.
  - inversion H; subst. cbn. auto.
  - destruct (py_lt (updated_at y) (updated_at s)) as [[|]|e] eqn:Hlt; cbn [obind] in H;
      [| |discriminate].
    + inversion H; subst. split; [|auto].
      apply descending_cons. split; [|exact Hd].
      apply py_lt_asym. exact Hlt.
    + destruct (insert_desc s l) as [r'|e] eqn:Hi; cbn [obind] in H; [|discriminate].
      inversion H; subst. apply descending_cons in Hd. destruct Hd as [Hhd Hd].
      destruct (IH r' eq_refl Hd) as [Hd' Hhd'].
      split; [|auto].
      apply descending_cons. split; [|exact Hd'].
      apply Hhd'; [exact Hhd | exact Hlt].
Qed.

Lemma sorted_desc_from_descending acc l r :
  sorted_desc_from acc l = Ok r -> Sessions.descending acc -> Sessions.descending r.
Proof.
  revert acc r. induction l as [|s l IH]; intros acc r H Hd; cbn [sorted_desc_from] in H.
  - inversion H; subst. exact Hd.
  - destruct (insert_desc s acc) as [acc'|e] eqn:Hi; cbn [obind] in H; [|discriminate].
    apply (IH _ _ H). apply (insert_desc_descending _ _ _ Hi Hd).
Qed.

(** Sessions whose [updated_at] are strings can always be sorted. *)
Lemma insert_desc_stamped s l :
  Sessions.stamped s -> Forall Sessions.stamped l -> exists r, insert_desc s l = Ok r.
Proof.
  intros [t Ht] Hl. induction Hl as [|y l [u Hu] _ IH]; cbn [insert_desc]; [eauto|].
  rewrite Hu, Ht. cbn [py_lt obind].
  destruct (String.ltb u t); [eauto|].
  destruct IH as [r ->]. cbn [obind]. eauto.
Qed.

Lemma sorted_desc_from_stamped acc l :
  Forall Sessions.stamped acc -> Forall Sessions.stamped l ->
  exists r, sorted_desc_from acc l = Ok r.
Proof.
  intros Hacc Hl. revert acc Hacc.
  induction Hl as [|s l Hs _ IH]; intros acc Hacc; cbn [sorted_desc_from]; [eauto|].
  destruct (insert_desc_stamped s acc Hs Hacc) as [acc' Hi]. rewrite Hi. cbn [obind].
  apply IH. apply Forall_forall. intros x Hx.
  apply (insert_desc_elem _ _ _ x Hi) in Hx. destruct Hx as [->|Hx]; [exact Hs|].
  rewrite Forall_forall in Hacc. auto.
Qed.

Lemma slice_to_elem n l (x : ChatSession) : x ∈ slice_to n l -> x ∈ l.
Proof.
  unfold slice_to. destruct (0 <=? n)%Z; intros H; exact (subseteq_take _ _ _ H).
Qed.

Lemma slice_to_length n l :
  (0 <= n)%Z -> (Z.of_nat (length (slice_to n l)) <= n)%Z.
Proof.
  intros Hn. unfold slice_to. destruct (Z.leb_spec 0 n); [|lia].
  rewrite length_take. lia.
Qed.

Lemma slice_to_descending n l : Sessions.descending l -> Sessions.descending (slice_to n l).
Proof.
  assert (H : forall k l, Sessions.descending l -> Sessions.descending (take k l)).
  { intros k. induction k as [|k IH]; intros [|a l0] Hd; try exact I.
    cbn [take]. apply descending_cons in Hd. destruct Hd as [Hhd Hd].
    apply descending_cons. split; [|apply IH; exact Hd].
    destruct l0 as [|b l0]; [destruct k; exact I|]. destruct k; [exact I|exact Hhd]. }
  intros Hd. unfold slice_to. destruct (0 <=? n)%Z; apply H; exact Hd.
Qed.
End SortingFacts.

(** ** The operations on sessions *)

Section DictionaryFacts.
Import History.

Lemma lookup_dict_set k s d : Sessions.lookup k (dict_set k s d) = Some s.
Proof.
  induction d as [|[k' s'] d IH]; cbn [dict_set Sessions.lookup].
  - destruct (decide (k = k)); [reflexivity|contradiction].
  - destruct (decide (k = k')) as [->|Hne]; cbn [Sessions.lookup].
    + destruct (decide (k' = k')); [reflexivity|contradiction].
    + destruct (decide (k = k')); [contradiction|exact IH].
Qed.

Lemma lookup_dict_set_ne k k' s d :
  k' <> k -> Sessions.lookup k' (dict_set k s d) = Sessions.lookup k' d.
Proof.
  intros Hne. induction d as [|[k0 s0] d IH]; cbn [dict_set Sessions.lookup].
  - destruct (decide (k' = k)); [contradiction|reflexivity].
  - destruct (decide (k = k0)) as [->|Hne0]; cbn [Sessions.lookup].
    + destruct (decide (k' = k0)); [contradiction|reflexivity].
    + destruct (decide (k' = k0)); [reflexivity|exact IH].
Qed.

Lemma dict_set_keys k s s0 d :
  Sessions.lookup k d = Some s0 -> map fst (dict_set k s d) = map fst d.
Proof.
  induction d as [|[k' s'] d IH]; cbn [dict_set Sessions.lookup map fst]; [discriminate|].
  destruct (decide (k = k')) as [->|Hne]; [reflexivity|].
  intros H. cbn [map fst]. f_equal. apply IH. exact H.
Qed.

Lemma dict_set_length k s d : length (dict_set k s d) <= S (length d).
Proof.
  induction d as [|[k' s'] d IH]; cbn [dict_set length]; [lia|].
  destruct (decide (k = k')); cbn [length]; lia.
Qed.

Lemma dict_set_elem k s d kv :
  kv ∈ dict_set k s d -> kv = (k, s) \/ kv ∈ d.
Proof.
  induction d as [|[k' s'] d IH]; cbn [dict_set].
  - rewrite list_elem_of_singleton. auto.
  - destruct (decide (k = k')) as [->|Hne]; rewrite !elem_of_cons; [tauto|].
    intros [H|H]; [auto|]. destruct (IH H); auto.
Qed.

Lemma dict_set_keys_nodup k s d : NoDup (map fst d) -> NoDup (map fst (dict_set k s d)).
Proof.
  induction d as [|[k' s'] d IH]; cbn [dict_set map fst]; intros Hnd.
  - apply NoDup_singleton.
  - destruct (decide (k = k')) as [->|Hne]; [exact Hnd|].
    apply NoDup_cons in Hnd. destruct Hnd as [Hk Hnd].
    cbn [map fst]. apply NoDup_cons. split; [|apply IH; exact Hnd].
    intros Hin. apply list_elem_of_fmap in Hin. destruct Hin as ([k0 s0] & Hk0 & Hin).
    cbn in Hk0. subst k0. apply dict_set_elem in Hin. destruct Hin as [Heq|Hin].
    + inversion Heq. congruence.
    + apply Hk. apply list_elem_of_fmap. exists (k', s0). auto.
Qed.

Lemma lookup_elem k s d : Sessions.lookup k d = Some s -> (k, s) ∈ d.
Proof.
  induction d as [|[k' s'] d IH]; cbn [Sessions.lookup]; [discriminate|].
  destruct (decide (k = k')) as [->|Hne]; intros H.
  - inversion H; subst. left.
  - right. apply IH. exact H.
Qed.

Lemma lookup_none k d : k ∉ map fst d -> Sessions.lookup k d = None.
Proof.
  induction d as [|[k' s'] d IH]; cbn [Sessions.lookup map fst]; [reflexivity|].
  intros Hk. apply not_elem_of_cons in Hk. destruct Hk as [Hne Hk].
  destruct (decide (k = k')); [contradiction|apply IH; exact Hk].
Qed.

Lemma dict_del_elem k d kv : kv ∈ Sessions.dict_del k d -> kv ∈ d.
Proof.
  induction d as [|[k' s'] d IH]; cbn [Sessions.dict_del]; [auto|].
  destruct (decide (k = k')); rewrite ?elem_of_cons; [auto|].
  intros [H|H]; auto.
Qed.

Lemma dict_del_keys k d : NoDup (map fst d) -> k ∉ map fst (Sessions.dict_del k d).
Proof.
  induction d as [|[k' s'] d IH]; cbn [Sessions.dict_del map fst]; intros Hnd.
  - apply not_elem_of_nil.
  - apply NoDup_cons in Hnd. destruct Hnd as [Hk Hnd].
    destruct (decide (k = k')) as [->|Hne]; [exact Hk|].
    cbn [map fst]. apply not_elem_of_cons. split; [exact Hne|apply IH; exact Hnd].
Qed.

Lemma dict_del_nodup k d : NoDup (map fst d) -> NoDup (map fst (Sessions.dict_del k d)).
Proof.
  induction d as [|[k' s'] d IH]; cbn [Sessions.dict_del map fst]; intros Hnd; [exact Hnd|].
  apply NoDup_cons in Hnd. destruct Hnd as [Hk Hnd].
  destruct (decide (k = k')) as [->|Hne]; [exact Hnd|].
  cbn [map fst]. apply NoDup_cons. split; [|apply IH; exact Hnd].
  intros Hin. apply Hk. apply list_elem_of_fmap in Hin. destruct Hin as (kv & Hkv & Hin).
  apply list_elem_of_fmap. exists kv. split; [exact Hkv|]. eapply dict_del_elem; eauto.
Qed.

(** What [rekey] builds holds the given entries and, for each session of
    the list, an entry under the key of its id. *)
Lemma rekey_elem l d0 d' kv :
  rekey l d0 = Ok d' -> kv ∈ d' ->
  kv ∈ d0 \/ (snd kv ∈ l /\ hash_key (session_id (snd kv)) = Ok (fst kv)).
Proof.
  revert d0. induction l as [|s l IH]; intros d0 H Hin; cbn [rekey] in H.
  - inversion H; subst. auto.
  - destruct (hash_key (session_id s)) as [k|e] eqn:Hk; cbn [obind] in H; [|discriminate].
    destruct (IH _ H Hin) as [Hd|[Hl Hh]].
    + apply dict_set_elem in Hd. destruct Hd as [->|Hd]; [|auto].
      right. cbn [fst snd]. split; [left|exact Hk].
    + right. split; [right; exact Hl|exact Hh].
Qed.

Lemma rekey_nodup l d0 d' :
  rekey l d0 = Ok d' -> NoDup (map fst d0) -> NoDup (map fst d').
Proof.
  revert d0. induction l as [|s l IH]; intros d0 H Hnd; cbn [rekey] in H.
  - inversion H; subst. exact Hnd.
  - destruct (hash_key (session_id s)) as [k|e]; cbn [obind] in H; [|discriminate].
    apply (IH _ H). apply dict_set_keys_nodup. exact Hnd.
Qed.

Lemma rekey_length l d0 d' :
  rekey l d0 = Ok d' -> length d' <= length d0 + length l.
Proof.
  revert d0. induction l as [|s l IH]; intros d0 H; cbn [rekey] in H.
  - inversion H; subst. cbn. lia.
  - destruct (hash_key (session_id s)) as [k|e]; cbn [obind] in H; [|discriminate].
    specialize (IH _ H). pose proof (dict_set_length k s d0). cbn [length]. lia.
Qed.

Lemma rekey_hashable l d0 :
  Forall (fun s => is_ok (hash_key (session_id s)) = true) l -> exists d', rekey l d0 = Ok d'.
Proof.
  intros H. revert d0. induction H as [|s l Hs _ IH]; intros d0; cbn [rekey]; [eauto|].
  destruct (hash_key (session_id s)) as [k|e]; [|discriminate]. cbn [obind]. apply IH.
Qed.
End DictionaryFacts.

Section OperationFacts.
Import History.
Variable io : IO.
Variable history_file : string.
Variable max_sessions : Z.
Variable md5_hex12 : string -> string.

Lemma write_keeps_sessions w :
  sessions (world (write_sessions io history_file w)) = sessions w.
Proof.
  unfold write_sessions, get_sessions, lift, open_write, dump, rename, bind.
  cbn [out world trace sessions files].
  destruct (with_suffix history_file ".tmp") as [temp|e]; [|reflexivity].
  destruct (open_write_fault io temp); [reflexivity|].
  cbn [out world trace sessions files].
  destruct (dump_json io _) as [written [e|]]; [reflexivity|].
  cbn [out world trace sessions files].
  destruct (rename_fault io temp history_file); [reflexivity|].
  cbn [out world trace sessions files].
  destruct (_ !! temp); reflexivity.
Qed.

(** The trimming either leaves the dictionary as it is or replaces it by
    the re-keyed head of the sorted sessions. *)
Lemma trim_cases w :
  let r := trim_sessions max_sessions w in
  sessions (world r) = sessions w \/
  ((Z.of_nat (length (sessions w)) > max_sessions)%Z /\
   exists sorted_sessions d',
     sorted_by_updated_desc (map snd (sessions w)) = Ok sorted_sessions /\
     rekey (slice_to max_sessions sorted_sessions) [] = Ok d' /\
     sessions (world r) = d' /\ out r = Ok tt).
Proof.
  cbv zeta. unfold trim_sessions, get_sessions, set_sessions, lift, bind, ret.
  cbn [out world trace sessions files].
  destruct (Z.gtb_spec (Z.of_nat (length (sessions w))) max_sessions) as [Hgt|_];
    [|left; reflexivity].
  cbn [out world trace sessions files].
  destruct (sorted_by_updated_desc (map snd (sessions w))) as [srt|e] eqn:Hs;
    [|left; reflexivity].
  cbn [out world trace sessions files].
  destruct (rekey (slice_to max_sessions srt) []) as [d'|e] eqn:Hr; [|left; reflexivity].
  cbn [out world trace sessions files].
  right. split; [lia|]. exists srt, d'. repeat split; assumption.
Qed.

Lemma save_sessions w :
  sessions (world (save_history io history_file max_sessions w))
  = sessions (world (trim_sessions max_sessions w)).
Proof.
  unfold save_history. rewrite world_try_except, out_bind, world_bind.
  destruct (out (trim_sessions max_sessions w)) as [[]|e]; [|reflexivity].
  pose proof (write_keeps_sessions (world (trim_sessions max_sessions w))) as H.
  destruct (out (write_sessions io history_file _)); exact H.
Qed.

Lemma save_keeps_sessions w :
  (Z.of_nat (length (sessions w)) <= max_sessions)%Z ->
  sessions (world (save_history io history_file max_sessions w)) = sessions w.
Proof.
  intros Hlen. rewrite save_sessions.
  destruct (trim_cases w) as [H|[Hgt _]]; [exact H|lia].
Qed.

(** What the trimming keeps was there before, under the key of its id. *)
Lemma trim_elem w kv :
  Forall (fun kv => hash_key (session_id (snd kv)) = Ok (fst kv)) (sessions w) ->
  kv ∈ sessions (world (trim_sessions max_sessions w)) ->
  snd kv ∈ map snd (sessions w) /\ hash_key (session_id (snd kv)) = Ok (fst kv).
Proof.
  intros Hkeys Hin.
  destruct (trim_cases w) as [H|(_ & srt & d' & Hs & Hr & Hd & _)]; cbv zeta in *.
  - rewrite H in Hin. split.
    + apply list_elem_of_fmap. exists kv. auto.
    + rewrite Forall_forall in Hkeys. auto.
  - rewrite Hd in Hin. destruct (rekey_elem _ _ _ _ Hr Hin) as [Hnil|[Hl Hh]].
    + apply elem_of_nil in Hnil. contradiction.
    + split; [|exact Hh]. apply slice_to_elem in Hl.
      apply (sorted_desc_from_elem _ _ _ _ Hs) in Hl. destruct Hl as [Hl|Hl]; [|exact Hl].
      apply elem_of_nil in Hl. contradiction.
Qed.

Lemma trim_keyed w :
  Sessions.keyed_by_id (sessions w) ->
  Sessions.keyed_by_id (sessions (world (trim_sessions max_sessions w))).
Proof.
  intros [Hnd Hkeys]. split.
  - destruct (trim_cases w) as [H|(_ & srt & d' & Hs & Hr & Hd & _)]; cbv zeta in *.
    + rewrite H. exact Hnd.
    + rewrite Hd. apply (rekey_nodup _ _ _ Hr). constructor.
  - apply Forall_forall. intros kv Hin. apply (trim_elem w kv Hkeys Hin).
Qed.
Ltac run_binds :=
  repeat (progress (rewrite ?out_bind, ?world_bind, ?trace_bind;
                    cbn [out world trace sessions files app])).

(** X10: [create_session] returns a session without messages, whose id is
    the digest of the first reading of the clock and whose two timestamps
    are the second reading; the title is the one given, or "Chat - " and
    the date when none or an empty one is given.  It returns it whatever
    happens to the disk.  When the dictionary is below the bound, the
    session is then found under its id, and every other id finds what it
    found before. *)
Theorem X10_create_session_returns_new_session
        (clock : Sessions.Clock) (given : option string) (w : World) :
  let id := md5_hex12 (Sessions.first_now clock) in
  let r := Sessions.create_session io history_file max_sessions md5_hex12 clock given w in
  exists s,
    out r = Ok s /\
    session_id s = PStr id /\ messages s = [] /\
    created_at s = PStr (Sessions.second_now clock) /\
    updated_at s = PStr (Sessions.second_now clock) /\
    (given = None \/ given = Some "" ->
     title s = PStr ("Chat - " +:+ Sessions.title_now clock)) /\
    (forall t, given = Some t -> t <> "" -> title s = PStr t) /\
    ((Z.of_nat (length (sessions w)) < max_sessions)%Z ->
     Sessions.lookup (KStr id) (sessions (world r)) = Some s /\
     forall k, k <> KStr id ->
               Sessions.lookup k (sessions (world r)) = Sessions.lookup k (sessions w)).
Proof.
  cbv zeta. unfold Sessions.create_session.
  set (id := md5_hex12 (Sessions.first_now clock)).
  set (ttl := match given with
              | Some t => if String.eqb t "" then "Chat - " +:+ Sessions.title_now clock else t
              | None => "Chat - " +:+ Sessions.title_now clock
              end).
  set (s := mkChatSession (PStr id) (PStr ttl) (PStr (Sessions.second_now clock))
                          (PStr (Sessions.second_now clock)) []).
  exists s.
  rewrite !out_bind, !world_bind.
  unfold get_sessions. cbn [out world].
  unfold set_sessions. cbn [out world sessions files].
  rewrite !out_bind, !world_bind.
  rewrite !save_history_never_raises.
  cbn [log note ret out world].
  split; [reflexivity|]. split; [reflexivity|]. split; [reflexivity|].
  split; [reflexivity|]. split; [reflexivity|]. split; [|split].
  - subst s ttl. cbn [title]. intros [->| ->]; reflexivity.
  - subst s ttl. cbn [title]. intros t -> Hne.
    destruct (String.eqb_spec t ""); [contradiction|reflexivity].
  - intros Hlen. rewrite save_keeps_sessions.
    + cbn [sessions]. split; [apply lookup_dict_set|].
      intros k Hk. apply lookup_dict_set_ne. exact Hk.
    + cbn [sessions]. pose proof (dict_set_length (KStr id) s (sessions w)). lia.
Qed.
(** X11: [add_message] returns normally.  For an id that is not in the
    dictionary it only logs a warning: nothing changes and nothing is
    written.  For an id that is there, and a dictionary within the bound,
    the session under that id gets the message at the end of its list and
    the second reading of the clock as [updated_at]; its other fields, the
    keys of the dictionary, their order, and the sessions under the other
    keys stay as they are. *)
Theorem X11_add_message_appends (clock : Sessions.Clock)
        (id sender content message_type : string) (w : World) :
  let r := Sessions.add_message io history_file max_sessions clock id sender content
                                message_type w in
  out r = Ok tt /\
  (Sessions.lookup (KStr id) (sessions w) = None ->
   world r = w /\
   trace r = [EvLog WARNING ("Attempted to add message to non-existent session: " +:+ id)]) /\
  (forall s,
     Sessions.lookup (KStr id) (sessions w) = Some s ->
     (Z.of_nat (length (sessions w)) <= max_sessions)%Z ->
     Sessions.lookup (KStr id) (sessions (world r))
     = Some (mkChatSession (session_id s) (title s) (created_at s)
                           (PStr (Sessions.second_now clock))
                           (messages s ++
                            [mkChatMessage (PStr (Sessions.first_now clock)) (PStr sender)
                                           (PStr content) (PStr message_type)])) /\
     map fst (sessions (world r)) = map fst (sessions w) /\
     forall k, k <> KStr id ->
               Sessions.lookup k (sessions (world r)) = Sessions.lookup k (sessions w)).
Proof.
  cbv zeta. unfold Sessions.add_message, Sessions.get_session, get_sessions, set_sessions, ret.
  run_binds.
  destruct (Sessions.lookup (KStr id) (sessions w)) as [s|] eqn:Hlook.
  - run_binds. rewrite save_history_never_raises.
    split; [reflexivity|]. split; [discriminate|].
    intros s' Hs Hlen. inversion Hs; subst s'.
    rewrite save_keeps_sessions.
    + cbn [sessions]. split; [apply lookup_dict_set|].
      split; [apply (dict_set_keys _ _ s); exact Hlook|].
      intros k Hk. apply lookup_dict_set_ne. exact Hk.
    + cbn [sessions].
      assert (Hl : length (dict_set (KStr id)
                     (mkChatSession (session_id s) (title s) (created_at s)
                        (PStr (Sessions.second_now clock))
                        (messages s ++
                         [mkChatMessage (PStr (Sessions.first_now clock)) (PStr sender)
                                        (PStr content) (PStr message_type)]))
                     (sessions w)) = length (sessions w)).
      { rewrite <- (length_map fst), (dict_set_keys _ _ s _ Hlook), length_map. reflexivity. }
      rewrite Hl. exact Hlen.
  - cbn [log note out world trace].
    split; [reflexivity|]. split; [auto|]. intros s Hs. discriminate.
Qed.

Lemma lookup_is_elem k d : k ∈ map fst d -> is_Some (Sessions.lookup k d).
Proof.
  induction d as [|[k' s'] d IH]; cbn [Sessions.lookup map fst]; intros Hin.
  - apply elem_of_nil in Hin. contradiction.
  - destruct (decide (k = k')); [eexists; reflexivity|].
    apply elem_of_cons in Hin. destruct Hin as [Heq|Hin]; [contradiction|auto].
Qed.

(** X12: [delete_session] answers [True] exactly when the id is in the
    dictionary, and returns normally.  For an id that is not there nothing
    changes.  Afterwards the id is not in the dictionary: in a dictionary
    that files every session under its own id this holds also when the
    saving drops sessions or fails. *)
Theorem X12_delete_session_removes (id : string) (w : World) :
  Sessions.keyed_by_id (sessions w) ->
  let r := Sessions.delete_session io history_file max_sessions id w in
  out r = Ok (bool_decide (is_Some (Sessions.lookup (KStr id) (sessions w)))) /\
  (Sessions.lookup (KStr id) (sessions w) = None -> world r = w) /\
  Sessions.lookup (KStr id) (sessions (world r)) = None /\
  Sessions.keyed_by_id (sessions (world r)).
Proof.
  intros Hkeyed. cbv zeta.
  unfold Sessions.delete_session, get_sessions, set_sessions, ret. run_binds.
  destruct (Sessions.lookup (KStr id) (sessions w)) as [s|] eqn:Hlook.
  - run_binds. rewrite !save_history_never_raises. run_binds.
    cbn [log note ret out world].
    set (w1 := mkWorld (Sessions.dict_del (KStr id) (sessions w)) (files w)).
    assert (Hk1 : Sessions.keyed_by_id (sessions w1)).
    { destruct Hkeyed as [Hnd Hkeys]. split; [apply dict_del_nodup; exact Hnd|].
      apply Forall_forall. intros kv Hin. apply dict_del_elem in Hin.
      rewrite Forall_forall in Hkeys. auto. }
    split; [rewrite bool_decide_eq_true_2 by eauto; reflexivity|].
    split; [discriminate|].
    rewrite save_sessions. split; [|apply trim_keyed; exact Hk1].
    destruct (Sessions.lookup (KStr id) (sessions (world (trim_sessions max_sessions w1))))
      as [s'|] eqn:Hafter; [|reflexivity].
    exfalso. apply lookup_elem in Hafter.
    destruct (trim_elem w1 _ (proj2 Hk1) Hafter) as [Hin Hhash].
    cbn [fst snd] in Hin, Hhash.
    apply list_elem_of_fmap in Hin. destruct Hin as ([k0 s0] & Heq & Hin).
    cbn [snd] in Heq. subst s0.
    pose proof (proj2 Hk1) as Hkeys1. rewrite Forall_forall in Hkeys1.
    specialize (Hkeys1 _ Hin). cbn [fst snd] in Hkeys1.
    rewrite Hhash in Hkeys1. inversion Hkeys1; subst k0.
    apply (dict_del_keys (KStr id) (sessions w) (proj1 Hkeyed)).
    apply list_elem_of_fmap. exists (KStr id, s'). auto.
  - run_binds. cbn [log note ret out world].
    split; [rewrite bool_decide_eq_false_2 by (intros [? ?]; discriminate); reflexivity|].
    split; [reflexivity|]. split; [exact Hlook|exact Hkeyed].
Qed.

(** X13: [get_recent_sessions] reads the dictionary and changes nothing.
    What it returns are sessions of the dictionary, none older than the
    one after it, and at most [limit] of them when [limit] is not
    negative; it returns whenever every [updated_at] is a string. *)
Theorem X13_get_recent_sessions_sorted (limit : Z) (w : World) :
  let r := Sessions.get_recent_sessions limit w in
  world r = w /\ trace r = [] /\
  (forall l, out r = Ok l ->
     (forall s, s ∈ l -> s ∈ map snd (sessions w)) /\
     Sessions.descending l /\
     ((0 <= limit)%Z -> (Z.of_nat (length l) <= limit)%Z)) /\
  (Forall Sessions.stamped (map snd (sessions w)) -> is_ok (out r) = true).
Proof.
  cbv zeta. unfold Sessions.get_recent_sessions, get_sessions, lift, ret, bind.
  cbn [out world trace].
  destruct (sorted_by_updated_desc (map snd (sessions w))) as [srt|e] eqn:Hs;
    cbn [out world trace app].
  - split; [reflexivity|]. split; [reflexivity|]. split; [|reflexivity].
    intros l Hl. inversion Hl; subst l. split; [|split].
    + intros s Hin. apply slice_to_elem in Hin.
      apply (sorted_desc_from_elem _ _ _ _ Hs) in Hin.
      destruct Hin as [Hin|Hin]; [apply elem_of_nil in Hin; contradiction|exact Hin].
    + apply slice_to_descending. apply (sorted_desc_from_descending _ _ _ Hs). exact I.
    + apply slice_to_length.
  - split; [reflexivity|]. split; [reflexivity|]. split; [discriminate|].
    intros Hst. destruct (sorted_desc_from_stamped [] _ (Forall_nil_2 _) Hst) as [r Hr].
    unfold sorted_by_updated_desc in Hs. congruence.
Qed.

(** X14: [save_history] keeps the dictionary within the bound.  When the
    bound is not negative, every session is filed under its own id and
    every [updated_at] is a string, the dictionary holds at most
    [max_sessions] sessions afterwards; each of them was there before and
    is still filed under its own id. *)
Theorem X14_save_history_trims_to_bound (w : World) :
  (0 <= max_sessions)%Z ->
  Sessions.keyed_by_id (sessions w) ->
  Forall Sessions.stamped (map snd (sessions w)) ->
  let r := save_history io history_file max_sessions w in
  (Z.of_nat (length (sessions (world r))) <= max_sessions)%Z /\
  (forall s, s ∈ map snd (sessions (world r)) -> s ∈ map snd (sessions w)) /\
  Sessions.keyed_by_id (sessions (world r)).
Proof.
  intros Hmax Hkeyed Hst. cbv zeta. rewrite save_sessions.
  split; [|split].
  - unfold trim_sessions, get_sessions, set_sessions, lift, ret, bind.
    cbn [out world trace sessions files].
    destruct (Z.gtb_spec (Z.of_nat (length (sessions w))) max_sessions) as [Hgt|Hle];
      [|cbn [world sessions]; lia].
    cbn [out world trace sessions files].
    destruct (sorted_desc_from_stamped [] _ (Forall_nil_2 _) Hst) as [srt Hs].
    unfold sorted_by_updated_desc. rewrite Hs. cbn [out world trace sessions files].
    assert (Hhash : Forall (fun s => is_ok (hash_key (session_id s)) = true)
                           (slice_to max_sessions srt)).
    { apply Forall_forall. intros s Hin. apply slice_to_elem in Hin.
      apply (sorted_desc_from_elem _ _ _ _ Hs) in Hin.
      destruct Hin as [Hin|Hin]; [apply elem_of_nil in Hin; contradiction|].
      apply list_elem_of_fmap in Hin. destruct Hin as (kv & -> & Hin).
      destruct Hkeyed as [_ Hkeys]. rewrite Forall_forall in Hkeys.
      rewrite (Hkeys _ Hin). reflexivity. }
    destruct (rekey_hashable _ [] Hhash) as [d' Hr]. rewrite Hr.
    cbn [out world trace sessions files].
    pose proof (rekey_length _ _ _ Hr) as Hlen. cbn [length] in Hlen.
    pose proof (slice_to_length max_sessions srt Hmax). lia.
  - intros s Hin. apply list_elem_of_fmap in Hin. destruct Hin as (kv & -> & Hin).
    apply (trim_elem w kv (proj2 Hkeyed) Hin).
  - apply trim_keyed. exact Hkeyed.
Qed.
End OperationFacts.

(** ** The orchestrator, path by path *)

Section PathFacts.
Import Bridge Observe.
Context {World : Type}.
Variable env : Env World.
Variable types : option TypesModule.

(** X15: when the provider fails on the prompt, [send_message] logs the
    failure, emits the error signal with the text that
    [_format_error_message] gives for the exception, and then emits
    [finished]; no tool runs and no message is shown.  It returns what the
    emission of the error signal returns. *)
Theorem X15_provider_failure_is_reported (prompt : string) (w w1 : World) (e : Exc) :
  ai_client_send_message env (Prompt prompt) w = (Raise e, w1) ->
  let r := send_message env types prompt w in
  exists o1 o2,
    trace r =
      [EvSend (Prompt prompt) (Raise e);
       EvLog ERROR ("Error in send_message: " +:+ exc_msg e);
       EvEmit (SigError (_format_error_message e)) o1;
       EvEmit SigFinished o2] ++
      match o2 with
      | Ok _ => []
      | Raise e2 => [EvLog ERROR ("Error emitting finished signal: " +:+ exc_msg e2)]
      end /\
    out r = o1 /\
    executed (trace r) = [] /\ count is_message (trace r) = 0.
Proof.
  intros Hsend. cbv zeta.
  assert (Hr : exists o1 o2 w',
             send_message env types prompt w =
             mkRes o1 w'
                   ([EvSend (Prompt prompt) (Raise e);
                     EvLog ERROR ("Error in send_message: " +:+ exc_msg e);
                     EvEmit (SigError (_format_error_message e)) o1;
                     EvEmit SigFinished o2] ++
                    match o2 with
                    | Ok _ => []
                    | Raise e2 => [EvLog ERROR ("Error emitting finished signal: " +:+
                                                exc_msg e2)]
                    end)).
  { unfold send_message, try_finally, try_except at 1, send_message_try, bind at 1, send, act.
    rewrite Hsend. cbn [out world trace].
    unfold send_message_except, send_message_finally, try_except, bind, log, note, emit, act.
    destruct (signal_emit env (SigError (_format_error_message e)) w1) as [o1 w2].
    destruct o1 as [[]|e1]; cbn [out world trace app];
      destruct (signal_emit env SigFinished w2) as [[[]|e2] w3]; cbn [out world trace app].
    - exists (Ok tt), (Ok tt), w3. reflexivity.
    - exists (Ok tt), (Raise e2), w3. reflexivity.
    - exists (Raise e1), (Ok tt), w3. reflexivity.
    - exists (Raise e1), (Raise e2), w3. reflexivity. }
  destruct Hr as (o1 & o2 & w' & ->). exists o1, o2. cbn [out trace].
  split; [reflexivity|]. split; [reflexivity|].
  destruct o2; split; reflexivity.
Qed.
#[local] Abbreviation signals_work := (Conditions.signals_work env).

Lemma emit_works s (w : World) :
  signals_work ->
  emit env s w = mkRes (Ok tt) (snd (signal_emit env s w)) [EvEmit s (Ok tt)].
Proof.
  intros H. unfold emit, act. specialize (H s w).
  destruct (signal_emit env s w) as [o w']. cbn [fst snd] in *. subst o. reflexivity.
Qed.

(** A function call whose name is not in the dispatch map fails after its
    tool-call signal, before anything is executed. *)
Lemma execute_unknown fc name args (w : World) :
  signals_work ->
  getattr fc "name" = Ok (PStr name) ->
  obind (getattr fc "args") (fun a => if truthy a then to_dict a else Ok []) = Ok args ->
  tool_function_map env !! name = None ->
  let called := SigToolCall (py_str env (PStr name) +:+ "(" +:+
                             join ", " (map (format_arg env) args) +:+ ")") in
  _execute_function_call env types fc w =
  mkRes (Raise (exc PlainException
                  ("Unknown tool function requested: " +:+ py_str env (PStr name))))
        (snd (signal_emit env called w))
        [EvEmit called (Ok tt)].
Proof.
  intros Hsig Hname Hargs Hmap. cbv zeta.
  unfold _execute_function_call. rewrite Hname, Hargs.
  unfold bind at 1, lift at 1. cbn [out world trace].
  unfold bind at 1, lift at 1. cbn [out world trace].
  unfold bind at 1. rewrite (emit_works _ _ Hsig). cbn [out world trace].
  unfold bind at 1, lift at 1, lookup_tool. rewrite Hmap. cbn [out world trace].
  unfold raise. reflexivity.
Qed.

(** X16: the model asks for a function that is not in the dispatch map.
    With a user interface whose signals work, [send_message] announces the
    call, reports "Tool execution failed: Unknown tool function requested:
    ..." by the log and by the error signal, executes nothing, drops the
    other function calls of the response, sends nothing back to the
    provider, and still emits the message signal with the text of the
    response, before [finished]. *)
Theorem X16_unknown_tool_aborts_round
        (prompt : string) (w : World) (response fc : PyVal) (rest : list PyVal)
        (name : string) (args : list (string * PyVal)) (final_text : string) :
  signals_work ->
  fst (ai_client_send_message env (Prompt prompt) w) = Ok response ->
  _extract_function_calls response = Ok (fc :: rest) ->
  getattr fc "name" = Ok (PStr name) ->
  obind (getattr fc "args") (fun a => if truthy a then to_dict a else Ok []) = Ok args ->
  tool_function_map env !! name = None ->
  _extract_final_text response = Ok final_text ->
  let r := send_message env types prompt w in
  let complaint :=
    "Tool execution failed: Unknown tool function requested: " +:+ py_str env (PStr name) in
  trace r =
    [EvSend (Prompt prompt) (Ok response);
     EvEmit (SigToolCall (py_str env (PStr name) +:+ "(" +:+
                          join ", " (map (format_arg env) args) +:+ ")")) (Ok tt);
     EvLog ERROR complaint;
     EvEmit (SigError complaint) (Ok tt);
     EvEmit (SigMessage "Geode" (text_or_default final_text)) (Ok tt);
     EvEmit SigFinished (Ok tt)] /\
  out r = Ok tt.
Proof.
  intros Hsig Hsend Hcalls Hname Hargs Hmap Htext. cbv zeta.
  assert (Hloop : forall w0, exists w',
             _process_tool_calls env types response w0 =
             mkRes (Ok tt) w'
                   [EvEmit (SigToolCall (py_str env (PStr name) +:+ "(" +:+
                                         join ", " (map (format_arg env) args) +:+ ")"))
                           (Ok tt);
                    EvLog ERROR ("Tool execution failed: Unknown tool function requested: " +:+
                                 py_str env (PStr name));
                    EvEmit (SigError ("Tool execution failed: Unknown tool function requested: "
                                      +:+ py_str env (PStr name))) (Ok tt)]).
  { intros w0. unfold _process_tool_calls.
    change (seq 0 max_iterations) with (0 :: seq 1 9). cbn [tool_loop].
    rewrite Hcalls. unfold bind at 1, lift at 1. cbn [out world trace].
    cbn [execute_all].
    pose proof (execute_unknown fc name args w0 Hsig Hname Hargs Hmap) as Hx.
    cbv zeta in Hx.
    unfold bind at 1. unfold bind at 1. unfold try_except at 1. unfold bind at 1.
    rewrite Hx. cbn [out world trace exc_msg exc].
    unfold bind at 1, log at 1, note at 1. cbn [out world trace].
    unfold bind at 1. rewrite (emit_works _ _ Hsig). cbn [out world trace ret app].
    eexists. reflexivity. }
  assert (Hr : exists w',
             send_message env types prompt w =
             mkRes (Ok tt) w'
                   [EvSend (Prompt prompt) (Ok response);
                    EvEmit (SigToolCall (py_str env (PStr name) +:+ "(" +:+
                                         join ", " (map (format_arg env) args) +:+ ")"))
                           (Ok tt);
                    EvLog ERROR ("Tool execution failed: Unknown tool function requested: " +:+
                                 py_str env (PStr name));
                    EvEmit (SigError ("Tool execution failed: Unknown tool function requested: "
                                      +:+ py_str env (PStr name))) (Ok tt);
                    EvEmit (SigMessage "Geode" (text_or_default final_text)) (Ok tt);
                    EvEmit SigFinished (Ok tt)]).
  { unfold send_message, try_finally, try_except at 1, send_message_try.
    unfold bind at 1, send, act.
    destruct (ai_client_send_message env (Prompt prompt) w) as [o w1]. cbn [fst] in Hsend.
    subst o. cbn [out world trace].
    destruct (Hloop w1) as [w2 Hl]. unfold bind at 1. rewrite Hl. cbn [out world trace].
    unfold bind at 1, lift at 1. rewrite Htext. cbn [out world trace].
    rewrite (emit_works _ _ Hsig). cbn [out world trace app].
    unfold send_message_finally, try_except. rewrite (emit_works _ _ Hsig).
    cbn [out world trace app]. eexists. reflexivity. }
  destruct Hr as [w' ->]. split; reflexivity.
Qed.
End PathFacts.

Section ExtractionFacts.
Import Bridge.

Lemma concat_text_error acc parts e :
  concat_text acc parts = Raise e -> exc_class e = TypeError.
Proof.
  revert acc. induction parts as [|part parts IH]; intros acc H; cbn [concat_text] in H;
    [discriminate|].
  destruct (attr_if_truthy part "text") as [[| | |s| | |]|]; eauto;
    inversion H; reflexivity.
Qed.

(** X17: the two extractors read the response the same way.  Whatever
    makes [_extract_function_calls] raise makes [_extract_final_text]
    raise the same exception; so a response whose text can be extracted
    never makes the extraction of function calls fail.  The only failure
    of [_extract_final_text] alone is the [TypeError] of adding a [text]
    that is not a string. *)
Theorem X17_extractors_read_alike (response : PyVal) :
  (forall e, _extract_function_calls response = Raise e ->
             _extract_final_text response = Raise e) /\
  (forall final_text, _extract_final_text response = Ok final_text ->
                      is_ok (_extract_function_calls response) = true) /\
  (forall calls e, _extract_function_calls response = Ok calls ->
                   _extract_final_text response = Raise e ->
                   exc_class e = TypeError).
Proof.
  unfold _extract_function_calls, _extract_final_text.
  destruct (attr_if_truthy response "candidates") as [candidates|].
  2:{ repeat split; intros; congruence. }
  destruct (getitem0 candidates) as [candidate|e0]; cbn [obind].
  2:{ repeat split; intros; congruence. }
  destruct (attr_if_truthy candidate "content") as [content|].
  2:{ repeat split; intros; congruence. }
  destruct (getattr content "parts") as [parts|e1]; cbn [obind].
  2:{ repeat split; intros; congruence. }
  destruct (iterate parts) as [l|e2]; cbn [obind].
  2:{ repeat split; intros; congruence. }
  repeat split; intros; try congruence.
  eapply concat_text_error. eassumption.
Qed.
End ExtractionFacts.

(** ** The plugin manager *)

Section LoaderFacts.
Import Plugins.
Context {World : Type}.

(** What [_register_plugin] does in every case: it returns a name, keeps
    what was registered, only adds tools, and a name that is not empty is
    the name of the plugin, new and registered. *)
Lemma register_cases (plugin : Plugin World) file (pm : PluginManager World) :
  let r := _register_plugin plugin file pm in
  exists name,
    out r = Ok name /\
    (forall n p, plugins pm !! n = Some p -> plugins (world r) !! n = Some p) /\
    (exists added, tools (world r) = tools pm ++ added) /\
    (name <> "" ->
     get_name plugin = Ok name /\ plugins pm !! name = None /\
     plugins (world r) !! name = Some plugin).
Proof.
  cbv zeta. unfold _register_plugin, try_except, bind, lift, get, put, note, ret.
  destruct (get_name plugin) as [name|e]; cbn [out world trace].
  2:{ exists "". split; [reflexivity|]. split; [auto|]. split; [exists []; now rewrite app_nil_r|].
      intros H; contradiction. }
  destruct (plugins pm !! name) as [p0|] eqn:Hlook; cbn [out world trace].
  { exists "". split; [reflexivity|]. split; [auto|]. split; [exists []; now rewrite app_nil_r|].
    intros H; contradiction. }
  assert (Hext : forall n p, plugins pm !! n = Some p ->
                             <[name := plugin]> (plugins pm) !! n = Some p).
  { intros n p Hn. rewrite lookup_insert_ne; [exact Hn|]. intros ->. congruence. }
  destruct (get_tools plugin) as [plugin_tools|e]; cbn [out world trace plugins tools].
  - exists name. split; [reflexivity|]. split; [exact Hext|].
    split; [exists plugin_tools; reflexivity|].
    intros _. split; [reflexivity|]. split; [exact Hlook|]. apply lookup_insert_eq.
  - exists "". split; [reflexivity|]. split; [exact Hext|].
    split; [exists []; now rewrite app_nil_r|]. intros H; contradiction.
Qed.

Lemma load_files_inv (plugin_files : list (PluginFile World)) :
  forall loaded (pm : PluginManager World),
  let r := load_files plugin_files loaded pm in
  exists new,
    out r = Ok (loaded ++ new) /\
    NoDup new /\
    (forall n, n ∈ new ->
       n <> "" /\ plugins pm !! n = None /\
       exists file p, file ∈ plugin_files /\ _should_skip_file file = false /\
                      instance file = Some p /\ get_name p = Ok n /\
                      plugins (world r) !! n = Some p) /\
    (forall n p, plugins pm !! n = Some p -> plugins (world r) !! n = Some p) /\
    (exists added, tools (world r) = tools pm ++ added).
Proof.
  induction plugin_files as [|file rest IH]; intros loaded pm; cbv zeta.
  { exists []. cbn. rewrite app_nil_r. split; [reflexivity|]. split; [constructor|].
    split; [intros n Hn; apply elem_of_nil in Hn; contradiction|].
    split; [auto|]. exists []. now rewrite app_nil_r. }
  cbn [load_files].
  destruct (_should_skip_file file) eqn:Hskip.
  { destruct (IH loaded pm) as (new & Ho & Hnd & Hnew & Hext & Htools). cbv zeta in *.
    exists new. split; [exact Ho|]. split; [exact Hnd|]. split; [|auto].
    intros n Hn. destruct (Hnew n Hn) as (H1 & H2 & f & p & Hf & Hrest).
    split; [exact H1|]. split; [exact H2|]. exists f, p. split; [right; exact Hf|exact Hrest]. }
  unfold _load_single_plugin.
  destruct (instance file) as [plugin|] eqn:Hinst.
  2:{ rewrite !out_bind, !world_bind. cbn [ret out world String.eqb].
      destruct (IH loaded pm) as (new & Ho & Hnd & Hnew & Hext & Htools). cbv zeta in *.
      exists new. split; [exact Ho|]. split; [exact Hnd|]. split; [|auto].
      intros n Hn. destruct (Hnew n Hn) as (H1 & H2 & f & p & Hf & Hrest).
      split; [exact H1|]. split; [exact H2|]. exists f, p.
      split; [right; exact Hf|exact Hrest]. }
  rewrite !out_bind, !world_bind.
  destruct (register_cases plugin (file_name file) pm)
    as (name & Hreg & Hext1 & (added1 & Htools1) & Hname). cbv zeta in *.
  rewrite !Hreg.
  set (pm1 := world (_register_plugin plugin (file_name file) pm)) in *.
  destruct (String.eqb_spec name "") as [->|Hne].
  - destruct (IH loaded pm1) as (new & Ho & Hnd & Hnew & Hext & added & Htools).
    cbv zeta in *.
    exists new. split; [exact Ho|]. split; [exact Hnd|]. split; [|split].
    + intros n Hn. destruct (Hnew n Hn) as (H1 & H2 & f & p & Hf & Hrest).
      split; [exact H1|]. split.
      * destruct (plugins pm !! n) as [p0|] eqn:Hp; [|reflexivity].
        rewrite (Hext1 _ _ Hp) in H2. discriminate.
      * exists f, p. split; [right; exact Hf|exact Hrest].
    + intros n p Hp. apply Hext, Hext1, Hp.
    + exists (added1 ++ added). rewrite Htools, Htools1, app_assoc. reflexivity.
  - destruct (Hname Hne) as (Hget & Hfresh & Hreg1).
    destruct (IH (loaded ++ [name]) pm1) as (new & Ho & Hnd & Hnew & Hext & added & Htools).
    cbv zeta in *.
    exists (name :: new). split; [rewrite Ho, <- app_assoc; reflexivity|].
    split; [|split; [|split]].
    + apply NoDup_cons. split; [|exact Hnd].
      intros Hin. destruct (Hnew name Hin) as (_ & H2 & _). congruence.
    + intros n Hn. apply elem_of_cons in Hn. destruct Hn as [->|Hn].
      * split; [exact Hne|]. split; [exact Hfresh|].
        exists file, plugin. split; [left|]. split; [exact Hskip|].
        split; [exact Hinst|]. split; [exact Hget|]. apply Hext. exact Hreg1.
      * destruct (Hnew n Hn) as (H1 & H2 & f & p & Hf & Hrest).
        split; [exact H1|]. split.
        -- destruct (plugins pm !! n) as [p0|] eqn:Hp; [|reflexivity].
           rewrite (Hext1 _ _ Hp) in H2. discriminate.
        -- exists f, p. split; [right; exact Hf|exact Hrest].
    + intros n p Hp. apply Hext, Hext1, Hp.
    + exists (added1 ++ added). rewrite Htools, Htools1, app_assoc. reflexivity.
Qed.

(** X18: [load_plugins] returns a list of names, whatever the plugins do.
    The names are distinct and not empty; each is the name of a plugin of
    a file of the directory that is not skipped, was not registered
    before, and is registered afterwards with that plugin.  What was
    registered before stays registered, and the tool list only grows at
    its end. *)
Theorem X18_load_plugins_reports_registered
        (plugin_files : list (PluginFile World)) (pm : PluginManager World) :
  let r := load_plugins plugin_files pm in
  exists names,
    out r = Ok names /\
    NoDup names /\
    (forall n, n ∈ names ->
       n <> "" /\ plugins pm !! n = None /\
       exists file p, file ∈ plugin_files /\ _should_skip_file file = false /\
                      instance file = Some p /\ get_name p = Ok n /\
                      plugins (world r) !! n = Some p) /\
    (forall n p, plugins pm !! n = Some p -> plugins (world r) !! n = Some p) /\
    (exists added, tools (world r) = tools pm ++ added).
Proof. apply (load_files_inv plugin_files [] pm). Qed.

(** X19: a plugin whose [get_tools] raises.  [_register_plugin] has put
    it into [plugins] before it asks for the tools: the plugin stays
    registered, [has_plugin] answers [True] for its name and the count
    goes up, while the caller is told that the loading failed and no tool
    is added.  A later plugin of the same name is then turned away as a
    duplicate. *)
Theorem X19_failed_get_tools_leaves_plugin_registered
        (plugin : Plugin World) (file : string) (pm : PluginManager World)
        (name : string) (e : Exc) :
  get_name plugin = Ok name ->
  plugins pm !! name = None ->
  get_tools plugin = Raise e ->
  let r := _register_plugin plugin file pm in
  out r = Ok "" /\
  plugins (world r) = <[name := plugin]> (plugins pm) /\
  tools (world r) = tools pm /\
  Loader.has_plugin name (world r) = true /\
  Loader.get_plugin_count (world r) = S (Loader.get_plugin_count pm) /\
  forall plugin' file',
    get_name plugin' = Ok name ->
    out (_register_plugin plugin' file' (world r)) = Ok "" /\
    world (_register_plugin plugin' file' (world r)) = world r.
Proof.
  intros Hname Hfresh Htools. cbv zeta.
  assert (Hr : exists tr, _register_plugin plugin file pm =
                          mkRes (Ok "") (mkPluginManager (<[name := plugin]> (plugins pm))
                                                         (tools pm)) tr).
  { unfold _register_plugin, try_except, bind, lift, get, put, note, ret.
    rewrite Hname. cbn [out world trace]. rewrite Hfresh. cbn [out world trace plugins tools].
    rewrite Htools. cbn [out world trace]. eexists. reflexivity. }
  destruct Hr as [tr ->]. cbn [out world plugins tools].
  split; [reflexivity|]. split; [reflexivity|]. split; [reflexivity|].
  split; [|split].
  - unfold Loader.has_plugin. cbn [plugins]. rewrite lookup_insert_eq.
    apply bool_decide_eq_true_2. eauto.
  - unfold Loader.get_plugin_count. cbn [plugins]. apply map_size_insert_None. exact Hfresh.
  - intros plugin' file' Hname'.
    unfold _register_plugin, try_except, bind, lift, get, put, note, ret.
    rewrite Hname'. cbn [out world trace plugins]. rewrite lookup_insert_eq.
    cbn [out world trace]. split; reflexivity.
Qed.
End LoaderFacts.

(** ** The adapters: sessions, history and connection tests *)

Section SessionFacts.
Import AIClient.
Variable vendor : Vendor.
Variable config : Config.
Variable mentions_api_key : string -> bool.

(** X20: [initialize] followed by [create_chat_session] makes every
    adapter ready.  When [initialize] has succeeded on a fresh adapter and
    the vendor creates chats and answers requests, [create_chat_session]
    succeeds for each of the eight adapters, and the first [send_message]
    after it succeeds: also for the Claude, OpenAI and Cohere adapters,
    whose [initialize] alone does not create the message list. *)
Theorem X20_create_chat_session_makes_adapter_ready
        (p : Provider) (tools tools' : list string) (prompt : PyVal) :
  out (initialize vendor config mentions_api_key p tools new_adapter) = Ok tt ->
  (forall c model t, is_ok (chats_create vendor c model t) = true) ->
  (forall handle payload, is_ok (request vendor handle payload) = true) ->
  (forall response, is_ok (reply_entry vendor response) = true) ->
  let initialized := world (initialize vendor config mentions_api_key p tools new_adapter) in
  let session := Adapters.create_chat_session vendor config p tools' initialized in
  out session = Ok tt /\
  has_session (world session) = true /\
  is_ok (out (send_message vendor p prompt (world session))) = true.
Proof.
  intros Hinit Hchat Hreq Hreply. cbv zeta. revert Hinit.
  destruct p;
    unfold Adapters.create_chat_session, initialize, Gemini_initialize,
      Gemini_create_chat_session,
      Claude_initialize, OpenAI_initialize, Cohere_initialize, Mistral_initialize,
      Perplexity_initialize, Together_initialize, Ollama_initialize, initialize_with,
      reset_session, construct_client, import_vendor, auth_error,
      Adapters.Mistral_create_chat_session,
      Adapters.Ollama_create_chat_session, Adapters.Perplexity_create_chat_session,
      Adapters.Together_create_chat_session, Claude_create_chat_session,
      OpenAI_create_chat_session, Cohere_create_chat_session,
      send_message, Gemini_send_message, Claude_send_message, OpenAI_send_message,
      Cohere_send_message, Mistral_send_message, Ollama_send_message,
      Perplexity_send_message, Together_send_message, stateless_request, messages_append,
      has_session, modify, get, put, try_except, bind, lift, note, raise, ret;
    cbn;
    destruct (importable vendor) eqn:Himp; cbn;
    try (destruct (make_client vendor (get_current_api_key config)) as [c|e1]; cbn);
    try (destruct tools; cbn);
    repeat match goal with
           | |- context [chats_create vendor ?c ?m ?t] =>
             let E := fresh in
             pose proof (Hchat c m t) as E;
             destruct (chats_create vendor c m t); [clear E|discriminate E]; cbn
           end;
    try (destruct (isinstance _ ImportError); cbn);
    try (destruct (mentions_api_key _); cbn);
    intros Hinit; try discriminate;
    try (destruct tools'; cbn);
    repeat match goal with
           | |- context [chats_create vendor ?c ?m ?t] =>
             let E := fresh in
             pose proof (Hchat c m t) as E;
             destruct (chats_create vendor c m t); [clear E|discriminate E]; cbn
           | |- context [request vendor ?h ?x] =>
             let E := fresh in
             pose proof (Hreq h x) as E;
             destruct (request vendor h x); [clear E|discriminate E]; cbn
           | |- context [reply_entry vendor ?r] =>
             let E := fresh in
             pose proof (Hreply r) as E;
             destruct (reply_entry vendor r) as [[?|]|]; [clear E|clear E|discriminate E]; cbn
           end;
    rewrite ?Himp; cbn;
    repeat match goal with
           | |- context [request vendor ?h ?x] =>
             let E := fresh in
             pose proof (Hreq h x) as E;
             destruct (request vendor h x); [clear E|discriminate E]; cbn
           | |- context [reply_entry vendor ?r] =>
             let E := fresh in
             pose proof (Hreply r) as E;
             destruct (reply_entry vendor r) as [[?|]|]; [clear E|clear E|discriminate E]; cbn
           end;
    repeat split.
Qed.
(** X21: the conversation kept by the Claude, OpenAI, Ollama, Perplexity
    and Together adapters.  [send_message] appends the user's entry before
    it calls the vendor and sends the whole list.  When the vendor fails,
    the exception reaches the caller and the user's entry stays in the
    list; when it answers, the reply entry, if there is one, is appended
    after it.  The Cohere adapter extends its history only after the
    vendor has answered: a failed call leaves the adapter as it was. *)
Theorem X21_failed_send_keeps_user_entry
        (p : Provider) (a : Adapter) (m : list PyVal) (prompt : PyVal) :
  Adapters.keeps_messages p = true ->
  messages a = Some m ->
  let sent := m ++ [user_entry prompt] in
  let r := send_message vendor p prompt a in
  (forall e, request vendor (client a) (PList sent) = Raise e ->
     out r = Raise e /\ messages (world r) = Some sent) /\
  (forall response entry,
     request vendor (client a) (PList sent) = Ok response ->
     reply_entry vendor response = Ok entry ->
     out r = Ok response /\
     messages (world r) = Some (sent ++ match entry with Some e => [e] | None => [] end)) /\
  (forall h t e,
     chat_history a = Some h -> tool_functions a = Some t ->
     request vendor (client a) (PList (h ++ [prompt])) = Raise e ->
     out (send_message vendor CohereClient prompt a) = Raise e /\
     world (send_message vendor CohereClient prompt a) = a).
Proof.
  intros Hp Hm. cbv zeta.
  split; [|split].
  - intros e Hreq.
    destruct p; try discriminate;
      unfold send_message, Claude_send_message, OpenAI_send_message, Ollama_send_message,
        Perplexity_send_message, Together_send_message, stateless_request, messages_append,
        get, put, bind, lift, raise, ret;
      cbn; rewrite Hm; cbn; rewrite Hreq; cbn; split; reflexivity.
  - intros response entry Hreq Hentry.
    destruct p; try discriminate;
      unfold send_message, Claude_send_message, OpenAI_send_message, Ollama_send_message,
        Perplexity_send_message, Together_send_message, stateless_request, messages_append,
        get, put, bind, lift, raise, ret;
      cbn; rewrite Hm; cbn; rewrite Hreq; cbn; rewrite Hentry; cbn;
      destruct entry; cbn; rewrite ?app_nil_r; split; reflexivity.
  - intros h t e Hh Ht Hreq.
    unfold send_message, Cohere_send_message, get, modify, bind, lift, raise, ret.
    cbn. rewrite Ht. cbn. rewrite Hh. cbn. rewrite Hreq. cbn. split; reflexivity.
Qed.
End SessionFacts.

Section TestFacts.
Import AIClient.
Variable vendor : Vendor.
Variable probe : option PyVal -> Outcome PyVal.
Variable py_str : PyVal -> string.

(** Only objects have attributes, and objects count as true. *)
Lemma getattr_truthy o n v : getattr o n = Ok v -> truthy o = true.
Proof. destruct o; cbn; try discriminate. reflexivity. Qed.

(** X22: [test_connection] of every adapter returns a pair and leaves the
    adapter as it is, whatever the vendor does and whether or not the
    adapter has been initialized.  The answer is [True] only when the
    vendor's test call returned a response that counts as true, and the
    message is then "<Name> connection successful."; every other message
    starts with the name of the adapter. *)
Theorem X22_test_connection_never_raises (p : Provider) (a : Adapter) :
  let r := Adapters.test_connection vendor probe py_str p a in
  world r = a /\
  exists ok msg,
    out r = Ok (ok, msg) /\
    (ok = true ->
     msg = Adapters.label p +:+ " connection successful." /\
     exists handle response, probe handle = Ok response /\ truthy response = true) /\
    (ok = false -> String.prefix (Adapters.label p) msg = true).
Proof.
  cbv zeta.
  destruct p;
    unfold Adapters.test_connection, Adapters.Gemini_test_connection,
      Adapters.Claude_test_connection, Adapters.OpenAI_test_connection,
      Adapters.Cohere_test_connection, Adapters.Perplexity_test_connection,
      Adapters.Mistral_test_connection, Adapters.Ollama_test_connection,
      Adapters.Together_test_connection, Adapters.test_through_client,
      Adapters.test_failed, Adapters.through_client, Adapters.through_module,
      Adapters.answered, Adapters.label, try_except, bind, lift, note, raise, ret;
    cbn;
    try (destruct (importable vendor); cbn);
    try (destruct (vendor_module a); cbn);
    try (destruct (client a) as [c|]; cbn);
    try (match goal with
         | |- context [probe ?h] => destruct (probe h) as [response|e] eqn:Hprobe; cbn
         end);
    try (destruct (truthy response) eqn:Htruthy; cbn);
    try (destruct (getattr response _) as [v|e] eqn:Hattr; cbn);
    try (destruct (Adapters.contains_output response) as [[|]|e]; cbn);
    try (destruct (truthy v); cbn);
    try (destruct (Adapters.is_200 v); cbn);
    (split; [reflexivity|]);
    eexists _, _; (split; [reflexivity|]);
    (split; [intros Hok;
             first [discriminate
                   | split; [reflexivity|];
                     do 2 eexists; split; [exact Hprobe|];
                     first [exact Htruthy | eapply getattr_truthy; exact Hattr]]
            |intros Hok; first [discriminate | reflexivity]]).
Qed.
End TestFacts.

(** ** Setting up the bridge *)

Section SetupFacts.
Import AIClient.
Variable vendor : Vendor.
Variable config : Config.
Variable mentions_api_key : string -> bool.

(** X23: [_setup_ai_client] raises nothing but [GeminiAuthError], with a
    message that starts "Failed to initialize <provider> client: ".  A
    provider name that [create_ai_client] does not know is reported this
    way too, not as the [ValueError] of the factory.  When it returns, the
    adapter is the one the factory gives for the provider, initialized
    from a new object. *)
Theorem X23_setup_ai_client_raises_auth_errors (tools : list string) (a : Adapter) :
  let r := Startup._setup_ai_client vendor config mentions_api_key tools a in
  (forall e, out r = Raise e ->
     exc_class e = GeminiAuthError /\
     exists reason,
       exc_msg e = "Failed to initialize " +:+ ai_provider config +:+ " client: " +:+ reason) /\
  (forall e0, create_ai_client config = Raise e0 ->
     out r = Raise (exc GeminiAuthError
                      ("Failed to initialize " +:+ ai_provider config +:+
                       " client: Unsupported AI provider: " +:+ ai_provider config))) /\
  (forall p, out r = Ok p ->
     create_ai_client config = Ok p /\
     out (initialize vendor config mentions_api_key p tools new_adapter) = Ok tt /\
     world r = world (initialize vendor config mentions_api_key p tools new_adapter)).
Proof.
  cbv zeta. unfold Startup._setup_ai_client.
  rewrite out_try_except, world_try_except.
  rewrite !out_bind, !world_bind. cbn [lift out world].
  destruct (create_ai_client config) as [p|e0] eqn:Hcreate.
  - repeat (progress (rewrite ?out_bind, ?world_bind; cbn [lift put note ret raise out world])).
    destruct (out (initialize vendor config mentions_api_key p tools new_adapter))
      as [[]|e1] eqn:Hinit.
    + split; [intros e H; discriminate|]. split; [intros e0 H; discriminate|].
      intros p' H. inversion H; subst. auto.
    + split; [|split; [intros e0 H; discriminate|intros p' H; discriminate]].
      intros e H. inversion H; subst. cbn [exc_class exc_msg exc].
      split; [reflexivity|eexists; reflexivity].
  - repeat (progress (rewrite ?out_bind, ?world_bind; cbn [lift put note ret raise out world])).
    split; [|split; [|intros p' H; discriminate]].
    + intros e H. inversion H; subst. cbn [exc_class exc_msg exc].
      split; [reflexivity|eexists; reflexivity].
    + intros e0' He0. inversion He0; subst e0'.
      unfold create_ai_client in Hcreate.
      repeat match type of Hcreate with
             | (if ?b then _ else _) = _ => destruct b; [discriminate|]
             end.
      inversion Hcreate; subst. reflexivity.
Qed.
End SetupFacts.

Section ConnectionFacts.
Import AIClient.
Context {World : Type}.
Variable api : Obsidian.Api World.
Variable vendor : Vendor.
Variable config : Config.
Variable probe : option PyVal -> Outcome PyVal.
Variable py_str : PyVal -> string.
Variable title : string -> string.

(** X24: [GeodeBridge.test_connection] tests the vault first.  When that
    test fails it answers "Obsidian Connection Failed: ..." and does not
    touch the adapter: the trace holds the events of the vault only.  When
    it succeeds the adapter is tested next, and the answer is [True] with
    "All connections successful ..." exactly when the adapter's test
    answers [True], else "AI Provider Connection Failed: ..." with the
    adapter's message.  An exception of the vault's test reaches the
    caller. *)
Theorem X24_bridge_tests_vault_first (p : Provider) (w : World) (a : Adapter) :
  let r := Startup.test_connection api vendor config probe py_str title p (w, a) in
  let obsidian := Obsidian.test_connection api w in
  let ai := Adapters.test_connection vendor probe py_str p a in
  (forall e, out obsidian = Raise e -> out r = Raise e) /\
  (forall msg, out obsidian = Ok (false, msg) ->
     r = mkRes (Ok (false, "Obsidian Connection Failed: " +:+ msg))
               (world obsidian, a) (map inl (trace obsidian))) /\
  (forall msg, out obsidian = Ok (true, msg) ->
     trace r = map inl (trace obsidian) ++ map inr (trace ai) /\
     forall ok ai_msg,
       out ai = Ok (ok, ai_msg) ->
       out r = Ok (if ok
                   then (true, "All connections successful (Obsidian + " +:+
                               title (ai_provider config) +:+ ").")
                   else (false, "AI Provider Connection Failed: " +:+ ai_msg))).
Proof.
  cbv zeta.
  unfold Startup.test_connection, Startup.on_obsidian, Startup.on_ai_client, bind, ret.
  cbn [fst snd].
  destruct (Obsidian.test_connection api w) as [[[ok msg]|e] w1 t1]; cbn [out world trace fst snd].
  - destruct ok; cbn [negb fst snd].
    + split; [intros e H; discriminate|]. split; [intros m H; discriminate|].
      intros m _.
      destruct (Adapters.test_connection vendor probe py_str p a) as [[[ok2 msg2]|e2] a2 t2];
        cbn [out world trace fst snd].
      * destruct ok2; cbn [negb out world trace]; rewrite ?app_nil_r;
          (split; [reflexivity|]); intros ok' m' H; inversion H; subst; reflexivity.
      * split; [reflexivity|]. intros ok' m' H. discriminate.
    + split; [intros e H; discriminate|]. split; [|intros m H; discriminate].
      intros m H. inversion H; subst. rewrite app_nil_r. reflexivity.
  - split; [intros e' H; inversion H; reflexivity|].
    split; intros m H; discriminate.
Qed.
End ConnectionFacts.

(** ** The configuration *)

Section ValidationFacts.
Import AIClient.
Variable strip : string -> string.
Variable py_int : string -> option Z.

Lemma valid_string_strip s : Settings._is_valid_string strip s = true -> strip s <> "".
Proof.
  unfold Settings._is_valid_string. destruct (String.eqb_spec (strip s) ""); [discriminate|auto].
Qed.

(** X25: what [validate] accepts.  A configuration that it declares valid
    names one of the eight providers, so [create_ai_client] returns an
    adapter for it; the key that [get_current_api_key] gives for that
    provider is not blank, except for Ollama, which has a base URL that is
    not blank; the port is a number from 1 to 65535 and the timeout is
    positive.  A provider name outside the eight is rejected with a message
    that lists them. *)
Theorem X25_validate_accepts_usable_configurations (c : Settings.Configuration) :
  (forall message,
     Settings.validate strip py_int c = (true, message) ->
     message = "Configuration is valid." /\
     (exists p,
        create_ai_client (Settings.provider c) = Ok p /\
        (p <> OllamaClient -> strip (get_current_api_key (Settings.provider c)) <> "") /\
        (p = OllamaClient -> strip (ollama_base_url (Settings.provider c)) <> "")) /\
     strip (Settings.obsidian_api_key c) <> "" /\
     strip (model_name (Settings.provider c)) <> "" /\
     strip (Settings.obsidian_host c) <> "" /\
     (exists port, py_int (Settings.obsidian_port c) = Some port /\ (1 <= port <= 65535)%Z) /\
     (0 < Settings.request_timeout c)%Z /\
     strip (Settings.chat_history_file c) <> "" /\
     strip (Settings.plugin_directory c) <> "") /\
  (ai_provider (Settings.provider c) ∉ Settings.valid_providers ->
   Settings.validate strip py_int c =
   (false, "Invalid AI provider: " +:+ ai_provider (Settings.provider c) +:+
           ". Must be one of: gemini, claude, openai, cohere, mistral, ollama, perplexity, together")).
Proof.
  destruct c as [[g cl o co mi pe to ol prov model] okey oport ohost timeout pdir hfile].
  unfold Settings.validate, Settings.provider_error, create_ai_client, get_current_api_key.
  cbn [Settings.provider Settings.obsidian_api_key Settings.obsidian_port
       Settings.obsidian_host Settings.request_timeout Settings.plugin_directory
       Settings.chat_history_file ai_provider model_name gemini_api_key claude_api_key
       openai_api_key cohere_api_key mistral_api_key perplexity_api_key together_api_key
       ollama_base_url].
  split.
  - intros message.
    assert (Hrest : forall p : Provider,
               (if negb (Settings._is_valid_string strip okey)
                then (false, "Obsidian API key cannot be empty.")
                else if negb (Settings._is_valid_string strip model)
                then (false, "Model name cannot be empty.")
                else if negb (Settings._is_valid_string strip ohost)
                then (false, "Obsidian host cannot be empty.")
                else match py_int oport with
                     | None => (false, "Obsidian port must be a valid number.")
                     | Some port =>
                       if negb ((1 <=? port)%Z && (port <=? 65535)%Z)
                       then (false, "Obsidian port must be a number between 1 and 65535.")
                       else if (timeout <=? 0)%Z
                       then (false, "Request timeout must be a positive number.")
                       else if negb (Settings._is_valid_string strip hfile)
                       then (false, "Chat history file path cannot be empty.")
                       else if negb (Settings._is_valid_string strip pdir)
                       then (false, "Plugin directory cannot be empty.")
                       else (true, "Configuration is valid.")
                     end) = (true, message) ->
               message = "Configuration is valid." /\
               strip okey <> "" /\ strip model <> "" /\ strip ohost <> "" /\
               (exists port, py_int oport = Some port /\ (1 <= port <= 65535)%Z) /\
               (0 < timeout)%Z /\ strip hfile <> "" /\ strip pdir <> "").
    { intros _.
      destruct (Settings._is_valid_string strip okey) eqn:H1; cbn [negb]; [|discriminate].
      destruct (Settings._is_valid_string strip model) eqn:H2; cbn [negb]; [|discriminate].
      destruct (Settings._is_valid_string strip ohost) eqn:H3; cbn [negb]; [|discriminate].
      destruct (py_int oport) as [port|]; [|discriminate].
      destruct ((1 <=? port)%Z && (port <=? 65535)%Z) eqn:H4; cbn [negb]; [|discriminate].
      destruct (Z.leb_spec timeout 0) as [|H5]; [discriminate|].
      destruct (Settings._is_valid_string strip hfile) eqn:H6; cbn [negb]; [|discriminate].
      destruct (Settings._is_valid_string strip pdir) eqn:H7; cbn [negb]; [|discriminate].
      intros H. inversion H; subst.
      apply andb_true_iff in H4. destruct H4 as [H4a H4b].
      apply Z.leb_le in H4a, H4b.
      repeat split; eauto using valid_string_strip. }
    repeat match goal with
           | |- context [String.eqb prov ?s] =>
             destruct (String.eqb_spec prov s) as [->|?];
               cbn [String.eqb Ascii.eqb Bool.eqb]
           end;
      try (intros H; discriminate H);
      match goal with
      | |- context [Settings._is_valid_string strip ?k] =>
        destruct (Settings._is_valid_string strip k) eqn:Hkey; cbn [negb];
          [|intros H; discriminate H]
      end;
      intros H;
      match goal with
      | |- context [Ok ?p] =>
        destruct (Hrest p H) as (Hm & Hk & Hmodel & Hhost & Hport & Ht & Hf & Hd)
      end;
      (split; [exact Hm|]);
      (split; [eexists; split; [reflexivity|];
               split; [intros Hn; first [contradiction | apply valid_string_strip; exact Hkey]
                      |intros Hn; first [discriminate | apply valid_string_strip; exact Hkey]]
              |auto 10]).
  - intros Hprov.
    repeat match goal with
           | |- context [String.eqb prov ?s] =>
             destruct (String.eqb_spec prov s) as [->|?];
               [exfalso; apply Hprov; apply (bool_decide_unpack _); reflexivity|]
           end.
    reflexivity.
Qed.
End ValidationFacts.

Section OverrideFacts.
Variable getenv : string -> option string.

Lemma assoc_none {V} key (l : list (string * V)) :
  key ∉ map fst l -> assoc key l = None.
Proof.
  induction l as [|[k v] l IH]; intros Hk; [reflexivity|].
  cbn [map fst] in Hk. apply not_elem_of_cons in Hk. destruct Hk as [Hne Hk].
  cbn [assoc]. destruct (String.eqb_spec key k); [contradiction|apply IH; exact Hk].
Qed.

Lemma fold_overrides (l : list (string * string)) :
  NoDup (map fst l) ->
  forall (acc : gmap string PyVal * list string) key,
  fst (foldl (fun acc kv =>
                match getenv (snd kv) with
                | Some value =>
                  if String.eqb value "" then acc
                  else (<[fst kv := PStr value]> (fst acc),
                        snd acc ++ ["Overriding config with environment variable for: " +:+
                                    fst kv])
                | None => acc
                end) acc l) !! key
  = match assoc key l with
    | Some variable =>
      match getenv variable with
      | Some value => if String.eqb value "" then fst acc !! key else Some (PStr value)
      | None => fst acc !! key
      end
    | None => fst acc !! key
    end.
Proof.
  induction l as [|[k v] l IH]; intros Hnd acc key; [reflexivity|].
  cbn [map fst] in Hnd. apply NoDup_cons in Hnd. destruct Hnd as [Hk Hnd].
  cbn [foldl assoc fst snd]. rewrite (IH Hnd).
  destruct (String.eqb_spec key k) as [->|Hne].
  - rewrite (assoc_none k l Hk).
    destruct (getenv v) as [value|]; [|reflexivity].
    destruct (String.eqb value ""); [reflexivity|].
    cbn [fst]. apply lookup_insert_eq.
  - assert (Hsame : fst (match getenv v with
                         | Some value =>
                           if String.eqb value "" then acc
                           else (<[k := PStr value]> (fst acc),
                                 snd acc ++ ["Overriding config with environment variable for: "
                                             +:+ k])
                         | None => acc
                         end) !! key = fst acc !! key).
    { destruct (getenv v) as [value|]; [|reflexivity].
      destruct (String.eqb value ""); [reflexivity|].
      cbn [fst]. apply lookup_insert_ne. congruence. }
    rewrite Hsame. reflexivity.
Qed.

(** X26: [_apply_env_overrides] changes a key exactly when the key is one
    of the thirteen that have an environment variable and that variable is
    set to a string that is not empty; the key then holds that string.
    Every other key, and a key whose variable is unset or empty, keeps what
    the configuration file gave it. *)
Theorem X26_environment_overrides_nonempty_only
        (config_data : gmap string PyVal) (key : string) :
  fst (Settings._apply_env_overrides getenv config_data) !! key
  = match assoc key Settings.env_overrides with
    | Some variable =>
      match getenv variable with
      | Some value => if String.eqb value "" then config_data !! key else Some (PStr value)
      | None => config_data !! key
      end
    | None => config_data !! key
    end.
Proof.
  unfold Settings._apply_env_overrides. rewrite fold_overrides; [reflexivity|].
  apply (bool_decide_unpack _). reflexivity.
Qed.
End OverrideFacts.

(** ** The extension client *)

Section ExtensionFacts.
Import MCP.
Context {World : Type}.
Variable read_json : string -> option (Outcome PyVal).

Lemma unchanged_refl (c : MCPClient World) : unchanged_but_servers c c.
Proof. repeat split. Qed.

Lemma unchanged_trans (c1 c2 c3 : MCPClient World) :
  unchanged_but_servers c1 c2 -> unchanged_but_servers c2 c3 -> unchanged_but_servers c1 c3.
Proof.
  intros (E1 & C1 & T1 & D1) (E2 & C2 & T2 & D2).
  repeat split; try congruence.
  intros H. rewrite D2 by congruence. auto.
Qed.

Lemma add_server_config_unchanged config (c : MCPClient World) :
  unchanged_but_servers c (world (add_server_config config c)).
Proof.
  unfold add_server_config, bind, get, put, lift, note, ret.
  cbn [out world trace].
  destruct (enabled c) eqn:He; cbn [negb out world trace]; [|apply unchanged_refl].
  destruct (History.hash_key (name config)) as [k|e]; cbn [out world trace];
    [|apply unchanged_refl].
  repeat split; cbn; congruence.
Qed.

Lemma add_servers_unchanged l (c : MCPClient World) :
  unchanged_but_servers c (world (add_servers l c)).
Proof.
  revert c. induction l as [|x l IH]; intros c; [apply unchanged_refl|].
  cbn [add_servers]. rewrite !world_bind. cbn [lift out world].
  destruct (server_from_dict x) as [config|e]; [|apply unchanged_refl].
  rewrite world_bind.
  destruct (out (add_server_config config c)).
  - eapply unchanged_trans; [apply add_server_config_unchanged|apply IH].
  - apply add_server_config_unchanged.
Qed.

Lemma load_server_configs_unchanged path (c : MCPClient World) :
  unchanged_but_servers c (world (load_server_configs read_json path c)).
Proof.
  unfold load_server_configs. rewrite world_bind. cbn [get out world].
  destruct (enabled c) eqn:He; cbn [negb ret world]; [|apply unchanged_refl].
  destruct (read_json path) as [loaded|]; [|apply unchanged_refl].
  rewrite world_try_except. rewrite !out_bind, !world_bind. cbn [lift out world].
  destruct loaded as [data|e]; [|apply unchanged_refl].
  rewrite !out_bind, !world_bind. cbn [lift out world].
  destruct (obind (Obsidian.dict_get data "servers") iterate) as [l|e]; [|apply unchanged_refl].
  repeat (progress (rewrite ?out_bind, ?world_bind; cbn [get note ret out world])).
  pose proof (add_servers_unchanged l c) as H.
  destruct (out (add_servers l c)); exact H.
Qed.

Lemma connect_each_world l results (c : MCPClient World) :
  world (connect_each l results c) = c /\
  exists r, out (connect_each l results c) = Ok r /\
            (forall k, k ∈ map fst r <-> k ∈ map fst results \/ k ∈ map fst l) /\
            (Forall (fun kv => snd kv = false) results -> Forall (fun kv => snd kv = false) r).
Proof.
  assert (Hset : forall k (d : list (History.Key * bool)) k',
             k' ∈ map fst (dict_set k false d) <-> k' = k \/ k' ∈ map fst d).
  { intros k d k'. induction d as [|[k0 b] d IH]; cbn [dict_set map fst].
    - rewrite list_elem_of_singleton, elem_of_nil. tauto.
    - destruct (decide (k = k0)) as [->|Hne]; cbn [map fst]; rewrite !elem_of_cons.
      + tauto.
      + rewrite IH. tauto. }
  assert (Hfalse : forall k (d : list (History.Key * bool)),
             Forall (fun kv => snd kv = false) d ->
             Forall (fun kv => snd kv = false) (dict_set k false d)).
  { intros k d H. induction H as [|[k0 b] d Hb Hd IH]; cbn [dict_set].
    - repeat constructor.
    - destruct (decide (k = k0)); constructor; auto. }
  revert results. induction l as [|[server config] l IH]; intros results.
  { cbn. split; [reflexivity|]. exists results. split; [reflexivity|].
    split; [intros k; rewrite elem_of_nil; tauto|auto]. }
  cbn [connect_each].
  destruct (IH (dict_set server false results)) as (Hw & r & Ho & Hkeys & Hvals).
  destruct (truthy (server_enabled config)); cbn [negb];
    repeat (progress (rewrite ?out_bind, ?world_bind; cbn [note ret out world]));
    (split; [exact Hw|]); exists r; (split; [exact Ho|]);
    (split; [intros k; rewrite (Hkeys k), Hset; cbn [map fst]; rewrite elem_of_cons; tauto
            |intros H; apply Hvals, Hfalse, H]).
Qed.

Lemma connect_to_servers_unchanged (c : MCPClient World) :
  world (connect_to_servers c) = c.
Proof.
  unfold connect_to_servers. rewrite world_bind. cbn [get out world].
  destruct (enabled c); cbn [negb ret world]; [|reflexivity].
  apply connect_each_world.
Qed.

Lemma disconnect_all_idle (c : MCPClient World) :
  let c' := world (disconnect_all c) in
  enabled c' = enabled c /\ servers c' = servers c /\
  (enabled c = false -> c' = c) /\
  (enabled c = true -> connected_servers c' = [] /\ available_tools c' = []).
Proof.
  cbv zeta. unfold disconnect_all. rewrite world_bind. cbn [get out world].
  destruct (enabled c) eqn:He; cbn [negb ret world]; [|repeat split; auto; discriminate].
  assert (Hloop : forall (l : list (History.Key * PyVal)) (c0 : MCPClient World),
             out (foldr (fun kv rest => note (LogDisconnected (fst kv)) ;;; rest) (ret tt) l c0)
             = Ok tt /\
             world (foldr (fun kv rest => note (LogDisconnected (fst kv)) ;;; rest) (ret tt) l c0)
             = c0).
  { induction l as [|kv l IH]; intros c0; [split; reflexivity|].
    cbn [foldr]. rewrite out_bind, world_bind. cbn [note out world]. apply IH. }
  destruct (Hloop (connected_servers c) c) as [Ho Hw].
  rewrite world_bind, Ho, Hw.
  repeat (progress (rewrite ?out_bind, ?world_bind; cbn [put note ret out world])).
  cbn. repeat split; auto. intros H; congruence.
Qed.

(** X27: the extension client never offers a tool.  After any sequence of
    calls of [add_server_config], [load_server_configs],
    [connect_to_servers] and [disconnect_all] on a new client, whatever the
    configuration files hold and whether the calls return or raise, the
    client has no connection and no tool: [get_available_tools] returns the
    empty list and [get_connected_count] zero, so the tool list of the
    bridge is made of the built-in tools and the plugin tools alone.  A
    client that was created disabled has no server either. *)
Theorem X27_extension_client_offers_no_tool
        (enable_mcp : bool) (calls : list Call)
        (builtin : list (Bridge.Tool World)) (pm : Plugins.PluginManager World) :
  let c := after_calls (World := World) read_json enable_mcp calls in
  enabled c = enable_mcp /\
  connected_servers c = [] /\ available_tools c = [] /\
  get_available_tools c = [] /\ get_connected_count c = 0 /\
  (enable_mcp = false -> servers c = [] /\ get_server_count c = 0) /\
  Plugins._setup_tool_functions builtin pm (get_available_tools c)
  = builtin ++ Plugins.get_all_tools pm.
Proof.
  cbv zeta.
  assert (Hinv : enabled (after_calls (World := World) read_json enable_mcp calls) = enable_mcp /\
                 connected_servers (after_calls (World := World) read_json enable_mcp calls) = [] /\
                 available_tools (after_calls (World := World) read_json enable_mcp calls) = [] /\
                 (enable_mcp = false -> servers (after_calls (World := World) read_json enable_mcp calls) = [])).
  { unfold after_calls. induction calls as [|call calls IH] using rev_ind.
    - cbn. auto.
    - rewrite foldl_app. cbn [foldl].
      set (c := foldl (fun c call => after read_json call c) (fst (new_client (World := World) enable_mcp)) calls)
        in *.
      destruct IH as (He & Hc & Ht & Hs).
      destruct call as [config|path| |]; cbn [after].
      + destruct (add_server_config_unchanged config c) as (E & C & T & D).
        repeat split; try congruence. intros H. rewrite D by congruence. auto.
      + destruct (load_server_configs_unchanged path c) as (E & C & T & D).
        repeat split; try congruence. intros H. rewrite D by congruence. auto.
      + rewrite connect_to_servers_unchanged. auto.
      + destruct (disconnect_all_idle c) as (E & S & D & I). cbv zeta in *.
        destruct enable_mcp.
        * destruct (I He) as [I1 I2]. repeat split; try congruence.
        * rewrite D by exact He. auto. }
  destruct Hinv as (He & Hc & Ht & Hs).
  assert (Hg : get_available_tools (after_calls (World := World) read_json enable_mcp calls) = []).
  { unfold get_available_tools. rewrite Ht. destruct (negb _); reflexivity. }
  split; [exact He|]. split; [exact Hc|]. split; [exact Ht|].
  split; [exact Hg|]. split.
  { unfold get_connected_count. rewrite Hc. destruct (enabled _); reflexivity. }
  split.
  { intros H. split; [apply Hs; exact H|].
    unfold get_server_count. rewrite He, H. reflexivity. }
  rewrite Hg. unfold Plugins._setup_tool_functions. rewrite app_nil_r. reflexivity.
Qed.

(** X28: [connect_to_servers] connects to nothing.  It returns normally
    and leaves the client as it is; its result names exactly the
    configured servers of an enabled client, each with [False], and is
    empty for a disabled client. *)
Theorem X28_connect_to_servers_connects_nothing (c : MCPClient World) :
  let r := connect_to_servers c in
  world r = c /\
  exists connection_results,
    out r = Ok connection_results /\
    Forall (fun kv => snd kv = false) connection_results /\
    (forall server, server ∈ map fst connection_results <->
                    enabled c = true /\ server ∈ map fst (servers c)).
Proof.
  cbv zeta. split; [apply connect_to_servers_unchanged|].
  unfold connect_to_servers. rewrite out_bind. cbn [get out world].
  destruct (enabled c); cbn [negb ret out].
  - destruct (connect_each_world (servers c) [] c) as (_ & r & Ho & Hkeys & Hvals).
    exists r. split; [exact Ho|]. split; [apply Hvals; constructor|].
    intros server. rewrite (Hkeys server). cbn [map]. rewrite elem_of_nil. tauto.
  - exists []. split; [reflexivity|]. split; [constructor|].
    intros server. cbn [map]. rewrite elem_of_nil. split; [tauto|]. intros [H _]. discriminate H.
Qed.


End ExtensionFacts.

(** ** Runs that meet the conditions of the properties above *)

(** A vault whose root directory is empty, listed with room for ten
    nested calls. *)
Lemma X5_empty_vault_is_listed_as_an_entry_witness :
  out (Obsidian.list_files ListingExamples.empty_vault "." tt)
  = Ok "SUCCESS: The directory '.' is empty." /\
  out (Vault.list_all_files ListingExamples.empty_vault ListingExamples.strip 10 tt)
  = Ok "SUCCESS:\nSUCCESS: The directory '.' is empty.".
Proof.
  split; [reflexivity|].
  apply (X5_empty_vault_is_listed_as_an_entry
           ListingExamples.empty_vault ListingExamples.strip 9 tt); reflexivity.
Defined.


Lemma one_chat_keyed : Sessions.keyed_by_id SessionExamples.one_chat.
Proof.
  split.
  - apply NoDup_singleton.
  - repeat constructor.
Qed.

Lemma two_chats_keyed : Sessions.keyed_by_id SessionExamples.two_chats.
Proof.
  split.
  - cbn. apply NoDup_cons. split; [|apply NoDup_singleton].
    rewrite list_elem_of_singleton. discriminate.
  - repeat constructor.
Qed.

(** One chat, saved to "chat_history.json" on an empty disk and loaded
    by a new manager. *)
Lemma X9_saved_history_loads_back_witness :
  let saved := world (save_history SessionExamples.io_sound "chat_history.json" 50
                                   SessionExamples.one_chat_world) in
  files saved !! "chat_history.json" = Some SessionExamples.one_chat_text /\
  files saved !! "chat_history.tmp" = None /\
  sessions (world (Sessions.new_manager SessionExamples.io_sound "chat_history.json" saved))
  = SessionExamples.one_chat.
Proof.
  apply (X9_saved_history_loads_back SessionExamples.io_sound "chat_history.json" 50
           SessionExamples.one_chat_world "chat_history.tmp" SessionExamples.one_chat_text).
  - exact one_chat_keyed.
  - cbn. lia.
  - reflexivity.
  - discriminate.
  - reflexivity.
  - reflexivity.
  - reflexivity.
  - discriminate.
  - reflexivity.
Defined.

(** The first of two chats is deleted. *)
Lemma X12_delete_session_removes_witness :
  let r := Sessions.delete_session SessionExamples.io_sound "chat_history.json" 50
                                   "a1b2c3d4e5f6" SessionExamples.two_chats_world in
  out r = Ok true /\
  Sessions.lookup (KStr "a1b2c3d4e5f6") (sessions (world r)) = None.
Proof.
  destruct (X12_delete_session_removes SessionExamples.io_sound "chat_history.json" 50
              "a1b2c3d4e5f6" SessionExamples.two_chats_world two_chats_keyed)
    as (Hout & _ & Hgone & _).
  split; [exact Hout | exact Hgone].
Defined.

(** Two chats under a bound of one. *)
Lemma X14_save_history_trims_to_bound_witness :
  let r := save_history SessionExamples.io_sound "chat_history.json" 1
                        SessionExamples.two_chats_world in
  (Z.of_nat (length (sessions (world r))) <= 1)%Z /\
  Sessions.keyed_by_id (sessions (world r)).
Proof.
  destruct (X14_save_history_trims_to_bound SessionExamples.io_sound "chat_history.json" 1
              SessionExamples.two_chats_world) as (Hlen & _ & Hkeyed).
  - lia.
  - exact two_chats_keyed.
  - repeat constructor; eexists; reflexivity.
  - split; [exact Hlen | exact Hkeyed].
Defined.

(** The provider is down and the error signal of the user interface
    raises: the error signal is emitted once, with the provider's
    failure. *)
Lemma X15_provider_failure_is_reported_witness :
  let r := send_message Examples.broken_ui_env bridge_py_types "hi" tt in
  executed (trace r) = [] /\ count is_message (trace r) = 0.
Proof.
  destruct (X15_provider_failure_is_reported Examples.broken_ui_env bridge_py_types
              "hi" tt tt (exc VendorError "503 Service Unavailable") eq_refl)
    as (o1 & o2 & _ & _ & Hexec & Hmsg).
  split; [exact Hexec | exact Hmsg].
Defined.

(** The model asks for [list_files] and the dispatch map is empty. *)
Lemma X16_unknown_tool_aborts_round_witness :
  let r := send_message RoundExamples.no_tools_env bridge_py_types "hi" tt in
  trace r =
    [EvSend (Prompt "hi") (Ok Examples.one_call);
     EvEmit (SigToolCall "list_files()") (Ok tt);
     Bridge.EvLog Bridge.ERROR
                  "Tool execution failed: Unknown tool function requested: list_files";
     EvEmit (SigError "Tool execution failed: Unknown tool function requested: list_files")
            (Ok tt);
     EvEmit (SigMessage "Geode" "(No text response)") (Ok tt);
     EvEmit SigFinished (Ok tt)] /\
  out r = Ok tt.
Proof.
  apply (X16_unknown_tool_aborts_round RoundExamples.no_tools_env bridge_py_types
           "hi" tt Examples.one_call (Examples.function_call "list_files" []) []
           "list_files" [] "").
  - intros s w. reflexivity.
  - reflexivity.
  - reflexivity.
  - reflexivity.
  - reflexivity.
  - reflexivity.
  - reflexivity.
Defined.

(** The faulty plugin, loaded by a new manager. *)
Lemma X19_failed_get_tools_leaves_plugin_registered_witness :
  let r := Plugins._register_plugin LoaderExamples.faulty_plugin "faulty.py"
                                    Plugins.new_manager in
  out r = Ok "" /\
  Loader.has_plugin "faulty" (world r) = true /\
  Loader.get_plugin_count (world r) = 1.
Proof.
  destruct (X19_failed_get_tools_leaves_plugin_registered
              LoaderExamples.faulty_plugin "faulty.py" Plugins.new_manager "faulty"
              (exc PlainException "database is locked") eq_refl eq_refl eq_refl)
    as (Hout & _ & _ & Hhas & Hcount & _).
  split; [exact Hout|]. split; [exact Hhas | exact Hcount].
Defined.

(** The Claude adapter with a vendor library that works. *)
Lemma X20_create_chat_session_makes_adapter_ready_witness :
  let config := AIExamples.config_for "claude" "sk-ant-test" in
  let initialized :=
    world (AIClient.initialize AIExamples.working_vendor config AIExamples.no_hint
                               AIClient.ClaudeClient ["list_files"] AIClient.new_adapter) in
  let session :=
    Adapters.create_chat_session AIExamples.working_vendor config AIClient.ClaudeClient
                                 ["list_files"] initialized in
  out session = Ok tt /\
  AIClient.has_session (world session) = true /\
  is_ok (out (AIClient.send_message AIExamples.working_vendor AIClient.ClaudeClient
                                    (PStr "hello") (world session))) = true.
Proof.
  apply (X20_create_chat_session_makes_adapter_ready AIExamples.working_vendor
           (AIExamples.config_for "claude" "sk-ant-test") AIExamples.no_hint
           AIClient.ClaudeClient ["list_files"] ["list_files"] (PStr "hello")).
  - reflexivity.
  - intros c model t. reflexivity.
  - intros handle payload. reflexivity.
  - intros response. reflexivity.
Defined.

(** An OpenAI adapter in the middle of a conversation, with a vendor
    whose service is down. *)
Lemma X21_failed_send_keeps_user_entry_witness :
  let r := AIClient.send_message AdapterExamples.unavailable AIClient.OpenAIClient
                                 (PStr "and then?") AdapterExamples.talking in
  out r = Raise (exc VendorError "503 Service Unavailable") /\
  AIClient.messages (world r)
  = Some [AIClient.user_entry (PStr "hello"); AIClient.user_entry (PStr "and then?")].
Proof.
  destruct (X21_failed_send_keeps_user_entry AdapterExamples.unavailable
              AIClient.OpenAIClient AdapterExamples.talking
              [AIClient.user_entry (PStr "hello")] (PStr "and then?") eq_refl eq_refl)
    as (Hfail & _ & _).
  apply Hfail. reflexivity.
Defined.
